(** * Media ingestion pipeline of the video editor backend

    A shallow embedding of [backend/storage.py] (classification,
    validation, storage naming, metadata extraction, thumbnail
    generation) together with the Python library functions it calls,
    and the properties of the pipeline stated against that embedding.

    Conventions.
    - A Python [str] is a Rocq [string]; a character is the code point
      U+0000..U+00FF with the same number.  The classifier is embedded
      a second time for the file names of all code points, in the
      module [Unicode]; the two agree where both are defined.
    - A Python [int] is a [Z].
    - A function that may raise returns a [result]; the exception is a
      value of [exn].
    - [os.path] is [posixpath].
    - What the functions print is left out. *)

From Stdlib Require Import ZArith Ascii String List Bool Lia.
From stdpp Require Import base decidable option gmap strings pretty.

Set Warnings "-register-all".
Local Open Scope string_scope.
Local Open Scope Z_scope.

(** ** Exceptions and results *)

(** The exception classes that the pipeline and its libraries raise.
    [SystemExit] and [KeyboardInterrupt] derive from [BaseException]
    only; every other class derives from [Exception]. *)
Inductive exn : Type :=
  | HTTPException (status_code : Z) (detail : string)
  | TypeError
  | ValueError
  | KeyError (key : string)
  | AttributeError
  | ZeroDivisionError
  | OverflowError
  | SyntaxError
  | NameError
  | OSError (errno : Z)
  | FfmpegError
  | UnidentifiedImageError
  | SystemExit
  | KeyboardInterrupt.

(** [isinstance(e, Exception)] *)
Definition is_Exception (e : exn) : bool :=
  match e with
  | SystemExit | KeyboardInterrupt => false
  | _ => true
  end.

Inductive result (A : Type) : Type :=
  | Ok (a : A)
  | Raise (e : exn).
Arguments Ok {A} a.
Arguments Raise {A} e.

(** Sequencing: the first exception raised ends the computation. *)
#[global] Instance result_ret : MRet result := fun _ a => Ok a.
#[global] Instance result_bind : MBind result := fun _ _ k m =>
  match m with
  | Ok a => k a
  | Raise e => Raise e
  end.

(** [try: body  except Exception: handler] *)
Definition try_except {A : Type} (body : result A) (handler : exn -> result A)
  : result A :=
  match body with
  | Ok a => Ok a
  | Raise e => if is_Exception e then handler e else Raise e
  end.

(** ** Strings *)

(** [str.lower] on one code point below U+0100: the upper-case letters
    are A..Z and U+00C0..U+00DE without the multiplication sign U+00D7,
    each 32 below its lower-case letter. *)
Definition lower_char (c : ascii) : ascii :=
  let n := N_of_ascii c in
  if (((65 <=? n) && (n <=? 90)) ||
      ((192 <=? n) && (n <=? 222) && negb (n =? 215)))%N
  then ascii_of_N (n + 32) else c.

Fixpoint lower (s : string) : string :=
  match s with
  | EmptyString => EmptyString
  | String c t => String (lower_char c) (lower t)
  end.

(** [p[:n]] and [p[n:]] for [0 <= n]. *)
Fixpoint str_take (n : nat) (s : string) : string :=
  match n, s with
  | S k, String c t => String c (str_take k t)
  | _, _ => EmptyString
  end.

Fixpoint str_drop (n : nat) (s : string) : string :=
  match n, s with
  | S k, String _ t => str_drop k t
  | _, _ => s
  end.

(** [p.rfind(c)] for a one-character [c]: the index of the last
    occurrence, or [-1]. *)
Fixpoint rfind_from (c : ascii) (s : string) (i last : Z) : Z :=
  match s with
  | EmptyString => last
  | String a t => rfind_from c t (i + 1) (if Ascii.eqb a c then i else last)
  end.

Definition rfind (c : ascii) (s : string) : Z := rfind_from c s 0 (-1).

(** ** [os.path.splitext]

    [genericpath._splitext(p, sep='/', altsep=None, extsep='.')]:
<<
    sepIndex = p.rfind(sep)
    dotIndex = p.rfind(extsep)
    if dotIndex > sepIndex:
        # skip all leading dots
        filenameIndex = sepIndex + 1
        while filenameIndex < dotIndex:
            if p[filenameIndex:filenameIndex+1] != extsep:
                return p[:dotIndex], p[dotIndex:]
            filenameIndex += 1
    return p, p[:0]
>>
    [splitext_scan] is the [while] loop, run for the [dotIndex -
    filenameIndex] iterations that remain. *)
Fixpoint splitext_scan (p : string) (dotIndex : Z) (remaining : nat)
    (filenameIndex : Z) : string * string :=
  match remaining with
  | O => (p, "")
  | S k =>
      match String.get (Z.to_nat filenameIndex) p with
      | Some c =>
          if Ascii.eqb c "." then splitext_scan p dotIndex k (filenameIndex + 1)
          else (str_take (Z.to_nat dotIndex) p, str_drop (Z.to_nat dotIndex) p)
      | None => (str_take (Z.to_nat dotIndex) p, str_drop (Z.to_nat dotIndex) p)
      end
  end.

Definition splitext (p : string) : string * string :=
  let sepIndex := rfind "/" p in
  let dotIndex := rfind "." p in
  if dotIndex >? sepIndex
  then splitext_scan p dotIndex (Z.to_nat (dotIndex - (sepIndex + 1))) (sepIndex + 1)
  else (p, "").

(** ** Classifier and validator ([storage.py], lines 13-49) *)

Definition MAX_FILE_SIZE : Z := 100 * 1024 * 1024.

Definition SUPPORTED_VIDEO_TYPES : gset string :=
  {[ ".mp4"; ".mov"; ".avi"; ".mkv"; ".webm" ]}.
Definition SUPPORTED_AUDIO_TYPES : gset string :=
  {[ ".mp3"; ".wav"; ".aac"; ".m4a"; ".ogg" ]}.
Definition SUPPORTED_IMAGE_TYPES : gset string :=
  {[ ".jpg"; ".jpeg"; ".png"; ".gif"; ".webp" ]}.

(** The three strings ["video"], ["audio"], ["image"] that
    [get_file_type] returns. *)
Inductive file_type : Type := video | audio | image.

Definition file_type_str (k : file_type) : string :=
  match k with
  | video => "video"
  | audio => "audio"
  | image => "image"
  end.

Definition get_file_type (filename : string) : result file_type :=
  let ext := lower (snd (splitext filename)) in
  if decide (ext ∈ SUPPORTED_VIDEO_TYPES) then Ok video
  else if decide (ext ∈ SUPPORTED_AUDIO_TYPES) then Ok audio
  else if decide (ext ∈ SUPPORTED_IMAGE_TYPES) then Ok image
  else Raise (HTTPException 400 ("Unsupported file type: " ++ ext)).

(** [fastapi.UploadFile]: the declared name, the declared size ([None]
    when the client sent none) and the bytes of the spooled body. *)
Record UploadFile : Type := {
  filename : string;
  size : option Z;
  file : list ascii
}.

Definition validate_file (f : UploadFile) : result unit :=
  too_large ← match size f with
              | Some n => Ok (n >? MAX_FILE_SIZE)
              | None => Raise TypeError
              end;
  if (too_large : bool) then
    Raise (HTTPException 400
             ("File too large. Maximum size is "
                ++ pretty (MAX_FILE_SIZE `div` (1024 * 1024)) ++ "MB"))
  else
    _ ← get_file_type (filename f);
    Ok tt.

(** The two validation failures of the specification. *)
Definition UnsupportedType (e : exn) : Prop :=
  exists ext, e = HTTPException 400 ("Unsupported file type: " ++ ext).

Definition TooLarge (e : exn) : Prop :=
  e = HTTPException 400 "File too large. Maximum size is 100MB".

(** ** Binary64 floating point

    A Python [float] is an IEEE 754 binary64 number.  [Finite neg m e]
    is [(-1)^neg * m * 2^e] with [0 <= m < 2^53] and
    [-1074 <= e <= 971]. *)
Inductive float : Type :=
  | Finite (neg : bool) (m e : Z)
  | Infinity (neg : bool)
  | NaN.

(** The integer nearest to [num / den], ties to the even one. *)
Definition round_half_even (num den : Z) : Z :=
  let q := num `div` den in
  match 2 * (num `mod` den) ?= den with
  | Lt => q
  | Eq => if Z.even q then q else q + 1
  | Gt => q + 1
  end.

(** The fraction [(num / den) / 2^e]. *)
Definition scale2 (num den e : Z) : Z * Z :=
  if 0 <=? e then (num, den * 2 ^ e) else (num * 2 ^ (- e), den).

(** Round to nearest, ties to even: the binary64 number nearest to
    [(-1)^neg * num / den] for [0 <= num] and [0 < den]; a magnitude too
    large for a finite number rounds to infinity. *)
Definition round64 (neg : bool) (num den : Z) : float :=
  if num =? 0 then Finite neg 0 (-1074)
  else
    let e0 := Z.log2 num - Z.log2 den - 52 in
    let '(n0, d0) := scale2 num den e0 in
    let e1 := if 2 ^ 52 * d0 <=? n0 then e0 else e0 - 1 in
    let e := Z.max e1 (-1074) in
    let '(n, d) := scale2 num den e in
    let m := round_half_even n d in
    let '(m, e) := if m =? 2 ^ 53 then (2 ^ 52, e + 1) else (m, e) in
    if 971 <? e then Infinity neg else Finite neg m e.

(** The value of a finite float as a signed fraction with a positive
    denominator. *)
Definition signed (neg : bool) (m : Z) : Z := if neg then - m else m.

Definition fraction (neg : bool) (m e : Z) : Z * Z :=
  if 0 <=? e then (signed neg m * 2 ^ e, 1) else (signed neg m, 2 ^ (- e)).

Definition float_is_zero (f : float) : bool :=
  match f with
  | Finite _ m _ => m =? 0
  | _ => false
  end.

(** [float(z)] for an [int]; [OverflowError] when the nearest float is
    not finite.  The same rounding gives the true division [a / b] of
    two [int]s. *)
Definition finite_or_overflow (f : float) : result float :=
  match f with
  | Infinity _ => Raise OverflowError
  | _ => Ok f
  end.

Definition float_of_int (z : Z) : result float :=
  finite_or_overflow (round64 (z <? 0) (Z.abs z) 1).

Definition int_truediv (a b : Z) : result float :=
  if b =? 0 then Raise ZeroDivisionError
  else finite_or_overflow
         (round64 (xorb (a <? 0) (b <? 0)) (Z.abs a) (Z.abs b)).

(** [a < b] and [a >= b] on floats; both are false when an operand is
    NaN. *)
Definition float_lt (a b : float) : bool :=
  match a, b with
  | NaN, _ | _, NaN => false
  | Infinity na, Infinity nb => na && negb nb
  | Infinity na, Finite _ _ _ => na
  | Finite _ _ _, Infinity nb => negb nb
  | Finite na ma ea, Finite nb mb eb =>
      let '(pa, qa) := fraction na ma ea in
      let '(pb, qb) := fraction nb mb eb in
      pa * qb <? pb * qa
  end.

Definition float_ge (a b : float) : bool :=
  match a, b with
  | NaN, _ | _, NaN => false
  | _, _ => negb (float_lt a b)
  end.

Definition float_abs (a : float) : float :=
  match a with
  | Finite _ m e => Finite false m e
  | Infinity _ => Infinity false
  | NaN => NaN
  end.

(** [a * b], [a - b] and [a / b] on floats: the exact result, rounded. *)
Definition float_mul (a b : float) : float :=
  match a, b with
  | NaN, _ | _, NaN => NaN
  | Infinity na, Infinity nb => Infinity (xorb na nb)
  | Infinity na, Finite nb mb _ | Finite nb mb _, Infinity na =>
      if mb =? 0 then NaN else Infinity (xorb na nb)
  | Finite na ma ea, Finite nb mb eb =>
      let e := ea + eb in
      round64 (xorb na nb) (ma * mb * 2 ^ Z.max e 0) (2 ^ Z.max (- e) 0)
  end.

Definition float_sub (a b : float) : float :=
  match a, b with
  | NaN, _ | _, NaN => NaN
  | Infinity na, Infinity nb => if Bool.eqb na nb then NaN else Infinity na
  | Infinity na, Finite _ _ _ => Infinity na
  | Finite _ _ _, Infinity nb => Infinity (negb nb)
  | Finite na ma ea, Finite nb mb eb =>
      let e := Z.min ea eb in
      let v := signed na ma * 2 ^ (ea - e) - signed nb mb * 2 ^ (eb - e) in
      let neg := if v =? 0 then na && negb nb else v <? 0 in
      round64 neg (Z.abs v * 2 ^ Z.max e 0) (2 ^ Z.max (- e) 0)
  end.

Definition float_div (a b : float) : result float :=
  if float_is_zero b then Raise ZeroDivisionError
  else Ok
    match a, b with
    | NaN, _ | _, NaN => NaN
    | Infinity _, Infinity _ => NaN
    | Infinity na, Finite nb _ _ => Infinity (xorb na nb)
    | Finite na _ _, Infinity nb => Finite (xorb na nb) 0 (-1074)
    | Finite na ma ea, Finite nb mb eb =>
        let e := ea - eb in
        round64 (xorb na nb) (ma * 2 ^ Z.max e 0) (mb * 2 ^ Z.max (- e) 0)
    end.

(** [math.floor], [math.ceil] and [int] (truncation) of a float. *)
Definition float_floor (a : float) : result Z :=
  match a with
  | Finite neg m e => let '(p, q) := fraction neg m e in Ok (p `div` q)
  | Infinity _ => Raise OverflowError
  | NaN => Raise ValueError
  end.

Definition float_ceil (a : float) : result Z :=
  match a with
  | Finite neg m e => let '(p, q) := fraction neg m e in Ok (- ((- p) `div` q))
  | Infinity _ => Raise OverflowError
  | NaN => Raise ValueError
  end.

Definition float_trunc (a : float) : result Z :=
  match a with
  | Finite neg m e => let '(p, q) := fraction false m e in Ok (signed neg (p `div` q))
  | Infinity _ => Raise OverflowError
  | NaN => Raise ValueError
  end.

(** ** Python values

    The values that [json.loads] builds from the output of the probe,
    and that the metadata dictionaries hold.  A [dict] is the list of
    its items; a key occurs once. *)
Inductive pyval : Type :=
  | PyNone
  | PyBool (b : bool)
  | PyInt (z : Z)
  | PyFloat (f : float)
  | PyStr (s : string)
  | PyList (l : list pyval)
  | PyDict (d : list (string * pyval)).

Definition dict : Type := list (string * pyval).

Fixpoint dict_lookup (k : string) (d : dict) : option pyval :=
  match d with
  | [] => None
  | (k', v) :: t => if String.eqb k k' then Some v else dict_lookup k t
  end.

(** [x[k]] for a string key [k] *)
Definition py_getitem (x : pyval) (k : string) : result pyval :=
  match x with
  | PyDict d => match dict_lookup k d with
                | Some v => Ok v
                | None => Raise (KeyError k)
                end
  | _ => Raise TypeError
  end.

(** [x.get(k, default)] *)
Definition py_get (x : pyval) (k : string) (dflt : pyval) : result pyval :=
  match x with
  | PyDict d => Ok (default dflt (dict_lookup k d))
  | _ => Raise AttributeError
  end.

(** [x == s] for a string [s] *)
Definition py_eq_str (x : pyval) (s : string) : bool :=
  match x with
  | PyStr s' => String.eqb s' s
  | _ => false
  end.

(** [bool(x)] *)
Definition py_truth (x : pyval) : bool :=
  match x with
  | PyNone => false
  | PyBool b => b
  | PyInt z => negb (z =? 0)
  | PyFloat f => negb (float_is_zero f)
  | PyStr s => negb (String.eqb s "")
  | PyList l => match l with [] => false | _ => true end
  | PyDict d => match d with [] => false | _ => true end
  end.

(** [iter(x)]: the items that a [for] over [x] yields. *)
Definition py_iter (x : pyval) : result (list pyval) :=
  match x with
  | PyList l => Ok l
  | PyDict d => Ok (map (fun kv => PyStr (fst kv)) d)
  | PyStr s => Ok (map (fun c => PyStr (String c "")) (list_ascii_of_string s))
  | _ => Raise TypeError
  end.

(** ** [int(x)] and [float(x)] *)

Definition is_digit (c : ascii) : bool :=
  let n := N_of_ascii c in ((48 <=? n) && (n <=? 57))%N.

Definition digit_val (c : ascii) : Z := Z.of_N (N_of_ascii c) - 48.

(** The white space that [int] and [float] strip from both ends of a
    string: the ASCII white space, U+0085 and U+00A0. *)
Definition is_space (c : ascii) : bool :=
  let n := N_of_ascii c in
  (((9 <=? n) && (n <=? 13)) || (n =? 32) || (n =? 133) || (n =? 160))%N.

Fixpoint lstrip (s : string) : string :=
  match s with
  | String c t => if is_space c then lstrip t else s
  | EmptyString => EmptyString
  end.

Fixpoint rstrip (s : string) : string :=
  match s with
  | String c t =>
      let t' := rstrip t in
      if is_space c && String.eqb t' "" then "" else String c t'
  | EmptyString => EmptyString
  end.

Definition strip (s : string) : string := rstrip (lstrip s).

(** A run of decimal digits in which single underscores may separate
    digits: its value and its number of digits. *)
Fixpoint digitpart (s : string) (after_digit : bool) (acc n : Z)
  : option (Z * Z) :=
  match s with
  | EmptyString => if after_digit then Some (acc, n) else None
  | String c t =>
      if is_digit c then digitpart t true (10 * acc + digit_val c) (n + 1)
      else if Ascii.eqb c "_" && after_digit then digitpart t false acc n
      else None
  end.

(** An optional sign. *)
Definition split_sign (s : string) : bool * string :=
  match s with
  | String c t =>
      if Ascii.eqb c "-" then (true, t)
      else if Ascii.eqb c "+" then (false, t)
      else (false, s)
  | EmptyString => (false, s)
  end.

(** [int(s)] for a string, base 10.  A string of more than 4300 digits
    is refused ([sys.int_info.default_max_str_digits]). *)
Definition int_of_str (s : string) : result Z :=
  let '(neg, body) := split_sign (strip s) in
  match digitpart body false 0 0 with
  | Some (v, n) => if 4300 <? n then Raise ValueError else Ok (signed neg v)
  | None => Raise ValueError
  end.

(** The part of [s] before the first character that satisfies [p], and
    the part after it when there is one. *)
Fixpoint split_first (p : ascii -> bool) (s : string) : string * option string :=
  match s with
  | EmptyString => (EmptyString, None)
  | String c t =>
      if p c then (EmptyString, Some t)
      else let '(a, b) := split_first p t in (String c a, b)
  end.

(** A possibly empty run of digits. *)
Definition digitpart_opt (s : string) : option (Z * Z) :=
  match s with
  | EmptyString => Some (0, 0)
  | _ => digitpart s false 0 0
  end.

(** [float(s)] for a string: an optional sign, then [inf], [infinity]
    or [nan] in any case, or a decimal number
    [digits [. digits] [e [sign] digits]] with a digit before or after
    the point; the value is rounded to nearest. *)
Definition float_of_str (s : string) : result float :=
  let '(neg, body) := split_sign (strip s) in
  let name := lower body in
  if String.eqb name "inf" || String.eqb name "infinity" then Ok (Infinity neg)
  else if String.eqb name "nan" then Ok NaN
  else
    let '(mant, expo) :=
      split_first (fun c => Ascii.eqb c "e" || Ascii.eqb c "E") body in
    let '(ipart, fpart) := split_first (fun c => Ascii.eqb c ".") mant in
    let expo_val :=
      match expo with
      | None => Some 0
      | Some x =>
          let '(eneg, edigits) := split_sign x in
          match digitpart edigits false 0 0 with
          | Some (v, _) => Some (signed eneg v)
          | None => None
          end
      end in
    match digitpart_opt ipart, digitpart_opt (default "" fpart), expo_val with
    | Some (iv, ni), Some (fv, nf), Some ex =>
        if ni + nf =? 0 then Raise ValueError
        else
          let p := ex - nf in
          Ok (round64 neg ((iv * 10 ^ nf + fv) * 10 ^ Z.max p 0)
                (10 ^ Z.max (- p) 0))
    | _, _, _ => Raise ValueError
    end.

Definition py_int (x : pyval) : result Z :=
  match x with
  | PyInt z => Ok z
  | PyBool b => Ok (if b then 1 else 0)
  | PyFloat f => float_trunc f
  | PyStr s => int_of_str s
  | _ => Raise TypeError
  end.

Definition py_float (x : pyval) : result float :=
  match x with
  | PyFloat f => Ok f
  | PyInt z => float_of_int z
  | PyBool b => Ok (round64 false (if b then 1 else 0) 1)
  | PyStr s => float_of_str s
  | _ => Raise TypeError
  end.

(** ** [eval]

    The builtin evaluates any Python expression.  Its result is written
    out for the expressions that the probe prints for a frame rate, a
    decimal integer literal and a quotient of two of them, of at most
    300 digits each; the result for every other string is the
    environment's, [eval_other]. *)

Fixpoint all_chars (p : ascii -> bool) (s : string) : bool :=
  match s with
  | EmptyString => true
  | String c t => p c && all_chars p t
  end.

(** A decimal integer literal of plain digits: a run of zeros, or a
    run that starts with a non-zero digit; any other run of digits is a
    syntax error. *)
Definition decinteger (s : string) : option (result Z) :=
  if all_chars is_digit s && negb (String.eqb s "")
     && (Z.of_nat (String.length s) <=? 300)
  then
    match digitpart s false 0 0 with
    | Some (v, _) =>
        if all_chars (fun c => Ascii.eqb c "0") s then Some (Ok 0)
        else match s with
             | String c _ =>
                 if Ascii.eqb c "0" then Some (Raise SyntaxError)
                 else Some (Ok v)
             | EmptyString => None
             end
    | None => None
    end
  else None.

Definition eval_str (eval_other : string -> result pyval) (s : string)
  : result pyval :=
  match split_first (fun c => Ascii.eqb c "/") s with
  | (a, None) =>
      match decinteger a with
      | Some r => n ← r; Ok (PyInt n)
      | None => eval_other s
      end
  | (a, Some b) =>
      match decinteger a, decinteger b with
      | Some ra, Some rb =>
          n ← ra; d ← rb; f ← int_truediv n d; Ok (PyFloat f)
      | _, _ => eval_other s
      end
  end.

Definition py_eval (eval_other : string -> result pyval) (x : pyval)
  : result pyval :=
  match x with
  | PyStr s => eval_str eval_other s
  | _ => Raise TypeError
  end.

(** ** The environment and the state of the pipeline *)

(** What a file holds: the bytes that were copied into it, or a JPEG
    encoding of an image of the given size. *)
Inductive file_data : Type :=
  | RawBytes (b : list ascii)
  | JpegImage (width height : Z).

(** [PIL.Image.Image] as [Image.open] returns it: the header fields,
    and the outcome of decoding the pixel data, which [load] raises when
    the data is damaged. *)
Record pil_image : Type := {
  img_width : Z;
  img_height : Z;
  img_format : pyval;
  img_mode : string;
  img_load : result unit
}.

(** The configuration and the external tools.
    - [UPLOAD_DIR], [THUMBNAIL_DIR]: the two roots, read from the
      process environment when the module is loaded;
    - [os_urandom k]: the [k]-th draw of 16 random bytes, as a number;
    - [ffprobe path data]: what [ffmpeg.probe] returns for the file;
    - [ffmpeg_run path data]: the outcome of the frame extraction, and
      whether a frame was written;
    - [image_open data]: what [Image.open] returns for the file;
    - [eval_other]: [eval] on the strings not covered by [eval_str]. *)
Record World : Type := {
  UPLOAD_DIR : string;
  THUMBNAIL_DIR : string;
  os_urandom : nat -> Z;
  ffprobe : string -> file_data -> result pyval;
  ffmpeg_run : string -> file_data -> result bool;
  image_open : file_data -> result pil_image;
  eval_other : string -> result pyval
}.

(** The files, the free space in bytes, and the number of random draws
    made so far.  [disk_free] follows the bytes of the originals: the
    space that a thumbnail takes, and a thumbnail that fails for lack
    of space, are outside the model, and nothing is stated of the free
    space once a thumbnail is written. *)
Record state : Type := {
  fs : gmap string file_data;
  disk_free : nat;
  draws : nat
}.

(** A computation that may change the state and may raise. *)
Definition io (A : Type) : Type := state -> result A * state.

#[global] Instance io_ret : MRet io := fun _ a st => (Ok a, st).
#[global] Instance io_bind : MBind io := fun _ _ k m st =>
  match m st with
  | (Ok a, st') => k a st'
  | (Raise e, st') => (Raise e, st')
  end.

Definition lift {A : Type} (r : result A) : io A := fun st => (r, st).

(** A computation that reads the state. *)
Definition read {A : Type} (f : state -> result A) : io A :=
  fun st => (f st, st).

Definition try_except_io {A : Type} (body : io A) (handler : exn -> io A)
  : io A := fun st =>
  match body st with
  | (Ok a, st') => (Ok a, st')
  | (Raise e, st') => if is_Exception e then handler e st' else (Raise e, st')
  end.

(** ** [uuid.uuid4] and [str(UUID)] *)

(** [UUID(bytes=os.urandom(16), version=4).int] *)
Definition uuid4_int (r : Z) : Z :=
  let i := r `mod` 2 ^ 128 in
  let i := Z.land i (Z.lnot (Z.shiftl 0xc000 48)) in
  let i := Z.lor i (Z.shiftl 0x8000 48) in
  let i := Z.land i (Z.lnot (Z.shiftl 0xf000 64)) in
  Z.lor i (Z.shiftl 4 76).

Definition uuid4 (w : World) : io Z := fun st =>
  (Ok (uuid4_int (os_urandom w (draws st))),
   {| fs := fs st; disk_free := disk_free st; draws := S (draws st) |}).

Definition hexdigit (n : Z) : ascii :=
  default "0"%char (String.get (Z.to_nat n) "0123456789abcdef").

(** ['%0kx' % n] for [0 <= n < 16^k] *)
Fixpoint hex_fixed (k : nat) (n : Z) : string :=
  match k with
  | O => ""
  | S k' => hex_fixed k' (n `div` 16) ++ String (hexdigit (n `mod` 16)) ""
  end.

(** [str(u)]: the 32 hexadecimal digits in groups of 8, 4, 4, 4, 12. *)
Definition uuid_str (i : Z) : string :=
  let hex := hex_fixed 32 i in
  str_take 8 hex ++ "-" ++ str_take 4 (str_drop 8 hex) ++ "-"
    ++ str_take 4 (str_drop 12 hex) ++ "-" ++ str_take 4 (str_drop 16 hex)
    ++ "-" ++ str_drop 20 hex.

(** ** [os.path.join(a, b)] *)

Definition starts_with_sep (s : string) : bool :=
  match s with
  | String c _ => Ascii.eqb c "/"
  | EmptyString => false
  end.

Fixpoint ends_with_sep (s : string) : bool :=
  match s with
  | EmptyString => false
  | String c EmptyString => Ascii.eqb c "/"
  | String _ t => ends_with_sep t
  end.

Definition path_join (a b : string) : string :=
  if starts_with_sep b then b
  else if String.eqb a "" || ends_with_sep a then a ++ b
  else a ++ "/" ++ b.

(** ** Writing the original asset *)

(** The file at [path] becomes [data]. *)
Definition put_file (path : string) (data : file_data) : io unit := fun st =>
  (Ok tt,
   {| fs := <[path := data]> (fs st);
      disk_free := disk_free st; draws := draws st |}).

(** [open(path, "wb")]: the file is created, or emptied; the space of
    an emptied file is not given back. *)
Definition open_wb (path : string) : io unit := put_file path (RawBytes []).

Definition ENOSPC : Z := 28.

(** [buffer.write(buf)]: the bytes are appended while space is left;
    when the space runs out, the bytes that fit stay in the file and
    the write raises [OSError(ENOSPC)]. *)
Definition file_write (path : string) (buf : list ascii) : io unit := fun st =>
  let old := match fs st !! path with
             | Some (RawBytes b) => b
             | _ => []
             end in
  if decide (length buf <= disk_free st)%nat then
    (Ok tt,
     {| fs := <[path := RawBytes (old ++ buf)]> (fs st);
        disk_free := (disk_free st - length buf)%nat; draws := draws st |})
  else
    (Raise (OSError ENOSPC),
     {| fs := <[path := RawBytes (old ++ take (disk_free st) buf)]> (fs st);
        disk_free := O; draws := draws st |}).

Definition COPY_BUFSIZE : nat := 64 * 1024.

(** [shutil.copyfileobj(fsrc, fdst)]:
<<
    while buf := fsrc.read(COPY_BUFSIZE):
        fdst.write(buf)
>>
    [rounds] bounds the number of iterations; [S (length fsrc)] is
    enough, every iteration but the last reads a byte or more. *)
Fixpoint copy_rounds (rounds : nat) (fsrc : list ascii) (path : string)
  : io unit :=
  match rounds with
  | O => mret tt
  | S k =>
      match take COPY_BUFSIZE fsrc with
      | [] => mret tt
      | buf => _ ← file_write path buf;
               copy_rounds k (drop COPY_BUFSIZE fsrc) path
      end
  end.

Definition copyfileobj (fsrc : list ascii) (path : string) : io unit :=
  copy_rounds (S (length fsrc)) fsrc path.

(** ** Metadata extraction ([storage.py], lines 79-128) *)

(** [next((s for s in streams if s['codec_type'] == kind), None)] *)
Fixpoint first_stream (kind : string) (streams : list pyval)
  : result pyval :=
  match streams with
  | [] => Ok PyNone
  | s :: t =>
      codec_type ← py_getitem s "codec_type";
      if py_eq_str codec_type kind then Ok s else first_stream kind t
  end.

(** [ffmpeg.probe(file_path)]; the probe exits with an error when the
    file does not exist. *)
Definition ffmpeg_probe (w : World) (file_path : string) (st : state)
  : result pyval :=
  match fs st !! file_path with
  | Some data => ffprobe w file_path data
  | None => Raise FfmpegError
  end.

Definition extract_video_metadata (w : World) (file_path : string)
    (st : state) : result dict :=
  try_except
    (probe ← ffmpeg_probe w file_path st;
     streams ← py_getitem probe "streams" ≫= py_iter;
     video_stream ← first_stream "video" streams;
     if py_truth video_stream then
       width ← py_get video_stream "width" (PyInt 0) ≫= py_int;
       height ← py_get video_stream "height" (PyInt 0) ≫= py_int;
       format ← py_getitem probe "format";
       duration ← py_get format "duration" (PyInt 0) ≫= py_float;
       fps ← py_get video_stream "r_frame_rate" (PyStr "30/1")
               ≫= py_eval (eval_other w);
       codec ← py_get video_stream "codec_name" (PyStr "unknown");
       Ok [("width", PyInt width); ("height", PyInt height);
           ("duration", PyFloat duration); ("fps", fps); ("codec", codec)]
     else Ok [])
    (fun _ => Ok []).

Definition extract_audio_metadata (w : World) (file_path : string)
    (st : state) : result dict :=
  try_except
    (probe ← ffmpeg_probe w file_path st;
     streams ← py_getitem probe "streams" ≫= py_iter;
     audio_stream ← first_stream "audio" streams;
     if py_truth audio_stream then
       format ← py_getitem probe "format";
       duration ← py_get format "duration" (PyInt 0) ≫= py_float;
       codec ← py_get audio_stream "codec_name" (PyStr "unknown");
       sample_rate ← py_get audio_stream "sample_rate" (PyInt 0) ≫= py_int;
       channels ← py_get audio_stream "channels" (PyInt 0) ≫= py_int;
       Ok [("duration", PyFloat duration); ("codec", codec);
           ("sample_rate", PyInt sample_rate); ("channels", PyInt channels)]
     else Ok [])
    (fun _ => Ok []).

Definition ENOENT : Z := 2.

(** [Image.open(file_path)] *)
Definition Image_open (w : World) (file_path : string) (st : state)
  : result pil_image :=
  match fs st !! file_path with
  | Some data => image_open w data
  | None => Raise (OSError ENOENT)
  end.

Definition extract_image_metadata (w : World) (file_path : string)
    (st : state) : result dict :=
  try_except
    (img ← Image_open w file_path st;
     Ok [("width", PyInt (img_width img)); ("height", PyInt (img_height img));
         ("format", img_format img)])
    (fun _ => Ok []).

(** ** [upload_file_to_storage] ([storage.py], lines 51-77) *)

Definition upload_file_to_storage (w : World) (f : UploadFile)
  : io (string * file_type * dict) :=
  _ ← lift (validate_file f);
  let file_ext := lower (snd (splitext (filename f))) in
  u ← uuid4 w;
  let unique_filename := uuid_str u ++ file_ext in
  let file_path := path_join (UPLOAD_DIR w) unique_filename in
  _ ← open_wb file_path;
  _ ← copyfileobj (file f) file_path;
  file_type ← lift (get_file_type (filename f));
  metadata ← match file_type with
             | video => read (extract_video_metadata w file_path)
             | audio => read (extract_audio_metadata w file_path)
             | image => read (extract_image_metadata w file_path)
             end;
  mret (file_path, file_type, metadata).

(** ** [PIL.Image.Image.thumbnail] and [save]

    The size that [thumbnail((x, y))] gives an image of size
    [width] x [height] (as of Pillow 10):
<<
    def round_aspect(number, key):
        return max(min(math.floor(number), math.ceil(number), key=key), 1)

    if x >= self.width and y >= self.height:
        return
    aspect = self.width / self.height
    if x / y >= aspect:
        x = round_aspect(y * aspect, key=lambda n: abs(aspect - n / y))
    else:
        y = round_aspect(
            x / aspect, key=lambda n: 0 if n == 0 else abs(aspect - x / n))
    return x, y
>>
    [min] keeps its first argument unless the key of the second is
    smaller. *)
Definition round_aspect (number : float) (key : Z -> result float)
  : result Z :=
  lo ← float_floor number;
  hi ← float_ceil number;
  key_lo ← key lo;
  key_hi ← key hi;
  Ok (Z.max (if float_lt key_hi key_lo then hi else lo) 1).

Definition preserve_aspect_ratio (x y width height : Z)
  : result (option (Z * Z)) :=
  if (x >=? width) && (y >=? height) then Ok None
  else
    aspect ← int_truediv width height;
    box ← int_truediv x y;
    if float_ge box aspect then
      fy ← float_of_int y;
      x' ← round_aspect (float_mul fy aspect)
             (fun n => q ← int_truediv n y;
                       Ok (float_abs (float_sub aspect q)));
      Ok (Some (x', y))
    else
      fx ← float_of_int x;
      number ← float_div fx aspect;
      y' ← round_aspect number
             (fun n => if n =? 0 then Ok (Finite false 0 (-1074))
                       else q ← int_truediv x n;
                            Ok (float_abs (float_sub aspect q)));
      Ok (Some (x, y')).

(** [img.thumbnail((x, y))]: the size of the image afterwards.  The
    pixel data is decoded when the image has to be resized. *)
Definition Image_thumbnail (img : pil_image) (x y : Z) : result (Z * Z) :=
  size ← preserve_aspect_ratio x y (img_width img) (img_height img);
  match size with
  | None => Ok (img_width img, img_height img)
  | Some final_size => _ ← img_load img; Ok final_size
  end.

(** The modes that the JPEG encoder writes. *)
Definition JPEG_MODES : gset string :=
  {[ "1"; "L"; "RGB"; "RGBX"; "CMYK"; "YCbCr" ]}.

(** [img.save(path, "JPEG")] for an image of size [size]: the pixel
    data is decoded, an image in a mode that JPEG cannot hold is refused
    with [OSError], and the encoded image is written.  A refused image
    leaves no file.  The bytes of the encoded image are not taken from
    [disk_free], see [state]. *)
Definition Image_save_jpeg (img : pil_image) (size : Z * Z) (path : string)
  : io unit :=
  _ ← lift (img_load img);
  if decide (img_mode img ∈ JPEG_MODES) then
    put_file path (JpegImage (fst size) (snd size))
  else lift (Raise (OSError 0)).

(** ** [generate_thumbnail] ([storage.py], lines 130-157) *)

(** [ffmpeg.input(file_path, ss=1).output(thumbnail_path, vframes=1,
    s='320x240').overwrite_output().run(quiet=True)]: when the run
    succeeds and a frame was decoded, the frame, scaled to the size
    [s], is written as a JPEG image.  Its bytes are not taken from
    [disk_free], see [state]. *)
Definition ffmpeg_frame (w : World) (file_path thumbnail_path : string)
    (s : Z * Z) : io unit := fun st =>
  match fs st !! file_path with
  | None => (Raise FfmpegError, st)
  | Some data =>
      match ffmpeg_run w file_path data with
      | Raise e => (Raise e, st)
      | Ok false => (Ok tt, st)
      | Ok true => put_file thumbnail_path (JpegImage (fst s) (snd s)) st
      end
  end.

Definition generate_thumbnail (w : World) (file_path : string)
    (file_type : file_type) : io (option string) :=
  try_except_io
    (u ← uuid4 w;
     let thumbnail_filename := uuid_str u ++ ".jpg" in
     let thumbnail_path := path_join (THUMBNAIL_DIR w) thumbnail_filename in
     match file_type with
     | video =>
         _ ← ffmpeg_frame w file_path thumbnail_path (320, 240);
         mret (Some thumbnail_path)
     | image =>
         img ← read (Image_open w file_path);
         size ← lift (Image_thumbnail img 320 240);
         _ ← Image_save_jpeg img size thumbnail_path;
         mret (Some thumbnail_path)
     | audio => mret None
     end)
    (fun _ => mret None).

(** ** The pipeline

    The two pipeline steps of the upload route [upload_media_file]
    ([routes/media.py], lines 23-26): the result of
    [upload_file_to_storage] and the thumbnail path, from which the
    route builds the stored record.  The database record and the
    exception handler of the route belong to the routing layer. *)
Definition ingestion_pipeline (w : World) (f : UploadFile)
  : io (string * file_type * dict * option string) :=
  '(file_path, file_type, metadata) ← upload_file_to_storage w f;
  thumbnail_path ← generate_thumbnail w file_path file_type;
  mret (file_path, file_type, metadata, thumbnail_path).

(** ** The members of the three fixed sets, as the specification lists
    them *)
Definition VIDEO_EXTENSIONS : list string :=
  [".mp4"; ".mov"; ".avi"; ".mkv"; ".webm"].
Definition AUDIO_EXTENSIONS : list string :=
  [".mp3"; ".wav"; ".aac"; ".m4a"; ".ogg"].
Definition IMAGE_EXTENSIONS : list string :=
  [".jpg"; ".jpeg"; ".png"; ".gif"; ".webp"].

(** * File names over all of Unicode

    The definitions above take a file name as a string of the
    characters U+0000..U+00FF.  A Python [str] holds any code points;
    the module [Unicode] embeds the classifier of [storage.py], lines
    24-38, for the file names of all of them: [os.path.splitext] as
    above, and [str.lower] as CPython 3.11 computes it from the tables
    of Unicode 14.0. *)

(** A Python [str]: the list of its code points. *)
Abbreviation ustr := (list N) (only parsing).

(** The [str] that a string of the characters U+0000..U+00FF stands
    for. *)
Definition codes (s : string) : ustr :=
  map N_of_ascii (list_ascii_of_string s).

Module Unicode.

(** ** [str.lower]

    [unicodeobject.c]:
<<
    static int
    lower_ucs4(int kind, const void *data, Py_ssize_t length,
               Py_ssize_t i, Py_UCS4 c, Py_UCS4 *mapped)
    {
        /* Obscure special case. */
        if (c == 0x3A3)
            return handle_capital_sigma(kind, data, length, i);
        return _PyUnicode_ToLowerFull(c, mapped);
    }
>>
    [do_lower] runs [lower_ucs4] on every character and concatenates. *)

(** The code points whose lower case is one other code point: an entry
    [(first, last, step, target)] maps [first] to [target],
    [first + step] to [target + step], and so on up to [last]. *)
Definition LOWER_RANGES : list (N * N * N * N) :=
  [
   (65, 90, 1, 97); (192, 214, 1, 224); (216, 222, 1, 248);
   (256, 302, 2, 257); (306, 310, 2, 307); (313, 327, 2, 314);
   (330, 374, 2, 331); (376, 376, 1, 255); (377, 381, 2, 378);
   (385, 385, 1, 595); (386, 388, 2, 387); (390, 390, 1, 596);
   (391, 391, 1, 392); (393, 394, 1, 598); (395, 395, 1, 396);
   (398, 398, 1, 477); (399, 399, 1, 601); (400, 400, 1, 603);
   (401, 401, 1, 402); (403, 403, 1, 608); (404, 404, 1, 611);
   (406, 406, 1, 617); (407, 407, 1, 616); (408, 408, 1, 409);
   (412, 412, 1, 623); (413, 413, 1, 626); (415, 415, 1, 629);
   (416, 420, 2, 417); (422, 422, 1, 640); (423, 423, 1, 424);
   (425, 425, 1, 643); (428, 428, 1, 429); (430, 430, 1, 648);
   (431, 431, 1, 432); (433, 434, 1, 650); (435, 437, 2, 436);
   (439, 439, 1, 658); (440, 440, 1, 441); (444, 444, 1, 445);
   (452, 452, 1, 454); (453, 453, 1, 454); (455, 455, 1, 457);
   (456, 456, 1, 457); (458, 458, 1, 460); (459, 475, 2, 460);
   (478, 494, 2, 479); (497, 497, 1, 499); (498, 500, 2, 499);
   (502, 502, 1, 405); (503, 503, 1, 447); (504, 542, 2, 505);
   (544, 544, 1, 414); (546, 562, 2, 547); (570, 570, 1, 11365);
   (571, 571, 1, 572); (573, 573, 1, 410); (574, 574, 1, 11366);
   (577, 577, 1, 578); (579, 579, 1, 384); (580, 580, 1, 649);
   (581, 581, 1, 652); (582, 590, 2, 583); (880, 882, 2, 881);
   (886, 886, 1, 887); (895, 895, 1, 1011); (902, 902, 1, 940);
   (904, 906, 1, 941); (908, 908, 1, 972); (910, 911, 1, 973);
   (913, 929, 1, 945); (931, 939, 1, 963); (975, 975, 1, 983);
   (984, 1006, 2, 985); (1012, 1012, 1, 952); (1015, 1015, 1, 1016);
   (1017, 1017, 1, 1010); (1018, 1018, 1, 1019); (1021, 1023, 1, 891);
   (1024, 1039, 1, 1104); (1040, 1071, 1, 1072); (1120, 1152, 2, 1121);
   (1162, 1214, 2, 1163); (1216, 1216, 1, 1231); (1217, 1229, 2, 1218);
   (1232, 1326, 2, 1233); (1329, 1366, 1, 1377); (4256, 4293, 1, 11520);
   (4295, 4295, 1, 11559); (4301, 4301, 1, 11565); (5024, 5103, 1, 43888);
   (5104, 5109, 1, 5112); (7312, 7354, 1, 4304); (7357, 7359, 1, 4349);
   (7680, 7828, 2, 7681); (7838, 7838, 1, 223); (7840, 7934, 2, 7841);
   (7944, 7951, 1, 7936); (7960, 7965, 1, 7952); (7976, 7983, 1, 7968);
   (7992, 7999, 1, 7984); (8008, 8013, 1, 8000); (8025, 8031, 2, 8017);
   (8040, 8047, 1, 8032); (8072, 8079, 1, 8064); (8088, 8095, 1, 8080);
   (8104, 8111, 1, 8096); (8120, 8121, 1, 8112); (8122, 8123, 1, 8048);
   (8124, 8124, 1, 8115); (8136, 8139, 1, 8050); (8140, 8140, 1, 8131);
   (8152, 8153, 1, 8144); (8154, 8155, 1, 8054); (8168, 8169, 1, 8160);
   (8170, 8171, 1, 8058); (8172, 8172, 1, 8165); (8184, 8185, 1, 8056);
   (8186, 8187, 1, 8060); (8188, 8188, 1, 8179); (8486, 8486, 1, 969);
   (8490, 8490, 1, 107); (8491, 8491, 1, 229); (8498, 8498, 1, 8526);
   (8544, 8559, 1, 8560); (8579, 8579, 1, 8580); (9398, 9423, 1, 9424);
   (11264, 11311, 1, 11312); (11360, 11360, 1, 11361); (11362, 11362, 1, 619);
   (11363, 11363, 1, 7549); (11364, 11364, 1, 637); (11367, 11371, 2, 11368);
   (11373, 11373, 1, 593); (11374, 11374, 1, 625); (11375, 11375, 1, 592);
   (11376, 11376, 1, 594); (11378, 11378, 1, 11379); (11381, 11381, 1, 11382);
   (11390, 11391, 1, 575); (11392, 11490, 2, 11393); (11499, 11501, 2, 11500);
   (11506, 11506, 1, 11507); (42560, 42604, 2, 42561);
   (42624, 42650, 2, 42625); (42786, 42798, 2, 42787);
   (42802, 42862, 2, 42803); (42873, 42875, 2, 42874);
   (42877, 42877, 1, 7545); (42878, 42886, 2, 42879);
   (42891, 42891, 1, 42892); (42893, 42893, 1, 613); (42896, 42898, 2, 42897);
   (42902, 42920, 2, 42903); (42922, 42922, 1, 614); (42923, 42923, 1, 604);
   (42924, 42924, 1, 609); (42925, 42925, 1, 620); (42926, 42926, 1, 618);
   (42928, 42928, 1, 670); (42929, 42929, 1, 647); (42930, 42930, 1, 669);
   (42931, 42931, 1, 43859); (42932, 42946, 2, 42933);
   (42948, 42948, 1, 42900); (42949, 42949, 1, 642); (42950, 42950, 1, 7566);
   (42951, 42953, 2, 42952); (42960, 42960, 1, 42961);
   (42966, 42968, 2, 42967); (42997, 42997, 1, 42998);
   (65313, 65338, 1, 65345); (66560, 66599, 1, 66600);
   (66736, 66771, 1, 66776); (66928, 66938, 1, 66967);
   (66940, 66954, 1, 66979); (66956, 66962, 1, 66995);
   (66964, 66965, 1, 67003); (68736, 68786, 1, 68800);
   (71840, 71871, 1, 71872); (93760, 93791, 1, 93792);
   (125184, 125217, 1, 125218)
  ]%N.

Fixpoint lower_lookup (c : N) (table : list (N * N * N * N)) : option N :=
  match table with
  | [] => None
  | (first, last, step, target) :: t =>
      if ((first <=? c) && (c <=? last) && ((c - first) mod step =? 0))%N
      then Some (target + (c - first))%N
      else lower_lookup c t
  end.

(** [_PyUnicode_ToLowerFull]: U+0130 is the one code point whose lower
    case is longer than one code point. *)
Definition to_lower_full (c : N) : ustr :=
  if (c =? 304)%N then [105; 775]%N
  else match lower_lookup c LOWER_RANGES with
       | Some l => [l]
       | None => [c]
       end.

(** The code points with the property [Case_Ignorable], and those with
    the property [Cased], as ranges [(first, last)]. *)
Definition CASE_IGNORABLE : list (N * N) :=
  [
   (39, 39); (46, 46); (58, 58); (94, 94); (96, 96); (168, 168); (173, 173);
   (175, 175); (180, 180); (183, 184); (688, 879); (884, 885); (890, 890);
   (900, 901); (903, 903); (1155, 1161); (1369, 1369); (1375, 1375);
   (1425, 1469); (1471, 1471); (1473, 1474); (1476, 1477); (1479, 1479);
   (1524, 1524); (1536, 1541); (1552, 1562); (1564, 1564); (1600, 1600);
   (1611, 1631); (1648, 1648); (1750, 1757); (1759, 1768); (1770, 1773);
   (1807, 1807); (1809, 1809); (1840, 1866); (1958, 1968); (2027, 2037);
   (2042, 2042); (2045, 2045); (2070, 2093); (2137, 2139); (2184, 2184);
   (2192, 2193); (2200, 2207); (2249, 2306); (2362, 2362); (2364, 2364);
   (2369, 2376); (2381, 2381); (2385, 2391); (2402, 2403); (2417, 2417);
   (2433, 2433); (2492, 2492); (2497, 2500); (2509, 2509); (2530, 2531);
   (2558, 2558); (2561, 2562); (2620, 2620); (2625, 2626); (2631, 2632);
   (2635, 2637); (2641, 2641); (2672, 2673); (2677, 2677); (2689, 2690);
   (2748, 2748); (2753, 2757); (2759, 2760); (2765, 2765); (2786, 2787);
   (2810, 2815); (2817, 2817); (2876, 2876); (2879, 2879); (2881, 2884);
   (2893, 2893); (2901, 2902); (2914, 2915); (2946, 2946); (3008, 3008);
   (3021, 3021); (3072, 3072); (3076, 3076); (3132, 3132); (3134, 3136);
   (3142, 3144); (3146, 3149); (3157, 3158); (3170, 3171); (3201, 3201);
   (3260, 3260); (3263, 3263); (3270, 3270); (3276, 3277); (3298, 3299);
   (3328, 3329); (3387, 3388); (3393, 3396); (3405, 3405); (3426, 3427);
   (3457, 3457); (3530, 3530); (3538, 3540); (3542, 3542); (3633, 3633);
   (3636, 3642); (3654, 3662); (3761, 3761); (3764, 3772); (3782, 3782);
   (3784, 3789); (3864, 3865); (3893, 3893); (3895, 3895); (3897, 3897);
   (3953, 3966); (3968, 3972); (3974, 3975); (3981, 3991); (3993, 4028);
   (4038, 4038); (4141, 4144); (4146, 4151); (4153, 4154); (4157, 4158);
   (4184, 4185); (4190, 4192); (4209, 4212); (4226, 4226); (4229, 4230);
   (4237, 4237); (4253, 4253); (4348, 4348); (4957, 4959); (5906, 5908);
   (5938, 5939); (5970, 5971); (6002, 6003); (6068, 6069); (6071, 6077);
   (6086, 6086); (6089, 6099); (6103, 6103); (6109, 6109); (6155, 6159);
   (6211, 6211); (6277, 6278); (6313, 6313); (6432, 6434); (6439, 6440);
   (6450, 6450); (6457, 6459); (6679, 6680); (6683, 6683); (6742, 6742);
   (6744, 6750); (6752, 6752); (6754, 6754); (6757, 6764); (6771, 6780);
   (6783, 6783); (6823, 6823); (6832, 6862); (6912, 6915); (6964, 6964);
   (6966, 6970); (6972, 6972); (6978, 6978); (7019, 7027); (7040, 7041);
   (7074, 7077); (7080, 7081); (7083, 7085); (7142, 7142); (7144, 7145);
   (7149, 7149); (7151, 7153); (7212, 7219); (7222, 7223); (7288, 7293);
   (7376, 7378); (7380, 7392); (7394, 7400); (7405, 7405); (7412, 7412);
   (7416, 7417); (7468, 7530); (7544, 7544); (7579, 7679); (8125, 8125);
   (8127, 8129); (8141, 8143); (8157, 8159); (8173, 8175); (8189, 8190);
   (8203, 8207); (8216, 8217); (8228, 8228); (8231, 8231); (8234, 8238);
   (8288, 8292); (8294, 8303); (8305, 8305); (8319, 8319); (8336, 8348);
   (8400, 8432); (11388, 11389); (11503, 11505); (11631, 11631);
   (11647, 11647); (11744, 11775); (11823, 11823); (12293, 12293);
   (12330, 12333); (12337, 12341); (12347, 12347); (12441, 12446);
   (12540, 12542); (40981, 40981); (42232, 42237); (42508, 42508);
   (42607, 42610); (42612, 42621); (42623, 42623); (42652, 42655);
   (42736, 42737); (42752, 42785); (42864, 42864); (42888, 42890);
   (42994, 42996); (43000, 43001); (43010, 43010); (43014, 43014);
   (43019, 43019); (43045, 43046); (43052, 43052); (43204, 43205);
   (43232, 43249); (43263, 43263); (43302, 43309); (43335, 43345);
   (43392, 43394); (43443, 43443); (43446, 43449); (43452, 43453);
   (43471, 43471); (43493, 43494); (43561, 43566); (43569, 43570);
   (43573, 43574); (43587, 43587); (43596, 43596); (43632, 43632);
   (43644, 43644); (43696, 43696); (43698, 43700); (43703, 43704);
   (43710, 43711); (43713, 43713); (43741, 43741); (43756, 43757);
   (43763, 43764); (43766, 43766); (43867, 43871); (43881, 43883);
   (44005, 44005); (44008, 44008); (44013, 44013); (64286, 64286);
   (64434, 64450); (65024, 65039); (65043, 65043); (65056, 65071);
   (65106, 65106); (65109, 65109); (65279, 65279); (65287, 65287);
   (65294, 65294); (65306, 65306); (65342, 65342); (65344, 65344);
   (65392, 65392); (65438, 65439); (65507, 65507); (65529, 65531);
   (66045, 66045); (66272, 66272); (66422, 66426); (67456, 67461);
   (67463, 67504); (67506, 67514); (68097, 68099); (68101, 68102);
   (68108, 68111); (68152, 68154); (68159, 68159); (68325, 68326);
   (68900, 68903); (69291, 69292); (69446, 69456); (69506, 69509);
   (69633, 69633); (69688, 69702); (69744, 69744); (69747, 69748);
   (69759, 69761); (69811, 69814); (69817, 69818); (69821, 69821);
   (69826, 69826); (69837, 69837); (69888, 69890); (69927, 69931);
   (69933, 69940); (70003, 70003); (70016, 70017); (70070, 70078);
   (70089, 70092); (70095, 70095); (70191, 70193); (70196, 70196);
   (70198, 70199); (70206, 70206); (70367, 70367); (70371, 70378);
   (70400, 70401); (70459, 70460); (70464, 70464); (70502, 70508);
   (70512, 70516); (70712, 70719); (70722, 70724); (70726, 70726);
   (70750, 70750); (70835, 70840); (70842, 70842); (70847, 70848);
   (70850, 70851); (71090, 71093); (71100, 71101); (71103, 71104);
   (71132, 71133); (71219, 71226); (71229, 71229); (71231, 71232);
   (71339, 71339); (71341, 71341); (71344, 71349); (71351, 71351);
   (71453, 71455); (71458, 71461); (71463, 71467); (71727, 71735);
   (71737, 71738); (71995, 71996); (71998, 71998); (72003, 72003);
   (72148, 72151); (72154, 72155); (72160, 72160); (72193, 72202);
   (72243, 72248); (72251, 72254); (72263, 72263); (72273, 72278);
   (72281, 72283); (72330, 72342); (72344, 72345); (72752, 72758);
   (72760, 72765); (72767, 72767); (72850, 72871); (72874, 72880);
   (72882, 72883); (72885, 72886); (73009, 73014); (73018, 73018);
   (73020, 73021); (73023, 73029); (73031, 73031); (73104, 73105);
   (73109, 73109); (73111, 73111); (73459, 73460); (78896, 78904);
   (92912, 92916); (92976, 92982); (92992, 92995); (94031, 94031);
   (94095, 94111); (94176, 94177); (94179, 94180); (110576, 110579);
   (110581, 110587); (110589, 110590); (113821, 113822); (113824, 113827);
   (118528, 118573); (118576, 118598); (119143, 119145); (119155, 119170);
   (119173, 119179); (119210, 119213); (119362, 119364); (121344, 121398);
   (121403, 121452); (121461, 121461); (121476, 121476); (121499, 121503);
   (121505, 121519); (122880, 122886); (122888, 122904); (122907, 122913);
   (122915, 122916); (122918, 122922); (123184, 123197); (123566, 123566);
   (123628, 123631); (125136, 125142); (125252, 125259); (127995, 127999);
   (917505, 917505); (917536, 917631); (917760, 917999)
  ]%N.

Definition CASED : list (N * N) :=
  [
   (65, 90); (97, 122); (170, 170); (181, 181); (186, 186); (192, 214);
   (216, 246); (248, 442); (444, 447); (452, 659); (661, 696); (704, 705);
   (736, 740); (837, 837); (880, 883); (886, 887); (890, 893); (895, 895);
   (902, 902); (904, 906); (908, 908); (910, 929); (931, 1013); (1015, 1153);
   (1162, 1327); (1329, 1366); (1376, 1416); (4256, 4293); (4295, 4295);
   (4301, 4301); (4304, 4346); (4349, 4351); (5024, 5109); (5112, 5117);
   (7296, 7304); (7312, 7354); (7357, 7359); (7424, 7615); (7680, 7957);
   (7960, 7965); (7968, 8005); (8008, 8013); (8016, 8023); (8025, 8025);
   (8027, 8027); (8029, 8029); (8031, 8061); (8064, 8116); (8118, 8124);
   (8126, 8126); (8130, 8132); (8134, 8140); (8144, 8147); (8150, 8155);
   (8160, 8172); (8178, 8180); (8182, 8188); (8305, 8305); (8319, 8319);
   (8336, 8348); (8450, 8450); (8455, 8455); (8458, 8467); (8469, 8469);
   (8473, 8477); (8484, 8484); (8486, 8486); (8488, 8488); (8490, 8493);
   (8495, 8500); (8505, 8505); (8508, 8511); (8517, 8521); (8526, 8526);
   (8544, 8575); (8579, 8580); (9398, 9449); (11264, 11492); (11499, 11502);
   (11506, 11507); (11520, 11557); (11559, 11559); (11565, 11565);
   (42560, 42605); (42624, 42653); (42786, 42887); (42891, 42894);
   (42896, 42954); (42960, 42961); (42963, 42963); (42965, 42969);
   (42997, 42998); (43000, 43002); (43824, 43866); (43868, 43880);
   (43888, 43967); (64256, 64262); (64275, 64279); (65313, 65338);
   (65345, 65370); (66560, 66639); (66736, 66771); (66776, 66811);
   (66928, 66938); (66940, 66954); (66956, 66962); (66964, 66965);
   (66967, 66977); (66979, 66993); (66995, 67001); (67003, 67004);
   (67456, 67456); (67459, 67461); (67463, 67504); (67506, 67514);
   (68736, 68786); (68800, 68850); (71840, 71903); (93760, 93823);
   (119808, 119892); (119894, 119964); (119966, 119967); (119970, 119970);
   (119973, 119974); (119977, 119980); (119982, 119993); (119995, 119995);
   (119997, 120003); (120005, 120069); (120071, 120074); (120077, 120084);
   (120086, 120092); (120094, 120121); (120123, 120126); (120128, 120132);
   (120134, 120134); (120138, 120144); (120146, 120485); (120488, 120512);
   (120514, 120538); (120540, 120570); (120572, 120596); (120598, 120628);
   (120630, 120654); (120656, 120686); (120688, 120712); (120714, 120744);
   (120746, 120770); (120772, 120779); (122624, 122633); (122635, 122654);
   (125184, 125251); (127280, 127305); (127312, 127337); (127344, 127369)
  ]%N.

Definition in_ranges (c : N) (ranges : list (N * N)) : bool :=
  existsb (fun r => ((fst r <=? c) && (c <=? snd r))%N) ranges.

Definition is_case_ignorable (c : N) : bool := in_ranges c CASE_IGNORABLE.
Definition is_cased (c : N) : bool := in_ranges c CASED.

Fixpoint skip_ignorable (s : ustr) : ustr :=
  match s with
  | [] => []
  | c :: t => if is_case_ignorable c then skip_ignorable t else s
  end.

(** [handle_capital_sigma]: the capital sigma at index [i] of [s] is in
    the final position when a cased character precedes it, case-
    ignorable characters apart, and none follows it:
<<
    for (j = i - 1; j >= 0; j--) {
        c = PyUnicode_READ(kind, data, j);
        if (!_PyUnicode_IsCaseIgnorable(c))
            break;
    }
    final_sigma = j >= 0 && _PyUnicode_IsCased(c);
    if (final_sigma) {
        for (j = i + 1; j < length; j++) {
            c = PyUnicode_READ(kind, data, j);
            if (!_PyUnicode_IsCaseIgnorable(c))
                break;
        }
        final_sigma = j == length || !_PyUnicode_IsCased(c);
    }
    mapped[0] = final_sigma ? 0x3C2 : 0x3C3;
>> *)
Definition final_sigma (s : ustr) (i : nat) : bool :=
  match skip_ignorable (rev (take i s)) with
  | [] => false
  | c :: _ =>
      is_cased c
      && match skip_ignorable (drop (S i) s) with
         | [] => true
         | d :: _ => negb (is_cased d)
         end
  end.

Definition lower_ucs4 (s : ustr) (i : nat) (c : N) : ustr :=
  if (c =? 931)%N then [if final_sigma s i then 962 else 963]%N
  else to_lower_full c.

Fixpoint lower_from (s : ustr) (i : nat) (rest : ustr) : ustr :=
  match rest with
  | [] => []
  | c :: t => (lower_ucs4 s i c ++ lower_from s (S i) t)%list
  end.

Definition lower (s : ustr) : ustr := lower_from s 0 s.

(** ** [os.path.splitext]

    [genericpath._splitext], as for [splitext] above, on code points. *)
Fixpoint rfind_from (c : N) (s : ustr) (i last : Z) : Z :=
  match s with
  | [] => last
  | a :: t => rfind_from c t (i + 1) (if (a =? c)%N then i else last)
  end.

Definition rfind (c : N) (s : ustr) : Z := rfind_from c s 0 (-1).

Fixpoint splitext_scan (p : ustr) (dotIndex : Z) (remaining : nat)
    (filenameIndex : Z) : ustr * ustr :=
  match remaining with
  | O => (p, [])
  | S k =>
      match p !! Z.to_nat filenameIndex with
      | Some c =>
          if (c =? 46)%N then splitext_scan p dotIndex k (filenameIndex + 1)
          else (take (Z.to_nat dotIndex) p, drop (Z.to_nat dotIndex) p)
      | None => (take (Z.to_nat dotIndex) p, drop (Z.to_nat dotIndex) p)
      end
  end.

Definition splitext (p : ustr) : ustr * ustr :=
  let sepIndex := rfind 47 p in
  let dotIndex := rfind 46 p in
  if dotIndex >? sepIndex
  then splitext_scan p dotIndex (Z.to_nat (dotIndex - (sepIndex + 1))) (sepIndex + 1)
  else (p, []).

(** ** [get_file_type] ([storage.py], lines 24-38) *)

(** What [get_file_type] does with a file name: it returns a kind, or
    raises [HTTPException(status_code, detail)]. *)
Inductive classification : Type :=
  | Classified (kind : file_type)
  | Refused (status_code : Z) (detail : ustr).

(** [ext in X], for a set [X] of strings of the source *)
Definition member (ext : ustr) (X : gset string) : bool :=
  bool_decide (set_Exists (fun x => codes x = ext) X).

Definition get_file_type (filename : ustr) : classification :=
  let ext := lower (snd (splitext filename)) in
  if member ext SUPPORTED_VIDEO_TYPES then Classified video
  else if member ext SUPPORTED_AUDIO_TYPES then Classified audio
  else if member ext SUPPORTED_IMAGE_TYPES then Classified image
  else Refused 400 (codes "Unsupported file type: " ++ ext)%list.

End Unicode.

(** The outcome of the classifier on strings of U+0000..U+00FF, as an
    outcome of the classifier on code points. *)
Definition as_classification (r : result file_type)
  : option Unicode.classification :=
  match r with
  | Ok kind => Some (Unicode.Classified kind)
  | Raise (HTTPException status_code detail) =>
      Some (Unicode.Refused status_code (codes detail))
  | Raise _ => None
  end.

(** ** The classifier as the specification words it

    The extension of a file name is taken from its last path
    component, the part after the last [/]: when that component has a
    dot after a character that is no dot, the extension is the part of
    the component from its last dot on; any other name has no
    extension.  The extension is compared with the members of the
    three fixed sets without regard to case.  The sets hold digits, the
    dot and small letters a..z; the characters that are such a letter
    without regard to case are the letter, its capital, and for k also
    the Kelvin sign U+212A, which Unicode lower-cases to k. *)
Fixpoint after_last (c : N) (s : ustr) : option ustr :=
  match s with
  | [] => None
  | x :: t =>
      match after_last c t with
      | Some r => Some r
      | None => if (x =? c)%N then Some t else None
      end
  end.

Definition last_component (name : ustr) : ustr :=
  default name (after_last 47 name).

(** The part of a component before its last dot holds a character that
    is no dot. *)
Definition names_a_file (base : ustr) : bool :=
  negb (forallb (N.eqb 46) base).

Definition extension_spec (name : ustr) : ustr :=
  let component := last_component name in
  match after_last 46 component with
  | None => []
  | Some e =>
      let base := take (length component - S (length e)) component in
      if names_a_file base then (46 :: e)%N else []
  end.

Definition fold_case (c : N) : N :=
  if ((65 <=? c) && (c <=? 90))%N then (c + 32)%N
  else if (c =? 8490)%N then 107%N
  else c.

Definition eq_ignore_case (ext : ustr) (x : string) : bool :=
  bool_decide (map fold_case ext = map fold_case (codes x)).

Definition classify_spec (filename : ustr) : option file_type :=
  let ext := extension_spec filename in
  if existsb (eq_ignore_case ext) VIDEO_EXTENSIONS then Some video
  else if existsb (eq_ignore_case ext) AUDIO_EXTENSIONS then Some audio
  else if existsb (eq_ignore_case ext) IMAGE_EXTENSIONS then Some image
  else None.

(** The members of the set of a kind. *)
Definition extensions_of (kind : file_type) : list string :=
  match kind with
  | video => VIDEO_EXTENSIONS
  | audio => AUDIO_EXTENSIONS
  | image => IMAGE_EXTENSIONS
  end.

(** ** Auxiliary predicates on characters and strings *)

Definition all_ascii : list ascii := map ascii_of_nat (seq 0 256).

Definition no_char (c : ascii) (s : string) : bool :=
  all_chars (fun x => negb (Ascii.eqb x c)) s.

Definition only_char (c : ascii) (s : string) : bool :=
  all_chars (fun x => Ascii.eqb x c) s.


(** ** Sample environments, states and uploads *)

(** The probe's answer for a 1920x1080 clip whose frame rate is [rate]
    and whose container reports [duration]. *)
Definition sample_audio_stream : pyval :=
  PyDict [("codec_type", PyStr "audio"); ("codec_name", PyStr "aac");
          ("sample_rate", PyStr "48000"); ("channels", PyInt 2)].

Definition sample_video_stream (rate : string) : pyval :=
  PyDict [("codec_type", PyStr "video"); ("codec_name", PyStr "h264");
          ("width", PyInt 1920); ("height", PyInt 1080);
          ("r_frame_rate", PyStr rate)].

Definition sample_probe (rate duration : string) : pyval :=
  PyDict
    [("streams", PyList [sample_audio_stream; sample_video_stream rate]);
     ("format", PyDict [("duration", PyStr duration)])].

Definition sample_image : pil_image :=
  {| img_width := 1920; img_height := 1080; img_format := PyStr "PNG";
     img_mode := "RGB"; img_load := Ok tt |}.

(** Tools that succeed on every file. *)
Definition sample_world (rate duration : string) : World :=
  {| UPLOAD_DIR := "./uploads";
     THUMBNAIL_DIR := "./thumbnails";
     os_urandom := fun k => 2 ^ 127 + 12345 + Z.of_nat k;
     ffprobe := fun _ _ => Ok (sample_probe rate duration);
     ffmpeg_run := fun _ _ => Ok true;
     image_open := fun _ => Ok sample_image;
     eval_other := fun _ => Raise SyntaxError |}.

(** Tools that fail on every file. *)
Definition failing_world : World :=
  {| UPLOAD_DIR := "./uploads";
     THUMBNAIL_DIR := "./thumbnails";
     os_urandom := fun k => 2 ^ 127 + 12345 + Z.of_nat k;
     ffprobe := fun _ _ => Raise FfmpegError;
     ffmpeg_run := fun _ _ => Raise FfmpegError;
     image_open := fun _ => Raise UnidentifiedImageError;
     eval_other := fun _ => Raise SyntaxError |}.

(** No file yet, and [free] bytes of space. *)
Definition fresh_state (free : nat) : state :=
  {| fs := ∅; disk_free := free; draws := 0 |}.

(** An upload of five bytes under the name [name]. *)
Definition sample_upload (name : string) : UploadFile :=
  {| filename := name; size := Some 5;
     file := list_ascii_of_string "abcde" |}.

(** The name that [upload_file_to_storage] gives the original asset
    ([storage.py], lines 58-60), as a function of the root, of the
    random draw and of the filename. *)
Definition unique_filename (w : World) (f : UploadFile) (st : state) : string :=
  uuid_str (uuid4_int (os_urandom w (draws st)))
    ++ lower (snd (splitext (filename f))).

Definition stored_path (w : World) (f : UploadFile) (st : state) : string :=
  path_join (UPLOAD_DIR w) (unique_filename w f st).

(** The extractor of a kind. *)
Definition extract_metadata (w : World) (kind : file_type) (path : string)
    (st : state) : result dict :=
  match kind with
  | video => extract_video_metadata w path st
  | audio => extract_audio_metadata w path st
  | image => extract_image_metadata w path st
  end.

(** A character of [str(UUID)]: a lower-case hexadecimal digit or a
    hyphen. *)
Definition uuid_char (c : ascii) : bool :=
  let n := N_of_ascii c in
  (((48 <=? n) && (n <=? 57)) || ((97 <=? n) && (n <=? 102)) || (n =? 45))%N.

(** A computation that ends with an exception of class [Exception]. *)
Definition raises_Exception {A : Type} (r : result A) : Prop :=
  exists e, r = Raise e /\ is_Exception e = true.

(** A file that no tool can read: the probe, the frame extraction and
    the image decoder all fail on it. *)
Definition undecodable (w : World) (data : file_data) : Prop :=
  forall path,
    raises_Exception (ffprobe w path data)
    /\ raises_Exception (ffmpeg_run w path data)
    /\ raises_Exception (image_open w data).

(** The parses of the numeric fields, as the two extractors write them:
    [int(stream.get(k, 0))] and [float(probe['format'].get('duration', 0))]. *)
Definition int_field (stream : pyval) (k : string) : result Z :=
  py_get stream k (PyInt 0) ≫= py_int.

Definition duration_field (probe : pyval) : result float :=
  format ← py_getitem probe "format";
  py_get format "duration" (PyInt 0) ≫= py_float.

(** The streams of a probe result: [probe['streams']], iterated. *)
Definition probe_streams (probe : pyval) : result (list pyval) :=
  py_getitem probe "streams" ≫= py_iter.

(** A state in which the file [clip.mp4] is stored. *)
Definition stored_state : state :=
  {| fs := {[ "clip.mp4" := RawBytes (list_ascii_of_string "abcde") ]};
     disk_free := 95; draws := 1 |}.

(** ** The frame rate as the specification words it

    A strict parser of ["<int>/<int>"], an [<int>] being an optional
    sign and decimal digits, and the default rate that stands for every
    other string. *)
Definition plain_int (s : string) : option Z :=
  let '(neg, body) := split_sign s in
  if all_chars is_digit body && negb (String.eqb body "") then
    match digitpart body false 0 0 with
    | Some (v, _) => Some (signed neg v)
    | None => None
    end
  else None.

Definition strict_ratio (s : string) : option (Z * Z) :=
  match split_first (fun c => Ascii.eqb c "/") s with
  | (a, Some b) =>
      match plain_int a, plain_int b with
      | Some n, Some d => Some (n, d)
      | _, _ => None
      end
  | (_, None) => None
  end.

(** The float 30.0, the value of ['30/1']. *)
Definition DEFAULT_RATE : pyval := PyFloat (Finite false 8444249301319680 (-48)).

(** The dictionary that [extract_video_metadata] returns. *)
Definition video_metadata (width height : Z) (duration : float)
    (fps codec : pyval) : dict :=
  [("width", PyInt width); ("height", PyInt height);
   ("duration", PyFloat duration); ("fps", fps); ("codec", codec)].

(** The handler of [except Exception] takes over when the body raised
    an exception [e] for which [H] shows [is_Exception e = true]. *)
Ltac caught H := unfold try_except; rewrite H; reflexivity.


(** In a goal [H : body = Raise e], [He : is_Exception e = false]: the
    next step of [body] did not raise, since [lem] shows that it raises
    exceptions of class [Exception] only. *)
Ltac next_step H He lem :=
  match type of H with
  | mbind _ ?m = Raise _ =>
      let E := fresh "E" in
      destruct m eqn:E; cbn [mbind result_bind] in H;
      [| injection H as H; subst; apply lem in E; congruence]
  end.

(** Tools that fail with exceptions of class [Exception] only. *)
Definition tools_raise_Exception (w : World) : Prop :=
  (forall p d e, ffprobe w p d = Raise e -> is_Exception e = true)
  /\ (forall d e, image_open w d = Raise e -> is_Exception e = true).

(** An environment in which the probe reports the frame rate [exit()]
    and [eval] of it ends the process. *)
Definition exiting_world : World :=
  {| UPLOAD_DIR := "./uploads";
     THUMBNAIL_DIR := "./thumbnails";
     os_urandom := fun k => 2 ^ 127 + 12345 + Z.of_nat k;
     ffprobe := fun _ _ => Ok (sample_probe "exit()" "12.5");
     ffmpeg_run := fun _ _ => Ok true;
     image_open := fun _ => Ok sample_image;
     eval_other := fun _ => Raise SystemExit |}.

(** The path that [generate_thumbnail] gives the thumbnail
    ([storage.py], lines 133-134), and the state after its random
    draw. *)
Definition thumbnail_path (w : World) (st : state) : string :=
  path_join (THUMBNAIL_DIR w)
    (uuid_str (uuid4_int (os_urandom w (draws st))) ++ ".jpg").

Definition after_draw (st : state) : state :=
  {| fs := fs st; disk_free := disk_free st; draws := S (draws st) |}.

Definition with_file (path : string) (data : file_data) (st : state) : state :=
  {| fs := <[path := data]> (fs st); disk_free := disk_free st;
     draws := draws st |}.

(** An environment in which the frame extraction succeeds without
    writing a frame. *)
Definition frameless_world : World :=
  {| UPLOAD_DIR := "./uploads";
     THUMBNAIL_DIR := "./thumbnails";
     os_urandom := fun k => 2 ^ 127 + 12345 + Z.of_nat k;
     ffprobe := fun _ _ => Ok (sample_probe "30/1" "0.5");
     ffmpeg_run := fun _ _ => Ok false;
     image_open := fun _ => Ok sample_image;
     eval_other := fun _ => Raise SyntaxError |}.

(** In a goal [H : x ← m; k = Ok _]: [m] returned. *)
Ltac bind_ok H :=
  match type of H with
  | mbind _ ?m = Ok _ =>
      let E := fresh "E" in
      destruct m eqn:E; cbn [mbind result_bind] in H; [| discriminate H]
  end.

(** A decoded image in a mode that the JPEG encoder refuses. *)
Definition sample_rgba_image : pil_image :=
  {| img_width := 640; img_height := 480; img_format := PyStr "PNG";
     img_mode := "RGBA"; img_load := Ok tt |}.

Definition rgba_world : World :=
  {| UPLOAD_DIR := "./uploads";
     THUMBNAIL_DIR := "./thumbnails";
     os_urandom := fun k => 2 ^ 127 + 12345 + Z.of_nat k;
     ffprobe := fun _ _ => Ok (sample_probe "30/1" "0.5");
     ffmpeg_run := fun _ _ => Ok true;
     image_open := fun _ => Ok sample_rgba_image;
     eval_other := fun _ => Raise SyntaxError |}.

(** A probe result whose streams carry their kind and nothing else. *)
Definition bare_probe : pyval :=
  PyDict
    [("streams", PyList [PyDict [("codec_type", PyStr "audio")];
                         PyDict [("codec_type", PyStr "video")]]);
     ("format", PyDict [])].

Definition bare_world : World :=
  {| UPLOAD_DIR := "./uploads";
     THUMBNAIL_DIR := "./thumbnails";
     os_urandom := fun k => 2 ^ 127 + 12345 + Z.of_nat k;
     ffprobe := fun _ _ => Ok bare_probe;
     ffmpeg_run := fun _ _ => Ok true;
     image_open := fun _ => Ok sample_image;
     eval_other := fun _ => Raise SyntaxError |}.

(** A probe result with an audio stream only. *)
Definition audio_only_probe : pyval :=
  PyDict [("streams", PyList [sample_audio_stream]);
          ("format", PyDict [("duration", PyStr "3.25")])].

Definition audio_only_world : World :=
  {| UPLOAD_DIR := "./uploads";
     THUMBNAIL_DIR := "./thumbnails";
     os_urandom := fun k => 2 ^ 127 + 12345 + Z.of_nat k;
     ffprobe := fun _ _ => Ok audio_only_probe;
     ffmpeg_run := fun _ _ => Ok true;
     image_open := fun _ => Ok sample_image;
     eval_other := fun _ => Raise SyntaxError |}.

(** No stream is of the kind [kind]: every stream carries a
    [codec_type], and none of them is [kind]. *)
Definition no_stream_of (kind : string) (streams : list pyval) : Prop :=
  Forall (fun s => exists c, py_getitem s "codec_type" = Ok c
                             /\ py_eq_str c kind = false) streams.

(** [os.path.basename(p)] ([posixpath.py]), which the upload route
    applies to the stored path ([routes/media.py], line 30):
<<
    i = p.rfind(sep) + 1
    return p[i:]
>> *)
Definition basename (p : string) : string :=
  str_drop (Z.to_nat (rfind "/" p + 1)) p.

(** The numbers that [UUID.int] can be: below [2^128]. *)
Definition uuid_range (i : Z) : Prop := 0 <= i < 2 ^ 128.

(** The path of the media file that the transcription route checks and
    hands to the transcription service ([routes/transcription.py],
    lines 51-53), from the [file_url] of the record:
<<
    file_path = media_file.file_url
    if not file_path.startswith('/'):
        file_path = os.path.join('uploads', file_path)
>> *)
Definition transcription_file_path (file_url : string) : string :=
  if negb (starts_with_sep file_url) then path_join "uploads" file_url
  else file_url.
(** * Properties *)

(** ** The model on concrete inputs *)

Example splitext_examples :
  splitext "x.tar.GZ" = ("x.tar", ".GZ")
  /\ splitext "a/b.c/.mp4" = ("a/b.c/.mp4", "")
  /\ splitext "..a.mp4" = ("..a", ".mp4")
  /\ splitext "a.b/c" = ("a.b/c", "")
  /\ splitext "a." = ("a", ".").
Proof. repeat split. Qed.

Example get_file_type_examples :
  get_file_type "My Clip.MP4" = Ok video
  /\ get_file_type "take.1.Wav" = Ok audio
  /\ get_file_type "a/b/pic.jpeg" = Ok image
  /\ get_file_type "notes.exe"
     = Raise (HTTPException 400 "Unsupported file type: .exe").
Proof. repeat split. Qed.

Example validate_file_examples :
  validate_file {| filename := "a.mp4"; size := Some 104857600; file := [] |}
  = Ok tt
  /\ validate_file {| filename := "a.mp4"; size := Some 104857601; file := [] |}
     = Raise (HTTPException 400 "File too large. Maximum size is 100MB")
  /\ validate_file {| filename := "a.mp4"; size := None; file := [] |}
     = Raise TypeError.
Proof. repeat split. Qed.

Example int_of_str_examples :
  int_of_str " 12 " = Ok 12 /\ int_of_str "-1_000" = Ok (-1000)
  /\ int_of_str "0012" = Ok 12 /\ int_of_str "12_" = Raise ValueError
  /\ int_of_str "1.0" = Raise ValueError /\ int_of_str "N/A" = Raise ValueError.
Proof. repeat split. Qed.

Example float_of_str_examples :
  float_of_str "12.5" = Ok (Finite false 7036874417766400 (-49))
  /\ float_of_str "0.1" = Ok (Finite false 7205759403792794 (-56))
  /\ float_of_str "1e400" = Ok (Infinity false)
  /\ float_of_str "-inf" = Ok (Infinity true)
  /\ float_of_str "N/A" = Raise ValueError
  /\ float_of_str "1._5" = Raise ValueError.
Proof. repeat split. Qed.

Example eval_str_examples :
  let other := fun _ => Raise NameError in
  eval_str other "30/1" = Ok (PyFloat (Finite false 8444249301319680 (-48)))
  /\ eval_str other "30000/1001" = Ok (PyFloat (Finite false 8435813487831848 (-48)))
  /\ eval_str other "0/0" = Raise ZeroDivisionError
  /\ eval_str other "25" = Ok (PyInt 25)
  /\ eval_str other "007" = Raise SyntaxError
  /\ eval_str other "fps" = Raise NameError.
Proof. repeat split. Qed.

Example uuid_str_example :
  uuid_str (uuid4_int (2 ^ 127 + 12345)) = "80000000-0000-4000-8000-000000003039".
Proof. reflexivity. Qed.

Example path_join_examples :
  path_join "./uploads" "t.mp4" = "./uploads/t.mp4"
  /\ path_join "./uploads/" "t.mp4" = "./uploads/t.mp4"
  /\ path_join "" "t.mp4" = "t.mp4".
Proof. repeat split. Qed.

Example preserve_aspect_ratio_examples :
  preserve_aspect_ratio 320 240 1920 1080 = Ok (Some (320, 180))
  /\ preserve_aspect_ratio 320 240 1000 1000 = Ok (Some (240, 240))
  /\ preserve_aspect_ratio 320 240 640 481 = Ok (Some (319, 240))
  /\ preserve_aspect_ratio 320 240 10000 1 = Ok (Some (320, 1))
  /\ preserve_aspect_ratio 320 240 100 100 = Ok None.
Proof. vm_compute. repeat split. Qed.

Example ingestion_pipeline_example :
  fst (ingestion_pipeline (sample_world "30000/1001" "12.5")
         (sample_upload "My Clip.MP4") (fresh_state 100))
  = Ok ("./uploads/80000000-0000-4000-8000-000000003039.mp4", video,
        video_metadata 1920 1080 (Finite false 7036874417766400 (-49))
          (PyFloat (Finite false 8435813487831848 (-48))) (PyStr "h264"),
        Some "./thumbnails/80000000-0000-4000-8000-00000000303a.jpg").
Proof. vm_compute. reflexivity. Qed.

(** ** Characters and case *)


Lemma all_ascii_complete (c : ascii) : In c all_ascii.
Proof.
  rewrite <- (ascii_nat_embedding c). apply in_map, in_seq.
  pose proof (nat_ascii_bounded c). lia.
Qed.

Lemma forall_ascii (P : ascii -> bool) :
  forallb P all_ascii = true -> forall c, P c = true.
Proof. intros H c. eapply forallb_forall in H; [exact H | apply all_ascii_complete]. Qed.


Lemma video_set_list e : e ∈ SUPPORTED_VIDEO_TYPES <-> In e VIDEO_EXTENSIONS.
Proof.
  unfold SUPPORTED_VIDEO_TYPES, VIDEO_EXTENSIONS.
  rewrite ?elem_of_union, ?elem_of_singleton. simpl. intuition congruence.
Qed.

Lemma audio_set_list e : e ∈ SUPPORTED_AUDIO_TYPES <-> In e AUDIO_EXTENSIONS.
Proof.
  unfold SUPPORTED_AUDIO_TYPES, AUDIO_EXTENSIONS.
  rewrite ?elem_of_union, ?elem_of_singleton. simpl. intuition congruence.
Qed.

Lemma image_set_list e : e ∈ SUPPORTED_IMAGE_TYPES <-> In e IMAGE_EXTENSIONS.
Proof.
  unfold SUPPORTED_IMAGE_TYPES, IMAGE_EXTENSIONS.
  rewrite ?elem_of_union, ?elem_of_singleton. simpl. intuition congruence.
Qed.


(** ** Classification *)

Section Classification.

Local Open Scope list_scope.

(** *** The extension that [os.path.splitext] cuts off *)

Lemma urfind_from_app (c : N) (a b : ustr) (i last : Z) :
  Unicode.rfind_from c (a ++ b) i last
  = Unicode.rfind_from c b (i + Z.of_nat (length a)) (Unicode.rfind_from c a i last).
Proof.
  revert i last. induction a as [| x a IH]; intros i last; simpl.
  - f_equal. lia.
  - rewrite IH. f_equal. lia.
Qed.

Lemma urfind_from_absent (c : N) (s : ustr) (i last : Z) :
  c ∉ s -> Unicode.rfind_from c s i last = last.
Proof.
  revert i last. induction s as [| x s IH]; intros i last H; simpl; [reflexivity |].
  apply not_elem_of_cons in H as [Hx Hs]. rewrite IH by exact Hs.
  destruct (N.eqb_spec x c); [congruence | reflexivity].
Qed.

Lemma urfind_from_bound (c : N) (s : ustr) (i last : Z) :
  last < i -> Unicode.rfind_from c s i last < i + Z.of_nat (length s).
Proof.
  revert i last. induction s as [| x s IH]; intros i last H; simpl; [lia |].
  pose proof (IH (i + 1) (if (x =? c)%N then i else last)) as H'.
  destruct (x =? c)%N; lia.
Qed.

Lemma urfind_last (c : N) (a r : ustr) :
  c ∉ r -> Unicode.rfind c (a ++ c :: r) = Z.of_nat (length a).
Proof.
  intros H. unfold Unicode.rfind. rewrite urfind_from_app. simpl.
  rewrite N.eqb_refl. apply urfind_from_absent. exact H.
Qed.

Lemma after_last_absent (c : N) (s : ustr) : c ∉ s -> after_last c s = None.
Proof.
  induction s as [| x s IH]; intros H; simpl; [reflexivity |].
  apply not_elem_of_cons in H as [Hx Hs]. rewrite IH by exact Hs.
  destruct (N.eqb_spec x c); [congruence | reflexivity].
Qed.

Lemma after_last_app (c : N) (a r : ustr) :
  c ∉ r -> after_last c (a ++ c :: r) = Some r.
Proof.
  intros H. induction a as [| x a IH]; simpl.
  - rewrite (after_last_absent c r H), N.eqb_refl. reflexivity.
  - rewrite IH. reflexivity.
Qed.

Lemma after_last_cases (c : N) (s : ustr) :
  ((c ∉ s) /\ after_last c s = None)
  \/ exists a r, s = a ++ c :: r /\ (c ∉ r) /\ after_last c s = Some r.
Proof.
  induction s as [| x s IH].
  - left. split; [apply not_elem_of_nil | reflexivity].
  - destruct IH as [[Hs Hn] | (a & r & -> & Hr & Hn)].
    + destruct (N.eqb_spec x c) as [-> | Hx].
      * right. exists [], s. split; [reflexivity |]. split; [exact Hs |].
        apply (after_last_app c [] s Hs).
      * left. split; [apply not_elem_of_cons; auto |].
        simpl. rewrite Hn. destruct (N.eqb_spec x c); [congruence | reflexivity].
    + right. exists (x :: a), r. split; [reflexivity |]. split; [exact Hr |].
      apply (after_last_app c (x :: a) r Hr).
Qed.

(** The loop of [_splitext] over the part of the component before its
    last dot: it ends with the whole name when that part holds dots
    only. *)
Lemma usplitext_scan_dots (pre rest e : ustr) :
  forall (seen : ustr) (p : ustr) (dotIndex : Z),
  p = pre ++ seen ++ rest ++ 46%N :: e ->
  Unicode.splitext_scan p dotIndex (length rest)
    (Z.of_nat (length pre + length seen))
  = if forallb (N.eqb 46) rest then (p, [])
    else (take (Z.to_nat dotIndex) p, drop (Z.to_nat dotIndex) p).
Proof.
  induction rest as [| x rest IH]; intros seen p dotIndex Hp; [reflexivity |].
  cbn [length Unicode.splitext_scan forallb].
  assert (Hx : p !! Z.to_nat (Z.of_nat (length pre + length seen)) = Some x).
  { rewrite Nat2Z.id, Hp, app_assoc.
    rewrite lookup_app_r by (rewrite length_app; lia).
    rewrite length_app. replace (_ - _)%nat with O by lia. reflexivity. }
  rewrite Hx. rewrite (N.eqb_sym 46 x).
  destruct (x =? 46)%N; [| reflexivity]. cbn [andb].
  replace (Z.of_nat (length pre + length seen) + 1)
    with (Z.of_nat (length pre + length (seen ++ [x])))
    by (rewrite length_app; simpl; lia).
  apply IH. rewrite Hp, <- (app_assoc seen). reflexivity.
Qed.

Lemma usplitext_component (pre comp : ustr) :
  47%N ∉ comp ->
  pre = [] \/ (exists a, pre = a ++ [47%N]) ->
  snd (Unicode.splitext (pre ++ comp))
  = match after_last 46 comp with
    | None => []
    | Some e =>
        if names_a_file (take (length comp - S (length e)) comp)
        then 46%N :: e else []
    end.
Proof.
  intros Hcomp Hpre.
  assert (Hsep : Unicode.rfind 47 (pre ++ comp) = Z.of_nat (length pre) - 1).
  { destruct Hpre as [-> | [a ->]].
    - apply (urfind_from_absent 47 comp 0 (-1) Hcomp).
    - rewrite <- app_assoc. cbn [app]. rewrite (urfind_last 47 a comp Hcomp).
      rewrite length_app. simpl. lia. }
  assert (Hdotpre : Unicode.rfind 46 pre <= Z.of_nat (length pre) - 1).
  { destruct Hpre as [-> | [a ->]]; [reflexivity |].
    unfold Unicode.rfind. rewrite urfind_from_app. simpl.
    pose proof (urfind_from_bound 46 a 0 (-1) ltac:(lia)).
    rewrite length_app. simpl. lia. }
  unfold Unicode.splitext. rewrite Hsep.
  destruct (after_last_cases 46 comp) as [[Hd Hn] | (base & e & -> & He & Hn)];
    rewrite Hn.
  - assert (Hdot : Unicode.rfind 46 (pre ++ comp) = Unicode.rfind 46 pre).
    { unfold Unicode.rfind. rewrite urfind_from_app.
      apply urfind_from_absent. exact Hd. }
    rewrite Hdot. cbv zeta.
    destruct (Z.gtb_spec (Unicode.rfind 46 pre) (Z.of_nat (length pre) - 1));
      [lia | reflexivity].
  - assert (Hdot : Unicode.rfind 46 (pre ++ base ++ 46%N :: e)
                   = Z.of_nat (length pre + length base)).
    { rewrite app_assoc, (urfind_last 46 (pre ++ base) e He), length_app.
      reflexivity. }
    rewrite Hdot. cbv zeta.
    destruct (Z.gtb_spec (Z.of_nat (length pre + length base))
                (Z.of_nat (length pre) - 1)); [| lia].
    replace (Z.to_nat (Z.of_nat (length pre + length base)
                       - (Z.of_nat (length pre) - 1 + 1)))
      with (length base) by lia.
    replace (Z.of_nat (length pre) - 1 + 1)
      with (Z.of_nat (length pre + length (@nil N))) by (simpl; lia).
    rewrite (usplitext_scan_dots pre base e [] _ _ eq_refl).
    change ([] ++ base ++ 46%N :: e) with (base ++ 46%N :: e).
    replace (length (base ++ 46%N :: e) - S (length e))%nat with (length base)
      by (rewrite length_app; simpl; lia).
    rewrite take_app_length. unfold names_a_file.
    destruct (forallb (N.eqb 46) base); [reflexivity |].
    cbn [negb snd]. rewrite Nat2Z.id.
    replace (pre ++ base ++ 46%N :: e) with ((pre ++ base) ++ 46%N :: e)
      by (rewrite <- app_assoc; reflexivity).
    apply drop_app_length'. rewrite length_app. reflexivity.
Qed.

(** [os.path.splitext] cuts off the extension of the specification. *)
Lemma usplitext_extension (p : ustr) :
  snd (Unicode.splitext p) = extension_spec p.
Proof.
  unfold extension_spec, last_component.
  destruct (after_last_cases 47 p) as [[Hs Hn] | (a & comp & -> & Hcomp & Hn)];
    rewrite Hn; cbn [default from_option id].
  - apply (usplitext_component [] p Hs). left. reflexivity.
  - replace (a ++ 47%N :: comp) with ((a ++ [47%N]) ++ comp)
      by (rewrite <- app_assoc; reflexivity).
    apply (usplitext_component (a ++ [47%N]) comp Hcomp). right. eauto.
Qed.

(** A name that ends with a dot and characters that are neither a dot
    nor a separator, after a component that names a file, has these
    for its extension. *)
Lemma extension_spec_suffix (stem e : ustr) :
  names_a_file (last_component stem) = true ->
  46%N ∉ e -> 47%N ∉ e ->
  extension_spec (stem ++ 46%N :: e) = 46%N :: e.
Proof.
  intros Hname Hdot Hsep.
  assert (Hcomp : last_component (stem ++ 46%N :: e)
                  = last_component stem ++ 46%N :: e).
  { unfold last_component.
    destruct (after_last_cases 47 stem) as [[Hs Hn] | (a & comp & -> & Hc & Hn)];
      rewrite Hn; cbn [default from_option id].
    - rewrite after_last_absent; [reflexivity |].
      rewrite not_elem_of_app, not_elem_of_cons. auto.
    - rewrite <- app_assoc. cbn [app].
      rewrite after_last_app; [reflexivity |].
      rewrite not_elem_of_app, not_elem_of_cons. auto. }
  unfold extension_spec. rewrite Hcomp.
  rewrite (after_last_app 46 (last_component stem) e Hdot).
  replace (length (last_component stem ++ 46%N :: e) - S (length e))%nat
    with (length (last_component stem)) by (rewrite length_app; simpl; lia).
  rewrite take_app_length, Hname. reflexivity.
Qed.

(** *** The lower case of the extension *)

Lemma lower_lookup_in (c l : N) (table : list (N * N * N * N)) :
  Unicode.lower_lookup c table = Some l ->
  exists first last step target,
    In (first, last, step, target) table
    /\ (first <= c <= last)%N /\ l = (target + (c - first))%N.
Proof.
  induction table as [| [[[f la] st] t] tbl IH]; simpl; [discriminate |].
  destruct ((f <=? c) && (c <=? la) && ((c - f) `mod` st =? 0))%N eqn:E.
  - intros [= <-]. exists f, la, st, t. split; [left; reflexivity |].
    apply andb_true_iff in E as [E _]. apply andb_true_iff in E as [E1 E2].
    apply N.leb_le in E1, E2. split; [lia | reflexivity].
  - intros H. destruct (IH H) as (f' & la' & st' & t' & Hin & Hc & Hl).
    exists f', la', st', t'. split; [right; exact Hin | split; assumption].
Qed.

(** Below U+0080 the letters A..Z have a lower case of their own, and
    above it the Kelvin sign alone has a lower case below U+0080. *)
Lemma lower_ranges_targets :
  forallb (fun entry : N * N * N * N =>
             let '(first, last, _, target) := entry in
             ((last <? 128) || ((first =? 8490) && (last =? 8490))
              || (128 <=? target))%N)
    Unicode.LOWER_RANGES = true.
Proof. vm_compute. reflexivity. Qed.

Lemma to_lower_full_small (c : N) :
  (c < 128)%N -> Unicode.to_lower_full c = [fold_case c].
Proof.
  intros Hc.
  assert (H : forallb (fun n => bool_decide
                         (Unicode.to_lower_full (N.of_nat n)
                          = [fold_case (N.of_nat n)]))
                (seq 0 128) = true) by (vm_compute; reflexivity).
  rewrite forallb_forall in H. specialize (H (N.to_nat c)).
  rewrite N2Nat.id in H. apply bool_decide_eq_true in H; [exact H |].
  apply in_seq. lia.
Qed.

Lemma lower_ucs4_plain (s : ustr) (i : nat) (c : N) :
  (c < 128)%N \/ c = 8490%N -> Unicode.lower_ucs4 s i c = [fold_case c].
Proof.
  intros [Hc | ->]; unfold Unicode.lower_ucs4.
  - destruct (N.eqb_spec c 931%N); [lia |]. apply to_lower_full_small. exact Hc.
  - vm_compute. reflexivity.
Qed.

Lemma lower_ucs4_other (s : ustr) (i : nat) (c : N) :
  (128 <= c)%N -> c <> 8490%N ->
  exists x, In x (Unicode.lower_ucs4 s i c) /\ (128 <= x)%N.
Proof.
  intros Hc Hk. unfold Unicode.lower_ucs4.
  destruct (N.eqb_spec c 931%N) as [-> | Hsigma].
  { destruct (Unicode.final_sigma s i); eexists; (split; [left; reflexivity | lia]). }
  unfold Unicode.to_lower_full.
  destruct (N.eqb_spec c 304%N) as [-> | Hi].
  { exists 775%N. split; [right; left; reflexivity | lia]. }
  destruct (Unicode.lower_lookup c Unicode.LOWER_RANGES) as [l |] eqn:El.
  - exists l. split; [left; reflexivity |].
    destruct (lower_lookup_in _ _ _ El) as (f & la & st & t & Hin & Hr & ->).
    pose proof lower_ranges_targets as H. rewrite forallb_forall in H.
    specialize (H _ Hin). cbv beta iota in H.
    apply orb_true_iff in H as [H | H]; [apply orb_true_iff in H as [H | H] |].
    + apply N.ltb_lt in H. lia.
    + apply andb_true_iff in H as [H1 H2]. apply N.eqb_eq in H1, H2. lia.
    + apply N.leb_le in H. lia.
  - exists c. split; [left; reflexivity | exact Hc].
Qed.

Lemma fold_case_other (c : N) :
  (128 <= c)%N -> c <> 8490%N -> fold_case c = c.
Proof.
  intros Hc Hk. unfold fold_case.
  destruct (N.leb_spec 65%N c), (N.leb_spec c 90%N); cbn [andb]; try lia;
    destruct (N.eqb_spec c 8490%N); congruence.
Qed.

Lemma lower_from_fold (s : ustr) :
  forall (rest : ustr) (i : nat) (t : ustr),
  forallb (fun x => x <? 128)%N t = true ->
  Unicode.lower_from s i rest = t <-> map fold_case rest = t.
Proof.
  induction rest as [| c rest IH]; intros i t Ht; [reflexivity |].
  cbn [Unicode.lower_from map].
  destruct (N.ltb_spec c 128%N) as [Hc | Hc];
    [| destruct (N.eq_dec c 8490%N) as [Hk | Hk]].
  - rewrite (lower_ucs4_plain s i c (or_introl Hc)). cbn [app].
    destruct t as [| y t]; [split; discriminate |].
    cbn [forallb] in Ht. apply andb_true_iff in Ht as [_ Ht].
    specialize (IH (S i) t Ht).
    split; intros [= -> H]; f_equal; apply IH; exact H.
  - rewrite (lower_ucs4_plain s i c (or_intror Hk)). cbn [app].
    destruct t as [| y t]; [split; discriminate |].
    cbn [forallb] in Ht. apply andb_true_iff in Ht as [_ Ht].
    specialize (IH (S i) t Ht).
    split; intros [= -> H]; f_equal; apply IH; exact H.
  - rewrite forallb_forall in Ht. split; intros H; exfalso.
    + destruct (lower_ucs4_other s i c Hc Hk) as (x & Hx & Hbig).
      assert (Hin : In x t) by (rewrite <- H; apply in_or_app; left; exact Hx).
      apply Ht in Hin. apply N.ltb_lt in Hin. lia.
    + rewrite (fold_case_other c Hc Hk) in H.
      assert (Hin : In c t) by (rewrite <- H; left; reflexivity).
      apply Ht in Hin. apply N.ltb_lt in Hin. lia.
Qed.

(** The members of the three sets are written in digits, the dot and
    small letters. *)
Lemma extensions_plain (x : string) :
  In x (VIDEO_EXTENSIONS ++ AUDIO_EXTENSIONS ++ IMAGE_EXTENSIONS) ->
  forallb (fun c => c <? 128)%N (codes x) = true
  /\ map fold_case (codes x) = codes x.
Proof.
  intros H. simpl in H.
  repeat (destruct H as [<- | H]; [split; vm_compute; reflexivity |]).
  destruct H.
Qed.

Lemma member_ignore_case (ext : ustr) (l : list string) (X : gset string) :
  (forall e, e ∈ X <-> In e l) ->
  (forall x, In x l ->
     forallb (fun c => c <? 128)%N (codes x) = true
     /\ map fold_case (codes x) = codes x) ->
  Unicode.member (Unicode.lower ext) X = existsb (eq_ignore_case ext) l.
Proof.
  intros HX Hl. apply Bool.eq_iff_eq_true.
  unfold Unicode.member. rewrite bool_decide_eq_true, existsb_exists.
  unfold set_Exists. split.
  - intros (x & Hx & Heq). exists x. apply HX in Hx. split; [exact Hx |].
    destruct (Hl x Hx) as [Hplain Hfix]. unfold eq_ignore_case.
    apply bool_decide_eq_true. rewrite Hfix.
    apply (lower_from_fold ext ext O (codes x) Hplain). symmetry. exact Heq.
  - intros (x & Hx & Heq). exists x. split; [apply HX; exact Hx |].
    destruct (Hl x Hx) as [Hplain Hfix]. unfold eq_ignore_case in Heq.
    apply bool_decide_eq_true in Heq. rewrite Hfix in Heq.
    symmetry. apply (lower_from_fold ext ext O (codes x) Hplain). exact Heq.
Qed.

Lemma classify_spec_classifies (filename : ustr) :
  match classify_spec filename with
  | Some kind => Unicode.get_file_type filename = Unicode.Classified kind
  | None =>
      exists ext,
        Unicode.get_file_type filename
        = Unicode.Refused 400 (codes "Unsupported file type: " ++ ext)
  end.
Proof.
  unfold classify_spec, Unicode.get_file_type.
  rewrite usplitext_extension.
  rewrite (member_ignore_case _ VIDEO_EXTENSIONS _ video_set_list)
    by (intros x Hx; apply extensions_plain; rewrite !in_app_iff; auto).
  rewrite (member_ignore_case _ AUDIO_EXTENSIONS _ audio_set_list)
    by (intros x Hx; apply extensions_plain; rewrite !in_app_iff; auto).
  rewrite (member_ignore_case _ IMAGE_EXTENSIONS _ image_set_list)
    by (intros x Hx; apply extensions_plain; rewrite !in_app_iff; auto).
  destruct (existsb _ VIDEO_EXTENSIONS); [reflexivity |].
  destruct (existsb _ AUDIO_EXTENSIONS); [reflexivity |].
  destruct (existsb _ IMAGE_EXTENSIONS); [reflexivity |].
  eexists. reflexivity.
Qed.

Lemma classify_spec_suffix (stem e : ustr) (kind : file_type) (x : string) :
  names_a_file (last_component stem) = true ->
  forallb (fun c => negb ((c =? 46) || (c =? 47)))%N e = true ->
  In x (extensions_of kind) ->
  eq_ignore_case (46%N :: e) x = true ->
  classify_spec (stem ++ 46%N :: e) = Some kind.
Proof.
  intros Hname He Hx Heq.
  assert (Hdot : (46%N ∉ e) /\ (47%N ∉ e)).
  { rewrite forallb_forall in He.
    split; intros Hin; apply list_elem_of_In, He in Hin; discriminate Hin. }
  unfold classify_spec.
  rewrite (extension_spec_suffix stem e Hname (proj1 Hdot) (proj2 Hdot)).
  unfold eq_ignore_case in *. apply bool_decide_eq_true in Heq. rewrite Heq.
  destruct kind; simpl in Hx;
    repeat (destruct Hx as [<- | Hx]; [vm_compute; reflexivity |]);
    destruct Hx.
Qed.

(** *** File names of the characters U+0000..U+00FF *)

Lemma N_of_ascii_eqb (a c : ascii) :
  (N_of_ascii a =? N_of_ascii c)%N = Ascii.eqb a c.
Proof.
  destruct (Ascii.eqb_spec a c) as [-> | Hne]; [apply N.eqb_refl |].
  apply N.eqb_neq. intros H. apply Hne.
  rewrite <- (ascii_N_embedding a), <- (ascii_N_embedding c), H. reflexivity.
Qed.

Lemma codes_app (a b : string) : codes (a ++ b)%string = codes a ++ codes b.
Proof.
  induction a as [| c a IH]; [reflexivity |].
  change (N_of_ascii c :: codes (a ++ b)%string
          = N_of_ascii c :: (codes a ++ codes b)).
  rewrite IH. reflexivity.
Qed.

Lemma codes_inj (a b : string) : codes a = codes b -> a = b.
Proof.
  revert b. induction a as [| c a IH]; intros [| d b] H; try discriminate H;
    [reflexivity |].
  change (N_of_ascii c :: codes a = N_of_ascii d :: codes b) in H.
  injection H as Hc H. rewrite (IH b H). f_equal.
  rewrite <- (ascii_N_embedding c), <- (ascii_N_embedding d), Hc. reflexivity.
Qed.

Lemma codes_lookup (s : string) (n : nat) :
  codes s !! n = N_of_ascii <$> String.get n s.
Proof.
  revert n. induction s as [| c s IH]; intros [| n]; try reflexivity.
  apply (IH n).
Qed.

Lemma codes_take (n : nat) (s : string) :
  codes (str_take n s) = take n (codes s).
Proof.
  revert n. induction s as [| c s IH]; intros [| n]; try reflexivity.
  change (N_of_ascii c :: codes (str_take n s)
          = N_of_ascii c :: take n (codes s)).
  rewrite IH. reflexivity.
Qed.

Lemma codes_drop (n : nat) (s : string) :
  codes (str_drop n s) = drop n (codes s).
Proof.
  revert n. induction s as [| c s IH]; intros [| n]; try reflexivity.
  apply (IH n).
Qed.

Lemma urfind_from_codes (c : ascii) (s : string) (i last : Z) :
  Unicode.rfind_from (N_of_ascii c) (codes s) i last = rfind_from c s i last.
Proof.
  revert i last. induction s as [| a s IH]; intros i last; [reflexivity |].
  change (Unicode.rfind_from (N_of_ascii c) (codes s) (i + 1)
            (if (N_of_ascii a =? N_of_ascii c)%N then i else last)
          = rfind_from c s (i + 1) (if Ascii.eqb a c then i else last)).
  rewrite N_of_ascii_eqb. apply IH.
Qed.

Lemma usplitext_scan_codes (s : string) (dotIndex : Z) (remaining : nat) :
  forall filenameIndex,
  Unicode.splitext_scan (codes s) dotIndex remaining filenameIndex
  = (codes (fst (splitext_scan s dotIndex remaining filenameIndex)),
     codes (snd (splitext_scan s dotIndex remaining filenameIndex))).
Proof.
  induction remaining as [| k IH]; intros j; [reflexivity |].
  cbn [Unicode.splitext_scan splitext_scan]. rewrite codes_lookup.
  destruct (String.get (Z.to_nat j) s) as [c |]; cbn [fmap option_fmap option_map].
  - change 46%N with (N_of_ascii "."). rewrite N_of_ascii_eqb.
    destruct (Ascii.eqb c "."); [apply IH |].
    cbn [fst snd]. rewrite codes_take, codes_drop. reflexivity.
  - cbn [fst snd]. rewrite codes_take, codes_drop. reflexivity.
Qed.

Lemma usplitext_codes (s : string) :
  Unicode.splitext (codes s)
  = (codes (fst (splitext s)), codes (snd (splitext s))).
Proof.
  unfold Unicode.splitext, splitext, Unicode.rfind, rfind.
  change 47%N with (N_of_ascii "/"). change 46%N with (N_of_ascii ".").
  rewrite !urfind_from_codes. cbv zeta.
  destruct (_ >? _); [apply usplitext_scan_codes | reflexivity].
Qed.

Lemma lower_ucs4_codes (s : ustr) (i : nat) (a : ascii) :
  Unicode.lower_ucs4 s i (N_of_ascii a) = [N_of_ascii (lower_char a)].
Proof.
  assert (H : forall a,
            negb (N_of_ascii a =? 931)%N
            && bool_decide (Unicode.to_lower_full (N_of_ascii a)
                            = [N_of_ascii (lower_char a)]) = true).
  { apply forall_ascii. vm_compute. reflexivity. }
  specialize (H a). apply andb_true_iff in H as [H1 H2].
  apply negb_true_iff in H1. apply bool_decide_eq_true in H2.
  unfold Unicode.lower_ucs4. rewrite H1. exact H2.
Qed.

Lemma ulower_codes (s : string) : Unicode.lower (codes s) = codes (lower s).
Proof.
  unfold Unicode.lower. generalize (codes s) at 1. generalize O.
  induction s as [| a s IH]; intros i whole; [reflexivity |].
  change (Unicode.lower_ucs4 whole i (N_of_ascii a)
            ++ Unicode.lower_from whole (S i) (codes s)
          = N_of_ascii (lower_char a) :: codes (lower s)).
  rewrite lower_ucs4_codes, IH. reflexivity.
Qed.

Lemma member_codes (e : string) (X : gset string) :
  Unicode.member (codes e) X = bool_decide (e ∈ X).
Proof.
  apply Bool.eq_iff_eq_true. unfold Unicode.member.
  rewrite !bool_decide_eq_true. unfold set_Exists. split.
  - intros (x & Hx & Heq). apply codes_inj in Heq. congruence.
  - intros H. exists e. split; [exact H | reflexivity].
Qed.

(** On the file names of the characters U+0000..U+00FF, the classifier
    on code points is [get_file_type]. *)
Lemma get_file_type_codes (filename : string) :
  as_classification (get_file_type filename)
  = Some (Unicode.get_file_type (codes filename)).
Proof.
  unfold get_file_type, Unicode.get_file_type.
  rewrite usplitext_codes. cbn [snd]. rewrite ulower_codes, !member_codes.
  set (ext := lower (snd (splitext filename))).
  destruct (decide (ext ∈ SUPPORTED_VIDEO_TYPES)) as [HV | HV];
    [rewrite (bool_decide_eq_true_2 _ HV); reflexivity
    | rewrite (bool_decide_eq_false_2 _ HV)].
  destruct (decide (ext ∈ SUPPORTED_AUDIO_TYPES)) as [HA | HA];
    [rewrite (bool_decide_eq_true_2 _ HA); reflexivity
    | rewrite (bool_decide_eq_false_2 _ HA)].
  destruct (decide (ext ∈ SUPPORTED_IMAGE_TYPES)) as [HI | HI];
    [rewrite (bool_decide_eq_true_2 _ HI); reflexivity
    | rewrite (bool_decide_eq_false_2 _ HI)].
  cbn [as_classification]. rewrite codes_app. reflexivity.
Qed.

(** C8.  A file name whose extension is, without regard to case, in the
    video, audio or image set is classified as that kind; every other
    file name is refused with [UnsupportedType], never given a default
    kind.  The answer is a function of the file name alone.  The
    extension is the one of the specification, not the one that the
    code cuts off: a name that ends with a dot and the letters of a
    member of a set, in small or capital letters, after a component
    that names a file, is of the kind of that set.  The file names are
    all strings of code points; on the strings of U+0000..U+00FF the
    classifier is the [get_file_type] of the other statements. *)
Theorem get_file_type_classifies :
  (forall filename : ustr,
     match classify_spec filename with
     | Some kind => Unicode.get_file_type filename = Unicode.Classified kind
     | None =>
         exists ext,
           Unicode.get_file_type filename
           = Unicode.Refused 400 (codes "Unsupported file type: " ++ ext)
     end)
  /\ (forall (stem e : ustr) (kind : file_type) (x : string),
        names_a_file (last_component stem) = true ->
        forallb (fun c => negb ((c =? 46) || (c =? 47)))%N e = true ->
        In x (extensions_of kind) ->
        eq_ignore_case (46%N :: e) x = true ->
        Unicode.get_file_type (stem ++ 46%N :: e) = Unicode.Classified kind)
  /\ (forall filename : string,
        as_classification (get_file_type filename)
        = Some (Unicode.get_file_type (codes filename))).
Proof.
  split; [exact classify_spec_classifies |]. split.
  - intros stem e kind x Hname He Hx Heq.
    pose proof (classify_spec_classifies (stem ++ 46%N :: e)) as H.
    rewrite (classify_spec_suffix stem e kind x Hname He Hx Heq) in H.
    exact H.
  - exact get_file_type_codes.
Qed.

(** The names [clip.mp4], [Clip.MP4] and [clip.m] U+212A [v] are
    videos, [a.b/c] and [.mp4] are refused. *)
Lemma get_file_type_classifies_witness :
  Unicode.get_file_type (codes "clip.mp4") = Unicode.Classified video
  /\ Unicode.get_file_type (codes "Clip.MP4") = Unicode.Classified video
  /\ Unicode.get_file_type [99; 108; 105; 112; 46; 109; 8490; 118]%N
     = Unicode.Classified video
  /\ (exists ext,
        Unicode.get_file_type (codes "a.b/c")
        = Unicode.Refused 400 (codes "Unsupported file type: " ++ ext))
  /\ (exists ext,
        Unicode.get_file_type (codes ".mp4")
        = Unicode.Refused 400 (codes "Unsupported file type: " ++ ext)).
Proof.
  destruct get_file_type_classifies as (Hspec & Hsuffix & _).
  split; [| split; [| split; [| split]]].
  - apply (Hsuffix (codes "clip") (codes "mp4") video ".mp4");
      [reflexivity | reflexivity | left; reflexivity | reflexivity].
  - apply (Hsuffix (codes "Clip") (codes "MP4") video ".mp4");
      [reflexivity | reflexivity | left; reflexivity | reflexivity].
  - apply (Hsuffix (codes "clip") [109; 8490; 118]%N video ".mkv");
      [reflexivity | reflexivity | do 3 right; left; reflexivity | reflexivity].
  - apply (Hspec (codes "a.b/c")).
  - apply (Hspec (codes ".mp4")).
Defined.

End Classification.


(** ** Names without an extension *)


Lemma rfind_from_app c a b i last :
  rfind_from c (a ++ b) i last
  = rfind_from c b (i + Z.of_nat (String.length a)) (rfind_from c a i last).
Proof.
  revert i last. induction a as [| x a IH]; intros i last; simpl.
  - f_equal. lia.
  - rewrite IH. f_equal. lia.
Qed.

Lemma rfind_from_absent c s i last :
  no_char c s = true -> rfind_from c s i last = last.
Proof.
  revert i last. induction s as [| x s IH]; intros i last H; simpl in *; [reflexivity |].
  apply andb_true_iff in H as [Hx Hs]. rewrite IH by exact Hs.
  destruct (Ascii.eqb x c); [discriminate | reflexivity].
Qed.

Lemma rfind_from_only c s i last :
  only_char c s = true ->
  rfind_from c s i last
  = match s with
    | EmptyString => last
    | _ => i + Z.of_nat (String.length s) - 1
    end.
Proof.
  revert i last. induction s as [| x s IH]; intros i last H; simpl in *; [reflexivity |].
  apply andb_true_iff in H as [Hx Hs]. rewrite Hx, (IH _ _ Hs).
  destruct s; simpl; lia.
Qed.

Lemma rfind_sep_at_end d i last :
  ends_with_sep d = true ->
  rfind_from "/" d i last = i + Z.of_nat (String.length d) - 1.
Proof.
  revert i last. induction d as [| x d IH]; intros i last H; [discriminate |].
  destruct d as [| y d'].
  - simpl in *. rewrite H. lia.
  - change (rfind_from "/" (String x (String y d')) i last)
      with (rfind_from "/" (String y d') (i + 1)
              (if Ascii.eqb x "/" then i else last)).
    rewrite IH by exact H. simpl String.length. lia.
Qed.

Lemma rfind_dot_before_sep d i last :
  ends_with_sep d = true ->
  last < i + Z.of_nat (String.length d) - 1 ->
  rfind_from "." d i last < i + Z.of_nat (String.length d) - 1.
Proof.
  revert i last. induction d as [| x d IH]; intros i last H Hl; [discriminate |].
  destruct d as [| y d'].
  - simpl in *. apply Ascii.eqb_eq in H. subst x. simpl. lia.
  - change (rfind_from "." (String x (String y d')) i last)
      with (rfind_from "." (String y d') (i + 1)
              (if Ascii.eqb x "." then i else last)).
    replace (i + Z.of_nat (String.length (String x (String y d'))) - 1)
      with (i + 1 + Z.of_nat (String.length (String y d')) - 1)
      by (simpl String.length; lia).
    apply IH; [exact H |].
    simpl String.length in *. destruct (Ascii.eqb x "."); lia.
Qed.

Lemma only_char_no_char c c' s :
  c <> c' -> only_char c s = true -> no_char c' s = true.
Proof.
  intros Hne. induction s as [| x s IH]; simpl; [reflexivity |].
  intros H. apply andb_true_iff in H as [Hx Hs]. apply Ascii.eqb_eq in Hx. subst x.
  apply andb_true_iff. split; [| exact (IH Hs)].
  apply negb_true_iff, Ascii.eqb_neq. exact Hne.
Qed.

Lemma no_char_app c a b :
  no_char c (a ++ b) = no_char c a && no_char c b.
Proof.
  induction a as [| x a IH]; simpl; [reflexivity |].
  unfold no_char in *. simpl. rewrite IH. apply andb_assoc.
Qed.

Lemma get_only_char c s (k : nat) :
  only_char c s = true -> (k < String.length s)%nat -> String.get k s = Some c.
Proof.
  revert k. induction s as [| x s IH]; intros k H Hk; simpl in *; [lia |].
  apply andb_true_iff in H as [Hx Hs]. apply Ascii.eqb_eq in Hx. subst x.
  destruct k; [reflexivity |]. apply IH; [exact Hs | lia].
Qed.

Lemma splitext_scan_dots p dot (n j : nat) :
  (forall k, (k < n)%nat -> String.get (j + k) p = Some "."%char) ->
  splitext_scan p dot n (Z.of_nat j) = (p, "").
Proof.
  revert j. induction n as [| n IH]; intros j H; simpl; [reflexivity |].
  rewrite Nat2Z.id. pose proof (H O ltac:(lia)) as H0.
  rewrite Nat.add_0_r in H0. rewrite H0. simpl.
  replace (Z.of_nat j + 1) with (Z.of_nat (S j)) by lia.
  apply IH. intros k Hk. replace (S j + k)%nat with (j + S k)%nat by lia.
  apply H. lia.
Qed.

(** A name made of a directory part, leading dots and a rest without a
    dot has no extension. *)
Lemma splitext_no_extension (d dots s : string) :
  d = "" \/ ends_with_sep d = true ->
  only_char "." dots = true ->
  no_char "." s = true ->
  no_char "/" s = true ->
  splitext (d ++ dots ++ s) = (d ++ dots ++ s, "").
Proof.
  intros Hd Hdots Hs1 Hs2. unfold splitext, rfind.
  set (p := d ++ dots ++ s).
  assert (Hsep : rfind_from "/" p 0 (-1) = Z.of_nat (String.length d) - 1).
  { unfold p. rewrite rfind_from_app, rfind_from_absent.
    - destruct Hd as [-> | Hd]; [reflexivity |].
      rewrite rfind_sep_at_end by exact Hd. lia.
    - rewrite no_char_app, Hs2, andb_true_r.
      apply (only_char_no_char "."); [discriminate | exact Hdots]. }
  assert (Hdot : rfind_from "." p 0 (-1)
                 = match dots with
                   | EmptyString => rfind_from "." d 0 (-1)
                   | _ => Z.of_nat (String.length d)
                          + Z.of_nat (String.length dots) - 1
                   end).
  { unfold p. rewrite !rfind_from_app, (rfind_from_absent _ s) by exact Hs1.
    rewrite rfind_from_only by exact Hdots. destruct dots; [reflexivity | lia]. }
  rewrite Hsep, Hdot. destruct dots as [| x dots'].
  - assert (Hle : rfind_from "." d 0 (-1) <= Z.of_nat (String.length d) - 1).
    { destruct Hd as [-> | Hd]; [simpl; lia |].
      pose proof (rfind_dot_before_sep d 0 (-1) Hd) as Hlt.
      destruct d; [discriminate |]. simpl String.length in *. lia. }
    destruct (Z.gtb_spec (rfind_from "." d 0 (-1)) (Z.of_nat (String.length d) - 1));
      [lia | reflexivity].
  - set (dots := String x dots') in *.
    destruct (Z.gtb_spec (Z.of_nat (String.length d) + Z.of_nat (String.length dots) - 1)
                (Z.of_nat (String.length d) - 1)) as [_ | Hle].
    + replace (Z.of_nat (String.length d) - 1 + 1) with (Z.of_nat (String.length d)) by lia.
      apply splitext_scan_dots. intros k Hk.
      unfold p. rewrite Nat.add_comm, <- append_correct2.
      rewrite <- append_correct1 by (unfold dots in *; simpl String.length in *; lia).
      apply get_only_char; [exact Hdots |].
      unfold dots in *; simpl String.length in *; lia.
    + unfold dots in Hle. simpl String.length in Hle. lia.
Qed.

(** C10.  A filename with no extension separator after a non-empty
    base name -- a name without any dot, or a name whose only dots lead
    the base name, as in [.mp4] -- has the empty extension and is
    refused with [UnsupportedType]. *)
Theorem get_file_type_no_extension (d dots s : string)
    (Hd : d = "" \/ ends_with_sep d = true)
    (Hdots : only_char "." dots = true)
    (Hs : no_char "." s = true /\ no_char "/" s = true) :
  snd (splitext (d ++ dots ++ s)) = ""
  /\ get_file_type (d ++ dots ++ s)
     = Raise (HTTPException 400 "Unsupported file type: ")
  /\ UnsupportedType (HTTPException 400 "Unsupported file type: ").
Proof.
  destruct Hs as [Hs1 Hs2].
  pose proof (splitext_no_extension d dots s Hd Hdots Hs1 Hs2) as H.
  split; [rewrite H; reflexivity |]. split.
  - unfold get_file_type. rewrite H. reflexivity.
  - exists "". reflexivity.
Qed.

Lemma get_file_type_no_extension_witness :
  (snd (splitext "video") = ""
   /\ get_file_type "video" = Raise (HTTPException 400 "Unsupported file type: ")
   /\ UnsupportedType (HTTPException 400 "Unsupported file type: "))
  /\ (snd (splitext ".mp4") = ""
      /\ get_file_type ".mp4" = Raise (HTTPException 400 "Unsupported file type: ")
      /\ UnsupportedType (HTTPException 400 "Unsupported file type: ")).
Proof.
  split.
  - apply (get_file_type_no_extension "" "" "video");
      [left; reflexivity | reflexivity | split; reflexivity].
  - apply (get_file_type_no_extension "" "." "mp4");
      [left; reflexivity | reflexivity | split; reflexivity].
Defined.

(** ** Validation *)

Lemma validate_file_errors (f : UploadFile) (e : exn) :
  validate_file f = Raise e ->
  TooLarge e \/ UnsupportedType e \/ (size f = None /\ e = TypeError).
Proof.
  unfold validate_file. destruct (size f) as [n |]; simpl.
  - destruct (n >? MAX_FILE_SIZE).
    + intros [= <-]. left. reflexivity.
    + unfold get_file_type.
      repeat case_decide; simpl; try discriminate.
      intros [= <-]. right. left. eexists. reflexivity.
  - intros [= <-]. right. right. split; reflexivity.
Qed.

Lemma validate_file_ok (f : UploadFile) :
  validate_file f = Ok tt ->
  exists kind, get_file_type (filename f) = Ok kind.
Proof.
  unfold validate_file. destruct (size f) as [n |]; simpl; [| discriminate].
  destruct (n >? MAX_FILE_SIZE); [discriminate |].
  destruct (get_file_type (filename f)) as [kind | e]; simpl; [| discriminate].
  intros _. exists kind. reflexivity.
Qed.

(** C9.  A declared size above the ceiling of 104857600 bytes is
    refused with [TooLarge], whatever the filename and its extension
    are: the size is checked before the type. *)
Theorem validate_file_too_large (f : UploadFile) (n : Z)
    (Hsize : size f = Some n) (Hbig : n > MAX_FILE_SIZE) :
  MAX_FILE_SIZE = 104857600
  /\ exists e, validate_file f = Raise e /\ TooLarge e.
Proof.
  split; [reflexivity |].
  unfold validate_file. rewrite Hsize. simpl.
  replace (n >? MAX_FILE_SIZE) with true by (symmetry; apply Z.gtb_lt; lia).
  eexists. split; reflexivity.
Qed.

Lemma validate_file_too_large_witness :
  (MAX_FILE_SIZE = 104857600
   /\ exists e, validate_file {| filename := "clip.mp4"; size := Some 104857601;
                                 file := [] |} = Raise e /\ TooLarge e)
  /\ (MAX_FILE_SIZE = 104857600
      /\ exists e, validate_file {| filename := "notes.exe"; size := Some 104857601;
                                    file := [] |} = Raise e /\ TooLarge e).
Proof.
  split.
  - apply (validate_file_too_large _ 104857601); [reflexivity | reflexivity].
  - apply (validate_file_too_large _ 104857601); [reflexivity | reflexivity].
Defined.

(** C7.  An upload that validation refuses is refused before anything
    is written: the validation error reaches the caller and the state --
    the files, the free space, the random draws -- is the one before the
    call. *)
Theorem validation_failure_leaves_state (w : World) (f : UploadFile)
    (st : state) (e : exn) (Hrej : validate_file f = Raise e) :
  upload_file_to_storage w f st = (Raise e, st)
  /\ ingestion_pipeline w f st = (Raise e, st)
  /\ (TooLarge e \/ UnsupportedType e \/ (size f = None /\ e = TypeError)).
Proof.
  assert (H : upload_file_to_storage w f st = (Raise e, st)).
  { unfold upload_file_to_storage, mbind, io_bind, lift. rewrite Hrej. reflexivity. }
  split; [exact H |]. split.
  - unfold ingestion_pipeline, mbind, io_bind. rewrite H. reflexivity.
  - apply validate_file_errors. exact Hrej.
Qed.

Lemma validation_failure_leaves_state_witness :
  let w := sample_world "30/1" "12.5" in
  let st := fresh_state 100 in
  let e := HTTPException 400 "Unsupported file type: .exe" in
  upload_file_to_storage w (sample_upload "notes.exe") st = (Raise e, st)
  /\ ingestion_pipeline w (sample_upload "notes.exe") st = (Raise e, st)
  /\ (TooLarge e \/ UnsupportedType e
      \/ (size (sample_upload "notes.exe") = None /\ e = TypeError)).
Proof.
  apply (validation_failure_leaves_state
           (sample_world "30/1" "12.5") (sample_upload "notes.exe")
           (fresh_state 100)).
  reflexivity.
Defined.

(** ** Copying the upload *)

Lemma COPY_BUFSIZE_pos : (0 < COPY_BUFSIZE)%nat.
Proof. unfold COPY_BUFSIZE. lia. Qed.

Lemma copy_rounds_spec (rounds : nat) :
  forall (src : list ascii) (path : string) (st : state) (old : list ascii),
  fs st !! path = Some (RawBytes old) ->
  (length src < rounds)%nat ->
  copy_rounds rounds src path st
  = if decide (length src <= disk_free st)%nat then
      (Ok tt,
       {| fs := <[path := RawBytes (old ++ src)]> (fs st);
          disk_free := (disk_free st - length src)%nat; draws := draws st |})
    else
      (Raise (OSError ENOSPC),
       {| fs := <[path := RawBytes (old ++ take (disk_free st) src)]> (fs st);
          disk_free := O; draws := draws st |}).
Proof.
  pose proof COPY_BUFSIZE_pos as HB. set (B := COPY_BUFSIZE) in *.
  induction rounds as [| k IH]; intros src path st old Hold Hlen; [lia |].
  cbn [copy_rounds]. fold B. destruct (take B src) as [| b buf'] eqn:Ebuf.
  - assert (src = []) as ->.
    { destruct src; [reflexivity |]. destruct B; [lia | discriminate]. }
    cbn [length take]. rewrite decide_True by lia. rewrite app_nil_r, insert_id by exact Hold.
    destruct st; simpl. rewrite Nat.sub_0_r. reflexivity.
  - set (buf := b :: buf') in *.
    assert (Hsplit : src = (buf ++ drop B src)%list) by (rewrite <- Ebuf; symmetry; apply take_drop).
    assert (Hlb : (length buf <= B)%nat) by (rewrite <- Ebuf, length_take; lia).
    assert (Hls : length src = (length buf + length (drop B src))%nat).
    { rewrite Hsplit at 1. apply length_app. }
    unfold mbind, io_bind. unfold file_write at 1. rewrite Hold.
    destruct (decide (length buf <= disk_free st)%nat) as [Hfit | Hfull].
    + assert (0 < length buf)%nat by (unfold buf; simpl; lia).
      rewrite (IH _ _ _ (old ++ buf)%list); cbn [fs disk_free draws];
        [| apply lookup_insert_eq | lia].
      destruct (decide (length (drop B src) <= disk_free st - length buf)%nat) as [Hfit2 | Hfull2].
      * rewrite decide_True by lia. rewrite insert_insert_eq, <- app_assoc, <- Hsplit.
        replace (disk_free st - length buf - length (drop B src))%nat
          with (disk_free st - length src)%nat by lia.
        reflexivity.
      * rewrite decide_False by lia. rewrite insert_insert_eq, <- app_assoc.
        replace (take (disk_free st) src)
          with (buf ++ take (disk_free st - length buf) (drop B src))%list;
          [reflexivity |].
        rewrite Hsplit at 2. rewrite take_app, (take_ge buf) by lia. reflexivity.
    + rewrite decide_False by lia.
      replace (take (disk_free st) buf) with (take (disk_free st) src);
        [reflexivity |].
      rewrite <- Ebuf, take_take. f_equal. lia.
Qed.

(** With room for the whole body the copy writes it all; with less room
    it stops at the first byte that does not fit. *)
Lemma copyfileobj_spec (src : list ascii) (path : string) (st : state)
    (old : list ascii) :
  fs st !! path = Some (RawBytes old) ->
  copyfileobj src path st
  = if decide (length src <= disk_free st)%nat then
      (Ok tt,
       {| fs := <[path := RawBytes (old ++ src)]> (fs st);
          disk_free := (disk_free st - length src)%nat; draws := draws st |})
    else
      (Raise (OSError ENOSPC),
       {| fs := <[path := RawBytes (old ++ take (disk_free st) src)]> (fs st);
          disk_free := O; draws := draws st |}).
Proof. intros H. apply copy_rounds_spec; [exact H | lia]. Qed.

(** ** Storing the original asset *)

Lemma upload_file_to_storage_spec (w : World) (f : UploadFile) (st : state)
    (kind : file_type) :
  validate_file f = Ok tt ->
  get_file_type (filename f) = Ok kind ->
  upload_file_to_storage w f st
  = let path := stored_path w f st in
    if decide (length (file f) <= disk_free st)%nat then
      let st' := {| fs := <[path := RawBytes (file f)]> (fs st);
                    disk_free := (disk_free st - length (file f))%nat;
                    draws := S (draws st) |} in
      (metadata ← extract_metadata w kind path st'; Ok (path, kind, metadata), st')
    else
      (Raise (OSError ENOSPC),
       {| fs := <[path := RawBytes (take (disk_free st) (file f))]> (fs st);
          disk_free := O; draws := S (draws st) |}).
Proof.
  intros Hval Hkind. unfold upload_file_to_storage.
  fold (unique_filename w f st). unfold mbind at 1. unfold io_bind at 1.
  unfold lift at 1. rewrite Hval.
  unfold mbind at 1. unfold io_bind at 1. unfold uuid4 at 1.
  fold (unique_filename w f st). fold (stored_path w f st).
  set (path := stored_path w f st).
  unfold mbind at 1. unfold io_bind at 1. unfold open_wb, put_file.
  cbn [fs disk_free draws].
  unfold mbind at 1. unfold io_bind at 1.
  rewrite (copyfileobj_spec _ _ _ []) by (cbn [fs]; apply lookup_insert_eq).
  cbn [fs disk_free draws]. rewrite !insert_insert_eq. cbn [app].
  destruct (decide (length (file f) <= disk_free st)%nat); [| reflexivity].
  unfold mbind at 1. unfold io_bind at 1. unfold lift. rewrite Hkind.
  unfold mbind at 1. unfold io_bind at 1. unfold extract_metadata.
  destruct kind; unfold read;
    match goal with
    | |- context [extract_video_metadata ?a ?b ?c] =>
        destruct (extract_video_metadata a b c)
    | |- context [extract_audio_metadata ?a ?b ?c] =>
        destruct (extract_audio_metadata a b c)
    | |- context [extract_image_metadata ?a ?b ?c] =>
        destruct (extract_image_metadata a b c)
    end; reflexivity.
Qed.

(** ** The stored name *)

Lemma all_chars_app p a b :
  all_chars p (a ++ b) = all_chars p a && all_chars p b.
Proof.
  induction a as [| x a IH]; simpl; [reflexivity |].
  rewrite IH. apply andb_assoc.
Qed.

Lemma all_chars_impl (p q : ascii -> bool) s :
  (forall c, p c = true -> q c = true) ->
  all_chars p s = true -> all_chars q s = true.
Proof.
  intros Hpq. induction s as [| x s IH]; simpl; [reflexivity |].
  intros H. apply andb_true_iff in H as [Hx Hs].
  rewrite (Hpq _ Hx), (IH Hs). reflexivity.
Qed.

Lemma all_chars_take p n s :
  all_chars p s = true -> all_chars p (str_take n s) = true.
Proof.
  revert n. induction s as [| x s IH]; intros [| n] H; simpl in *; try reflexivity.
  apply andb_true_iff in H as [Hx Hs]. rewrite Hx, (IH n Hs). reflexivity.
Qed.

Lemma all_chars_drop p n s :
  all_chars p s = true -> all_chars p (str_drop n s) = true.
Proof.
  revert n. induction s as [| x s IH]; intros [| n] H; simpl in *; try reflexivity;
    try exact H.
  apply andb_true_iff in H as [Hx Hs]. exact (IH n Hs).
Qed.

Lemma hexdigit_uuid_char n : uuid_char (hexdigit n) = true.
Proof.
  unfold hexdigit. generalize (Z.to_nat n). intros k.
  do 16 (destruct k as [| k]; [reflexivity |]). reflexivity.
Qed.

Lemma hex_fixed_uuid_chars k n : all_chars uuid_char (hex_fixed k n) = true.
Proof.
  revert n. induction k as [| k IH]; intros n; simpl; [reflexivity |].
  rewrite all_chars_app, IH. simpl. rewrite hexdigit_uuid_char. reflexivity.
Qed.

Lemma uuid_str_chars i : all_chars uuid_char (uuid_str i) = true.
Proof.
  unfold uuid_str. pose proof (hex_fixed_uuid_chars 32 i) as H.
  repeat (rewrite all_chars_app; apply andb_true_iff; split);
    try reflexivity;
    repeat first [apply all_chars_take | apply all_chars_drop]; exact H.
Qed.

Lemma uuid_str_no_sep i : no_char "/" (uuid_str i) = true.
Proof.
  apply (all_chars_impl uuid_char); [| apply uuid_str_chars].
  intros c Hc.
  assert (H : forall x, implb (uuid_char x) (negb (Ascii.eqb x "/")) = true)
    by (apply forall_ascii; vm_compute; reflexivity).
  specialize (H c). rewrite Hc in H. exact H.
Qed.

Lemma no_sep_not_absolute s : no_char "/" s = true -> starts_with_sep s = false.
Proof.
  destruct s as [| c s]; [reflexivity |]. simpl.
  intros H. apply andb_true_iff in H as [H _]. apply negb_true_iff in H. exact H.
Qed.

Lemma get_file_type_ok_extension (name : string) (kind : file_type) :
  get_file_type name = Ok kind ->
  let ext := lower (snd (splitext name)) in
  ext ∈ SUPPORTED_VIDEO_TYPES ∪ SUPPORTED_AUDIO_TYPES ∪ SUPPORTED_IMAGE_TYPES
  /\ no_char "/" ext = true.
Proof.
  intros H ext. unfold get_file_type in H. fold ext in H.
  assert (Hin : In ext (VIDEO_EXTENSIONS ++ AUDIO_EXTENSIONS ++ IMAGE_EXTENSIONS)%list).
  { rewrite !in_app_iff.
    repeat case_decide; try discriminate.
    - left. apply video_set_list. assumption.
    - right. left. apply audio_set_list. assumption.
    - right. right. apply image_set_list. assumption. }
  split.
  - rewrite !in_app_iff, <- video_set_list, <- audio_set_list, <- image_set_list in Hin.
    rewrite !elem_of_union. tauto.
  - assert (Hall : forallb (no_char "/")
                     (VIDEO_EXTENSIONS ++ AUDIO_EXTENSIONS ++ IMAGE_EXTENSIONS)%list
                   = true) by reflexivity.
    eapply forallb_forall in Hall; [exact Hall | exact Hin].
Qed.

(** C6.  For an upload that passed validation, the name of the stored
    original is the random token followed by the lower-cased extension
    that validation accepted, joined under the upload root: the name
    holds no path separator, the file at that path is the only one the
    call touches, the filename enters the path through its extension
    only, and the random draw is used up. *)
Theorem stored_name_is_token_and_extension (w : World) (f : UploadFile)
    (st : state) (Hval : validate_file f = Ok tt) :
  let token := uuid_str (uuid4_int (os_urandom w (draws st))) in
  let ext := lower (snd (splitext (filename f))) in
  let root := UPLOAD_DIR w in
  let path :=
    root ++ (if String.eqb root "" || ends_with_sep root then "" else "/")
         ++ token ++ ext in
  let r := upload_file_to_storage w f st in
  ext ∈ SUPPORTED_VIDEO_TYPES ∪ SUPPORTED_AUDIO_TYPES ∪ SUPPORTED_IMAGE_TYPES
  /\ no_char "/" (token ++ ext) = true
  /\ is_Some (fs (snd r) !! path)
  /\ (forall p, p <> path -> fs (snd r) !! p = fs st !! p)
  /\ (forall p kind metadata, fst r = Ok (p, kind, metadata) -> p = path)
  /\ draws (snd r) = S (draws st).
Proof.
  intros token ext root path r.
  destruct (validate_file_ok f Hval) as [kind Hkind].
  destruct (get_file_type_ok_extension _ _ Hkind) as [Hext Hnosep].
  fold ext in Hext, Hnosep.
  assert (Hname : no_char "/" (token ++ ext) = true).
  { rewrite no_char_app, Hnosep, andb_true_r. apply uuid_str_no_sep. }
  assert (Hpath : stored_path w f st = path).
  { unfold stored_path, unique_filename, path_join. fold token ext root.
    rewrite (no_sep_not_absolute _ Hname).
    unfold path. destruct (String.eqb root "" || ends_with_sep root); reflexivity. }
  split; [exact Hext |]. split; [exact Hname |].
  unfold r. rewrite (upload_file_to_storage_spec w f st kind Hval Hkind).
  cbv zeta. rewrite Hpath.
  destruct (decide (length (file f) <= disk_free st)%nat); cbn [fst snd fs].
  - split; [rewrite lookup_insert_eq; eauto |].
    split; [intros p Hp; apply lookup_insert_ne; congruence |].
    split; [| reflexivity].
    intros p k md. destruct (extract_metadata w kind path _); simpl; congruence.
  - split; [rewrite lookup_insert_eq; eauto |].
    split; [intros p Hp; apply lookup_insert_ne; congruence |].
    split; [| reflexivity].
    intros p k md. discriminate.
Qed.

Lemma stored_name_is_token_and_extension_witness :
  let w := sample_world "30/1" "12.5" in
  let f := sample_upload "../../etc/My Clip.MP4" in
  let st := fresh_state 100 in
  let path := "./uploads/80000000-0000-4000-8000-000000003039.mp4" in
  let r := upload_file_to_storage w f st in
  ".mp4" ∈ SUPPORTED_VIDEO_TYPES ∪ SUPPORTED_AUDIO_TYPES ∪ SUPPORTED_IMAGE_TYPES
  /\ no_char "/" "80000000-0000-4000-8000-000000003039.mp4" = true
  /\ is_Some (fs (snd r) !! path)
  /\ (forall p, p <> path -> fs (snd r) !! p = fs st !! p)
  /\ (forall p kind metadata, fst r = Ok (p, kind, metadata) -> p = path)
  /\ draws (snd r) = 1%nat.
Proof.
  exact (stored_name_is_token_and_extension
           (sample_world "30/1" "12.5") (sample_upload "../../etc/My Clip.MP4")
           (fresh_state 100) eq_refl).
Defined.

(** ** A failed write *)

(** C2, as the specification states it, fails: on a disk with room for
    three of the five bytes, the call ends with the [OSError] of the
    write and the file with the three bytes is still there. *)
Lemma write_failure_counterexample :
  let st := fresh_state 3 in
  let r := upload_file_to_storage (sample_world "30/1" "12.5")
             (sample_upload "clip.mp4") st in
  fst r = Raise (OSError ENOSPC)
  /\ fs st !! "./uploads/80000000-0000-4000-8000-000000003039.mp4" = None
  /\ fs (snd r) !! "./uploads/80000000-0000-4000-8000-000000003039.mp4"
     = Some (RawBytes (list_ascii_of_string "abc")).
Proof. vm_compute. repeat split. Qed.

(** C2, amended.  When the disk fills during the copy of the original
    asset, the [OSError] of the failed write leaves
    [upload_file_to_storage] and the pipeline as it is, and the file
    stays under the upload root with the bytes written so far; nothing
    removes it. *)
Theorem write_failure_keeps_partial_file (w : World) (f : UploadFile)
    (st : state) (Hval : validate_file f = Ok tt)
    (Hfull : (disk_free st < length (file f))%nat) :
  let st' := {| fs := <[stored_path w f st :=
                         RawBytes (take (disk_free st) (file f))]> (fs st);
                disk_free := O; draws := S (draws st) |} in
  upload_file_to_storage w f st = (Raise (OSError ENOSPC), st')
  /\ ingestion_pipeline w f st = (Raise (OSError ENOSPC), st')
  /\ fs st' !! stored_path w f st
     = Some (RawBytes (take (disk_free st) (file f))).
Proof.
  intros st'. destruct (validate_file_ok f Hval) as [kind Hkind].
  assert (H : upload_file_to_storage w f st = (Raise (OSError ENOSPC), st')).
  { rewrite (upload_file_to_storage_spec w f st kind Hval Hkind). cbv zeta.
    rewrite decide_False by lia. reflexivity. }
  split; [exact H |]. split.
  - unfold ingestion_pipeline, mbind, io_bind. rewrite H. reflexivity.
  - unfold st'. cbn [fs]. apply lookup_insert_eq.
Qed.

Lemma write_failure_keeps_partial_file_witness :
  let w := sample_world "30/1" "12.5" in
  let f := sample_upload "clip.mp4" in
  let st := fresh_state 3 in
  let st' := {| fs := <[stored_path w f st :=
                         RawBytes (take (disk_free st) (file f))]> (fs st);
                disk_free := O; draws := S (draws st) |} in
  upload_file_to_storage w f st = (Raise (OSError ENOSPC), st')
  /\ ingestion_pipeline w f st = (Raise (OSError ENOSPC), st')
  /\ fs st' !! stored_path w f st
     = Some (RawBytes (take (disk_free st) (file f))).
Proof.
  apply (write_failure_keeps_partial_file
           (sample_world "30/1" "12.5") (sample_upload "clip.mp4") (fresh_state 3)).
  - reflexivity.
  - simpl. lia.
Defined.

(** ** Files that cannot be decoded *)

Lemma try_except_raises {A : Type} (body : result A) (a : A) :
  raises_Exception body -> try_except body (fun _ => Ok a) = Ok a.
Proof. intros (e & -> & He). unfold try_except. rewrite He. reflexivity. Qed.

Lemma extract_metadata_undecodable (w : World) (kind : file_type)
    (path : string) (st : state) (data : file_data) :
  fs st !! path = Some data ->
  undecodable w data ->
  extract_metadata w kind path st = Ok [].
Proof.
  intros Hfile Hbad. destruct (Hbad path) as ((e1 & H1 & He1) & _ & (e3 & H3 & He3)).
  destruct kind; simpl.
  - unfold extract_video_metadata. apply try_except_raises.
    exists e1. unfold ffmpeg_probe. rewrite Hfile, H1. split; [reflexivity | exact He1].
  - unfold extract_audio_metadata. apply try_except_raises.
    exists e1. unfold ffmpeg_probe. rewrite Hfile, H1. split; [reflexivity | exact He1].
  - unfold extract_image_metadata. apply try_except_raises.
    exists e3. unfold Image_open. rewrite Hfile, H3. split; [reflexivity | exact He3].
Qed.

Lemma generate_thumbnail_undecodable (w : World) (kind : file_type)
    (path : string) (st : state) (data : file_data) :
  fs st !! path = Some data ->
  undecodable w data ->
  generate_thumbnail w path kind st
  = (Ok None,
     {| fs := fs st; disk_free := disk_free st; draws := S (draws st) |}).
Proof.
  intros Hfile Hbad. destruct (Hbad path) as (_ & (e2 & H2 & He2) & (e3 & H3 & He3)).
  unfold generate_thumbnail, try_except_io.
  unfold mbind at 1. unfold io_bind at 1. unfold uuid4 at 1.
  destruct kind.
  - unfold mbind, io_bind, ffmpeg_frame. cbn [fs]. rewrite Hfile, H2, He2. reflexivity.
  - reflexivity.
  - unfold mbind at 1. unfold io_bind at 1. unfold read, Image_open.
    cbn [fs]. rewrite Hfile, H3, He3. reflexivity.
Qed.

(** C3.  An upload that passes validation and is stored, but whose
    bytes no tool can probe or decode, still yields a successful result:
    the stored path, the kind, an empty metadata object and no
    thumbnail.  Neither failure is raised past the pipeline. *)
Theorem undecodable_upload_succeeds (w : World) (f : UploadFile) (st : state)
    (Hval : validate_file f = Ok tt)
    (Hroom : (length (file f) <= disk_free st)%nat)
    (Hbad : undecodable w (RawBytes (file f))) :
  exists kind,
    get_file_type (filename f) = Ok kind
    /\ ingestion_pipeline w f st
       = (Ok (stored_path w f st, kind, [], None),
          {| fs := <[stored_path w f st := RawBytes (file f)]> (fs st);
             disk_free := (disk_free st - length (file f))%nat;
             draws := S (S (draws st)) |}).
Proof.
  destruct (validate_file_ok f Hval) as [kind Hkind].
  exists kind. split; [exact Hkind |].
  unfold ingestion_pipeline. unfold mbind at 1. unfold io_bind at 1.
  rewrite (upload_file_to_storage_spec w f st kind Hval Hkind). cbv zeta.
  rewrite decide_True by exact Hroom.
  rewrite (extract_metadata_undecodable w kind _ _ (RawBytes (file f)))
    by (first [apply lookup_insert_eq | exact Hbad]).
  cbn [mbind result_bind]. unfold mbind at 1. unfold io_bind at 1.
  rewrite (generate_thumbnail_undecodable w kind _ _ (RawBytes (file f)))
    by (first [apply lookup_insert_eq | exact Hbad]).
  reflexivity.
Qed.

Lemma undecodable_upload_succeeds_witness :
  exists kind,
    get_file_type "garbage.mp4" = Ok kind
    /\ ingestion_pipeline failing_world (sample_upload "garbage.mp4") (fresh_state 100)
       = (Ok (stored_path failing_world (sample_upload "garbage.mp4") (fresh_state 100),
              kind, [], None),
          {| fs := <[stored_path failing_world (sample_upload "garbage.mp4")
                       (fresh_state 100) := RawBytes (list_ascii_of_string "abcde")]> ∅;
             disk_free := 95; draws := 2 |}).
Proof.
  apply (undecodable_upload_succeeds failing_world (sample_upload "garbage.mp4")
           (fresh_state 100)).
  - reflexivity.
  - simpl. lia.
  - intros path. repeat split; eexists; split; reflexivity.
Defined.

(** ** Parsing the numeric fields *)

(** [int] and [float] raise [TypeError], [ValueError] or
    [OverflowError] only. *)
Lemma py_int_raises (x : pyval) (e : exn) :
  py_int x = Raise e -> is_Exception e = true.
Proof.
  destruct x as [| b | z | f | s | l | d]; simpl; try (intros [= <-]; reflexivity);
    try discriminate.
  - destruct f; simpl; try (intros [= <-]; reflexivity).
    destruct (fraction false m e0); discriminate.
  - unfold int_of_str. destruct (split_sign (strip s)) as [neg body].
    destruct (digitpart body false 0 0) as [[v n] |]; [| intros [= <-]; reflexivity].
    destruct (4300 <? n); [intros [= <-]; reflexivity | discriminate].
Qed.

Lemma float_of_str_raises (s : string) (e : exn) :
  float_of_str s = Raise e -> e = ValueError.
Proof.
  unfold float_of_str. repeat case_match; try discriminate; intros [= <-]; reflexivity.
Qed.

Lemma py_float_raises (x : pyval) (e : exn) :
  py_float x = Raise e -> is_Exception e = true.
Proof.
  destruct x as [| b | z | f | s | l | d]; simpl; try (intros [= <-]; reflexivity);
    try discriminate.
  - unfold float_of_int, finite_or_overflow. case_match; try discriminate.
    intros [= <-]. reflexivity.
  - intros H. apply float_of_str_raises in H. subst e. reflexivity.
Qed.

Lemma py_get_raises (x : pyval) (k : string) (dflt : pyval) (e : exn) :
  py_get x k dflt = Raise e -> is_Exception e = true.
Proof. destruct x; simpl; try discriminate; intros [= <-]; reflexivity. Qed.

Lemma py_getitem_raises (x : pyval) (k : string) (e : exn) :
  py_getitem x k = Raise e -> is_Exception e = true.
Proof.
  destruct x; simpl; try (intros [= <-]; reflexivity).
  case_match; [discriminate | intros [= <-]; reflexivity].
Qed.

Lemma int_field_raises (stream : pyval) (k : string) (e : exn) :
  int_field stream k = Raise e -> is_Exception e = true.
Proof.
  unfold int_field. destruct (py_get stream k (PyInt 0)) as [v | e'] eqn:E;
    cbn [mbind result_bind].
  - apply py_int_raises.
  - intros [= <-]. exact (py_get_raises _ _ _ _ E).
Qed.

Lemma duration_field_raises (probe : pyval) (e : exn) :
  duration_field probe = Raise e -> is_Exception e = true.
Proof.
  unfold duration_field. destruct (py_getitem probe "format") as [fmt | e'] eqn:E;
    cbn [mbind result_bind].
  - destruct (py_get fmt "duration" (PyInt 0)) as [v | e''] eqn:E';
      cbn [mbind result_bind].
    + apply py_float_raises.
    + intros [= <-]. exact (py_get_raises _ _ _ _ E').
  - intros [= <-]. exact (py_getitem_raises _ _ _ E).
Qed.

(** C4, as the specification states it, fails: the container reports
    the duration [N/A], the width and the height parse, and the
    extractor returns no field at all. *)
Lemma field_failure_counterexample :
  let probe := sample_probe "30/1" "N/A" in
  let stream := sample_video_stream "30/1" in
  first_stream "video" [sample_audio_stream; stream] = Ok stream
  /\ int_field stream "width" = Ok 1920
  /\ int_field stream "height" = Ok 1080
  /\ duration_field probe = Raise ValueError
  /\ extract_video_metadata (sample_world "30/1" "N/A") "clip.mp4" stored_state
     = Ok []
  /\ dict_lookup "width" [] = None.
Proof. vm_compute. repeat split. Qed.

(** C4, amended.  For a video or audio probe result, a numeric field
    (width, height, duration, sample rate, channel count) that fails to
    parse is not fatal to the ingestion, but it is fatal to the other
    fields: the extractor returns the empty metadata object. *)
Theorem field_failure_empties_metadata (w : World) (path : string)
    (st : state) (probe : pyval) (streams : list pyval) (stream : pyval)
    (e : exn)
    (Hprobe : ffmpeg_probe w path st = Ok probe)
    (Hstreams : probe_streams probe = Ok streams) :
  (first_stream "video" streams = Ok stream ->
   int_field stream "width" = Raise e \/ int_field stream "height" = Raise e
   \/ duration_field probe = Raise e ->
   extract_video_metadata w path st = Ok [])
  /\ (first_stream "audio" streams = Ok stream ->
      duration_field probe = Raise e \/ int_field stream "sample_rate" = Raise e
      \/ int_field stream "channels" = Raise e ->
      extract_audio_metadata w path st = Ok []).
Proof.
  unfold probe_streams in Hstreams. split; intros Hfirst Hfail.
  - unfold extract_video_metadata. rewrite Hprobe. cbn [mbind result_bind].
    rewrite Hstreams. cbn [mbind result_bind]. rewrite Hfirst. cbn [mbind result_bind].
    destruct (py_truth stream); [| reflexivity].
    fold (int_field stream "width"). fold (int_field stream "height").
    destruct (int_field stream "width") as [wv | e1] eqn:Ew; cbn [mbind result_bind];
      [| caught (int_field_raises _ _ _ Ew)].
    destruct (int_field stream "height") as [hv | e2] eqn:Eh; cbn [mbind result_bind];
      [| caught (int_field_raises _ _ _ Eh)].
    assert (Hd : duration_field probe = Raise e) by (destruct Hfail as [? | [? | ?]]; congruence).
    unfold duration_field in Hd.
    destruct (py_getitem probe "format") as [fmt | e3] eqn:Ef; cbn [mbind result_bind] in *.
    + rewrite Hd. cbn [mbind result_bind]. unfold try_except.
      rewrite (duration_field_raises probe e); [reflexivity |].
      unfold duration_field. rewrite Ef. exact Hd.
    + caught (py_getitem_raises _ _ _ Ef).
  - unfold extract_audio_metadata. rewrite Hprobe. cbn [mbind result_bind].
    rewrite Hstreams. cbn [mbind result_bind]. rewrite Hfirst. cbn [mbind result_bind].
    destruct (py_truth stream); [| reflexivity].
    fold (int_field stream "sample_rate"). fold (int_field stream "channels").
    destruct (py_getitem probe "format") as [fmt | e3] eqn:Ef; cbn [mbind result_bind];
      [| caught (py_getitem_raises _ _ _ Ef)].
    destruct (mbind py_float (py_get fmt "duration" (PyInt 0))) as [dv | e4] eqn:Ed;
      cbn [mbind result_bind].
    2:{ unfold try_except. rewrite (duration_field_raises probe e4); [reflexivity |].
        unfold duration_field. rewrite Ef. exact Ed. }
    destruct (py_get stream "codec_name" (PyStr "unknown")) as [cv | e5] eqn:Ec;
      cbn [mbind result_bind];
      [| caught (py_get_raises _ _ _ _ Ec)].
    destruct (int_field stream "sample_rate") as [sv | e6] eqn:Es; cbn [mbind result_bind];
      [| caught (int_field_raises _ _ _ Es)].
    destruct (int_field stream "channels") as [chv | e7] eqn:Ech; cbn [mbind result_bind];
      [| caught (int_field_raises _ _ _ Ech)].
    exfalso. destruct Hfail as [Hf | [Hf | Hf]]; try congruence.
    unfold duration_field in Hf. rewrite Ef in Hf. cbn [mbind result_bind] in Hf.
    congruence.
Qed.

Lemma field_failure_empties_metadata_witness :
  let w := sample_world "30/1" "N/A" in
  extract_video_metadata w "clip.mp4" stored_state = Ok []
  /\ extract_audio_metadata w "clip.mp4" stored_state = Ok [].
Proof.
  split.
  - apply (proj1 (field_failure_empties_metadata
                    (sample_world "30/1" "N/A") "clip.mp4" stored_state
                    (sample_probe "30/1" "N/A")
                    [sample_audio_stream; sample_video_stream "30/1"]
                    (sample_video_stream "30/1") ValueError eq_refl eq_refl)).
    + reflexivity.
    + right. right. reflexivity.
  - apply (proj2 (field_failure_empties_metadata
                    (sample_world "30/1" "N/A") "clip.mp4" stored_state
                    (sample_probe "30/1" "N/A")
                    [sample_audio_stream; sample_video_stream "30/1"]
                    sample_audio_stream ValueError eq_refl eq_refl)).
    + reflexivity.
    + left. reflexivity.
Defined.

(** ** Rounding to binary64 *)

Lemma round64_finite (neg : bool) (num den : Z) :
  0 <= num < 2 ^ 1000 -> 0 < den ->
  exists m e, round64 neg num den = Finite neg m e.
Proof.
  intros Hn Hd. unfold round64. destruct (num =? 0) eqn:E0; [eauto |].
  apply Z.eqb_neq in E0.
  assert (Hlog : Z.log2 num < 1000) by (apply Z.log2_lt_pow2; lia).
  pose proof (Z.log2_nonneg den) as Hlogd.
  set (e0 := Z.log2 num - Z.log2 den - 52) in *.
  destruct (scale2 num den e0) as [n0 d0].
  set (e1 := if 2 ^ 52 * d0 <=? n0 then e0 else e0 - 1).
  assert (He1 : e1 <= e0) by (unfold e1; destruct (2 ^ 52 * d0 <=? n0); lia).
  destruct (scale2 num den (Z.max e1 (-1074))) as [n d].
  destruct (round_half_even n d =? 2 ^ 53);
    match goal with
    | |- context [971 <? ?x] =>
        destruct (Z.ltb_spec 971 x); [lia | eauto]
    end.
Qed.

(** ** The frame rate *)

Lemma digitpart_digits (s : string) :
  forall (after_digit : bool) (acc k : Z),
  all_chars is_digit s = true ->
  s <> "" \/ after_digit = true ->
  0 <= acc ->
  exists v, digitpart s after_digit acc k = Some (v, k + Z.of_nat (String.length s))
            /\ acc * 10 ^ Z.of_nat (String.length s) <= v
               < (acc + 1) * 10 ^ Z.of_nat (String.length s).
Proof.
  induction s as [| c s IH]; intros ad acc k Hall Hne Hacc.
  - destruct Hne as [Hne | ->]; [congruence |]. exists acc. simpl. split; [f_equal; f_equal; lia | lia].
  - simpl in Hall. apply andb_true_iff in Hall as [Hc Hs].
    cbn [digitpart]. rewrite Hc.
    assert (Hdv : 0 <= digit_val c <= 9).
    { unfold is_digit in Hc. apply andb_true_iff in Hc as [H1 H2].
      apply N.leb_le in H1, H2. unfold digit_val. lia. }
    destruct (IH true (10 * acc + digit_val c) (k + 1) Hs (or_intror eq_refl) ltac:(lia))
      as (v & Hv & Hb).
    exists v. split.
    + rewrite Hv. f_equal. f_equal. simpl String.length. lia.
    + simpl String.length. rewrite Nat2Z.inj_succ, Z.pow_succ_r by lia.
      assert (0 < 10 ^ Z.of_nat (String.length s)) by (apply Z.pow_pos_nonneg; lia).
      nia.
Qed.

Lemma decinteger_bound (s : string) (n : Z) :
  decinteger s = Some (Ok n) -> 0 <= n < 10 ^ 300 /\ all_chars is_digit s = true.
Proof.
  unfold decinteger.
  destruct (all_chars is_digit s) eqn:Hall; [| discriminate].
  destruct (String.eqb s "") eqn:Hne; [discriminate |].
  destruct (Z.leb_spec (Z.of_nat (String.length s)) 300) as [Hlen |]; [| discriminate].
  cbn [andb negb]. apply String.eqb_neq in Hne.
  destruct (digitpart_digits s false 0 0 Hall (or_introl Hne) ltac:(lia)) as (v & -> & Hv).
  assert (10 ^ Z.of_nat (String.length s) <= 10 ^ 300) by (apply Z.pow_le_mono_r; lia).
  destruct (all_chars (fun c => Ascii.eqb c "0") s);
    [intros [= <-]; split; [lia | reflexivity] |].
  destruct s as [| c s']; [discriminate |].
  destruct (Ascii.eqb c "0"); [discriminate |].
  intros [= <-]. split; [lia | reflexivity].
Qed.

Lemma split_first_sep (a b : string) :
  all_chars is_digit a = true ->
  split_first (fun c => Ascii.eqb c "/") (a ++ "/" ++ b) = (a, Some b).
Proof.
  induction a as [| c a IH]; intros H; simpl in *; [reflexivity |].
  apply andb_true_iff in H as [Hc Ha]. rewrite (IH Ha).
  assert (Hsep : forall x, implb (is_digit x) (negb (Ascii.eqb x "/")) = true)
    by (apply forall_ascii; vm_compute; reflexivity).
  specialize (Hsep c). rewrite Hc in Hsep. apply negb_true_iff in Hsep.
  rewrite Hsep. reflexivity.
Qed.

(** [eval] of a quotient of two decimal literals: the float nearest to
    the quotient, or [ZeroDivisionError]. *)
Lemma eval_str_ratio (other : string -> result pyval) (a b : string) (n d : Z) :
  decinteger a = Some (Ok n) ->
  decinteger b = Some (Ok d) ->
  eval_str other (a ++ "/" ++ b)
  = if d =? 0 then Raise ZeroDivisionError
    else Ok (PyFloat (round64 false n d)).
Proof.
  intros Ha Hb.
  destruct (decinteger_bound a n Ha) as [Hn Hda].
  destruct (decinteger_bound b d Hb) as [Hd _].
  unfold eval_str. rewrite (split_first_sep a b Hda), Ha, Hb.
  cbn [mbind result_bind]. unfold int_truediv.
  destruct (Z.eqb_spec d 0) as [-> | Hd0]; [reflexivity |].
  replace (n <? 0) with false by (symmetry; apply Z.ltb_ge; lia).
  replace (d <? 0) with false by (symmetry; apply Z.ltb_ge; lia).
  rewrite !Z.abs_eq by lia. cbn [xorb].
  assert (Hpow : 10 ^ 300 < 2 ^ 1000) by reflexivity.
  destruct (round64_finite false n d ltac:(lia) ltac:(lia)) as (m & e & ->).
  reflexivity.
Qed.

Lemma first_stream_found (kind : string) (streams : list pyval) (stream : pyval) :
  first_stream kind streams = Ok stream ->
  stream = PyNone \/ py_truth stream = true.
Proof.
  induction streams as [| s t IH]; simpl.
  - intros [= <-]. left. reflexivity.
  - destruct (py_getitem s "codec_type") as [c | e] eqn:Ec; cbn [mbind result_bind];
      [| discriminate].
    destruct (py_eq_str c kind); [| exact IH].
    intros [= <-]. right. destruct s; try discriminate.
    destruct d; [discriminate | reflexivity].
Qed.

(** With the numeric fields parsed, the result of the extractor is
    decided by [eval] of the frame-rate field. *)
Lemma extract_video_metadata_fps (w : World) (path : string) (st : state)
    (probe : pyval) (streams : list pyval) (d : dict)
    (width height : Z) (duration : float) :
  ffmpeg_probe w path st = Ok probe ->
  probe_streams probe = Ok streams ->
  first_stream "video" streams = Ok (PyDict d) ->
  int_field (PyDict d) "width" = Ok width ->
  int_field (PyDict d) "height" = Ok height ->
  duration_field probe = Ok duration ->
  extract_video_metadata w path st
  = try_except
      (fps ← py_eval (eval_other w)
               (default (PyStr "30/1") (dict_lookup "r_frame_rate" d));
       Ok (video_metadata width height duration fps
             (default (PyStr "unknown") (dict_lookup "codec_name" d))))
      (fun _ => Ok []).
Proof.
  intros Hprobe Hstreams Hfirst Hw Hh Hd.
  unfold extract_video_metadata. unfold probe_streams in Hstreams.
  rewrite Hprobe. cbn [mbind result_bind]. rewrite Hstreams. cbn [mbind result_bind].
  rewrite Hfirst. cbn [mbind result_bind].
  destruct (first_stream_found _ _ _ Hfirst) as [? | ->]; [discriminate |].
  fold (int_field (PyDict d) "width"). fold (int_field (PyDict d) "height").
  rewrite Hw, Hh. cbn [mbind result_bind].
  unfold duration_field in Hd.
  destruct (py_getitem probe "format") as [fmt | e]; [| discriminate].
  cbn [mbind result_bind] in *. rewrite Hd. cbn [mbind result_bind py_get].
  destruct (py_eval (eval_other w) _); reflexivity.
Qed.

(** C1, as the specification states it, fails: the frame-rate string
    [25] is not of the form [<int>/<int>], and the extractor does not
    put the default rate in its place: the string is evaluated, and the
    rate is the integer 25. *)
Lemma frame_rate_counterexample :
  strict_ratio "25" = None
  /\ extract_video_metadata (sample_world "25" "12.5") "clip.mp4" stored_state
     = Ok (video_metadata 1920 1080 (Finite false 7036874417766400 (-49))
             (PyInt 25) (PyStr "h264"))
  /\ PyInt 25 <> DEFAULT_RATE.
Proof. split; [reflexivity |]. split; [vm_compute; reflexivity | discriminate]. Qed.

(** C1, amended.  Once the width, the height and the duration of a
    video probe result have parsed, the frame-rate field is handed to
    [eval] as it is.  An absent field stands for ['30/1'] and gives
    30.0; a string gives whatever [eval] computes for it, and empty
    metadata -- no default rate -- when [eval] raises an exception of
    class [Exception]; a field that is not a string gives empty
    metadata.  In particular a quotient of two decimal literals gives
    the float nearest to numerator/denominator, and empty metadata when
    the denominator is zero. *)
Theorem frame_rate_is_evaluated (w : World) (path : string) (st : state)
    (probe : pyval) (streams : list pyval) (d : dict)
    (width height : Z) (duration : float)
    (Hprobe : ffmpeg_probe w path st = Ok probe)
    (Hstreams : probe_streams probe = Ok streams)
    (Hfirst : first_stream "video" streams = Ok (PyDict d))
    (Hwidth : int_field (PyDict d) "width" = Ok width)
    (Hheight : int_field (PyDict d) "height" = Ok height)
    (Hduration : duration_field probe = Ok duration) :
  let metadata fps :=
    video_metadata width height duration fps
      (default (PyStr "unknown") (dict_lookup "codec_name" d)) in
  extract_video_metadata w path st
  = match dict_lookup "r_frame_rate" d with
    | None => Ok (metadata DEFAULT_RATE)
    | Some (PyStr s) =>
        match eval_str (eval_other w) s with
        | Ok fps => Ok (metadata fps)
        | Raise e => if is_Exception e then Ok [] else Raise e
        end
    | Some _ => Ok []
    end
  /\ forall (a b : string) (n den : Z),
       decinteger a = Some (Ok n) ->
       decinteger b = Some (Ok den) ->
       eval_str (eval_other w) (a ++ "/" ++ b)
       = if den =? 0 then Raise ZeroDivisionError
         else Ok (PyFloat (round64 false n den)).
Proof.
  intros metadata. split; [| intros a b n den; apply eval_str_ratio].
  rewrite (extract_video_metadata_fps w path st probe streams d width height
             duration Hprobe Hstreams Hfirst Hwidth Hheight Hduration).
  fold metadata.
  destruct (dict_lookup "r_frame_rate" d) as [[| b | z | f | s | l | d'] |];
    try reflexivity.
  cbn [default from_option id py_eval]. unfold try_except.
  destruct (eval_str (eval_other w) s); reflexivity.
Qed.

Lemma frame_rate_is_evaluated_witness :
  extract_video_metadata (sample_world "30000/1001" "12.5") "clip.mp4" stored_state
  = Ok (video_metadata 1920 1080 (Finite false 7036874417766400 (-49))
          (PyFloat (Finite false 8435813487831848 (-48))) (PyStr "h264"))
  /\ eval_str (fun _ => Raise SyntaxError) "30000/1001"
     = Ok (PyFloat (round64 false 30000 1001)).
Proof.
  pose proof (frame_rate_is_evaluated
                (sample_world "30000/1001" "12.5") "clip.mp4" stored_state
                (sample_probe "30000/1001" "12.5")
                [sample_audio_stream; sample_video_stream "30000/1001"]
                [("codec_type", PyStr "video"); ("codec_name", PyStr "h264");
                 ("width", PyInt 1920); ("height", PyInt 1080);
                 ("r_frame_rate", PyStr "30000/1001")]
                1920 1080 (Finite false 7036874417766400 (-49))
                eq_refl eq_refl eq_refl eq_refl eq_refl eq_refl) as [H1 H2].
  split.
  - exact H1.
  - exact (H2 "30000" "1001" 30000 1001 eq_refl eq_refl).
Defined.

(** ** Rounding error *)

Lemma round_half_even_error (n d : Z) :
  0 < d -> 2 * Z.abs (round_half_even n d * d - n) <= d.
Proof.
  intros Hd. unfold round_half_even.
  pose proof (Z.div_mod n d ltac:(lia)) as Hdm.
  pose proof (Z.mod_pos_bound n d Hd) as Hr.
  destruct (Z.compare_spec (2 * (n `mod` d)) d) as [He | Hl | Hg].
  - destruct (Z.even (n `div` d)); nia.
  - nia.
  - nia.
Qed.

(** The rounding of a quotient [num / den] between [2^-1000] and
    [2^50]: a normal number [m / 2^k] within half a unit in the last
    place of the quotient. *)
Lemma round64_small (neg : bool) (num den : Z) :
  0 < num -> 0 < den -> num < 2 ^ 50 * den -> den <= 2 ^ 1000 * num ->
  exists m k,
    round64 neg num den = Finite neg m (- k)
    /\ 0 < k
    /\ 2 ^ 52 <= m < 2 ^ 53
    /\ 2 * Z.abs (m * den - num * 2 ^ k) <= den.
Proof.
  intros Hn Hd Hup Hlow. unfold round64.
  destruct (Z.eqb_spec num 0) as [| _]; [lia |].
  pose proof (Z.log2_spec num Hn) as Ha. pose proof (Z.log2_spec den Hd) as Hb.
  pose proof (Z.log2_nonneg num) as Ha0. pose proof (Z.log2_nonneg den) as Hb0.
  set (a := Z.log2 num) in *. set (b := Z.log2 den) in *.
  rewrite Z.pow_succ_r in Ha, Hb by lia.
  assert (Hab1 : a - b <= 50).
  { assert (2 ^ a < 2 ^ (b + 51)).
    { rewrite Z.pow_add_r by lia. change (2 ^ 51) with (2 * 2 ^ 50). nia. }
    assert (a < b + 51) by (apply (Z.pow_lt_mono_r_iff 2); lia). lia. }
  assert (Hab2 : -1000 <= a - b).
  { assert (2 ^ b < 2 ^ (a + 1001)).
    { rewrite Z.pow_add_r by lia. change (2 ^ 1001) with (2 * 2 ^ 1000). nia. }
    assert (b < a + 1001) by (apply (Z.pow_lt_mono_r_iff 2); lia). lia. }
  set (e0 := a - b - 52).
  set (j := - e0 - 2).
  assert (Hj : 0 <= j) by (unfold j, e0; lia).
  assert (He0 : - e0 = j + 2) by (unfold j; lia).
  set (X := 2 ^ j).
  assert (HX : 0 < X) by (apply Z.pow_pos_nonneg; lia).
  assert (HX0 : 2 ^ (- e0) = 4 * X).
  { rewrite He0, Z.pow_add_r by lia. fold X. lia. }
  assert (HX1 : 2 ^ (- (e0 - 1)) = 8 * X).
  { replace (- (e0 - 1)) with (j + 3) by lia. rewrite Z.pow_add_r by lia. fold X. lia. }
  assert (HX2 : 2 ^ (- (e0 + 1)) = 2 * X).
  { replace (- (e0 + 1)) with (j + 1) by lia. rewrite Z.pow_add_r by lia. fold X. lia. }
  assert (HX3 : 2 ^ (- (e0 - 1 + 1)) = 4 * X).
  { replace (e0 - 1 + 1) with e0 by lia. exact HX0. }
  (* 2^a * 2^(-e0) = 2^52 * 2^b *)
  assert (HI : 2 ^ a * (4 * X) = 2 ^ 52 * 2 ^ b).
  { rewrite <- HX0, <- !Z.pow_add_r by lia. f_equal. unfold e0. lia. }
  set (A := 2 ^ a) in *. set (B := 2 ^ b) in *.
  unfold scale2 at 1.
  destruct (Z.leb_spec 0 e0) as [| _]; [lia |].
  rewrite HX0.
  set (e1 := if 2 ^ 52 * den <=? num * (4 * X) then e0 else e0 - 1).
  assert (He1 : (e1 = e0 /\ 2 ^ 52 * den <= num * (4 * X))
                \/ (e1 = e0 - 1 /\ num * (4 * X) < 2 ^ 52 * den)).
  { unfold e1. destruct (Z.leb_spec (2 ^ 52 * den) (num * (4 * X))); [left | right]; lia. }
  clearbody e1.
  rewrite Z.max_l by lia.
  unfold scale2. destruct (Z.leb_spec 0 e1) as [| _]; [lia |].
  assert (Hscaled : exists Y, 2 ^ (- e1) = Y /\ 2 ^ (- (e1 + 1)) * 2 = Y
                              /\ 2 ^ 52 * den <= num * Y < 2 ^ 53 * den).
  { destruct He1 as [[-> Ht] | [-> Ht]].
    - exists (4 * X). rewrite HX0, HX2. split; [reflexivity |]. split; [lia |]. nia.
    - exists (8 * X). rewrite HX1, HX3. split; [reflexivity |]. split; [lia |]. nia. }
  destruct Hscaled as (Y & HY & HY' & Hrange). rewrite HY.
  pose proof (round_half_even_error (num * Y) den Hd) as Herr.
  set (m0 := round_half_even (num * Y) den) in *.
  assert (Hm0 : 2 ^ 52 <= m0 <= 2 ^ 53) by nia.
  destruct (Z.eqb_spec m0 (2 ^ 53)) as [Hm | Hm].
  - destruct (Z.ltb_spec 971 (e1 + 1)) as [| _]; [lia |].
    exists (2 ^ 52), (- (e1 + 1)). rewrite Z.opp_involutive.
    split; [reflexivity |]. split; [lia |]. split; [lia |].
    set (Y2 := 2 ^ (- (e1 + 1))) in *. rewrite Hm in Herr. nia.
  - destruct (Z.ltb_spec 971 e1) as [| _]; [lia |].
    exists m0, (- e1). rewrite Z.opp_involutive.
    split; [reflexivity |]. split; [lia |]. split; [lia |].
    rewrite HY. exact Herr.
Qed.

(** ** The size of an image thumbnail *)

Lemma fraction_small (m k : Z) : 0 < k -> fraction false m (- k) = (m, 2 ^ k).
Proof.
  intros Hk. unfold fraction. destruct (Z.leb_spec 0 (- k)); [lia |].
  rewrite Z.opp_involutive. reflexivity.
Qed.

Lemma int_truediv_finite (a b : Z) :
  0 <= a < 2 ^ 1000 -> 0 < b -> exists f, int_truediv a b = Ok f.
Proof.
  intros Ha Hb. unfold int_truediv.
  destruct (Z.eqb_spec b 0); [lia |].
  rewrite !Z.abs_eq by lia.
  destruct (round64_finite (xorb (a <? 0) (b <? 0)) a b Ha Hb) as (m & e & ->).
  eexists. reflexivity.
Qed.

Lemma int_truediv_small (a b : Z) :
  0 < a -> 0 < b -> a < 2 ^ 50 * b -> b <= 2 ^ 1000 * a ->
  exists m k,
    int_truediv a b = Ok (Finite false m (- k))
    /\ 0 < k /\ 2 ^ 52 <= m < 2 ^ 53
    /\ 2 * Z.abs (m * b - a * 2 ^ k) <= b.
Proof.
  intros Ha Hb Hup Hlow. unfold int_truediv.
  destruct (Z.eqb_spec b 0); [lia |].
  replace (a <? 0) with false by (symmetry; apply Z.ltb_ge; lia).
  replace (b <? 0) with false by (symmetry; apply Z.ltb_ge; lia).
  rewrite !Z.abs_eq by lia. cbn [xorb].
  destruct (round64_small false a b Ha Hb Hup Hlow) as (m & k & -> & H).
  exists m, k. split; [reflexivity | exact H].
Qed.

(** [round_aspect] of a number between [K] and [K + 1]: one of the
    two, and 1 at least. *)
Lemma round_aspect_between (m k K : Z) (key : Z -> result float) :
  0 < k -> 0 <= K ->
  K * 2 ^ k <= m <= (K + 1) * 2 ^ k ->
  (forall n, K <= n <= K + 1 -> exists f, key n = Ok f) ->
  exists x, round_aspect (Finite false m (- k)) key = Ok (Z.max x 1)
            /\ K <= x <= K + 1.
Proof.
  intros Hk HK Hm Hkey. unfold round_aspect, float_floor, float_ceil.
  rewrite (fraction_small m k Hk). cbn [mbind result_bind].
  assert (HE : 0 < 2 ^ k) by (apply Z.pow_pos_nonneg; lia).
  set (E := 2 ^ k) in *.
  assert (Hlo : K <= m `div` E <= K + 1).
  { split; [apply Z.div_le_lower_bound; lia | apply Z.div_le_upper_bound; lia]. }
  assert (Hhi : K <= - ((- m) `div` E) <= K + 1).
  { assert (- (K + 1) <= (- m) `div` E) by (apply Z.div_le_lower_bound; lia).
    assert ((- m) `div` E <= - K) by (apply Z.div_le_upper_bound; lia). lia. }
  destruct (Hkey _ Hlo) as (flo & ->). destruct (Hkey _ Hhi) as (fhi & ->).
  cbn [mbind result_bind].
  destruct (float_lt fhi flo); eexists; (split; [reflexivity | assumption]).
Qed.

Lemma box_ratio :
  int_truediv 320 240 = Ok (Finite false 6004799503160661 (-52)).
Proof. reflexivity. Qed.

Lemma float_240 : float_of_int 240 = Ok (Finite false 8444249301319680 (-45)).
Proof. reflexivity. Qed.

Lemma float_320 : float_of_int 320 = Ok (Finite false 5629499534213120 (-44)).
Proof. reflexivity. Qed.
Lemma round_between (num den m E K : Z) :
  0 < den -> 0 < E ->
  2 * Z.abs (m * den - num * E) <= den ->
  K * den <= num <= (K + 1) * den ->
  K * E <= m <= (K + 1) * E.
Proof.
  intros Hd HE Herr [Hlo Hhi].
  assert (H1 : K * den * E <= num * E) by nia.
  assert (H2 : num * E <= (K + 1) * den * E) by nia.
  split.
  - assert (0 <= 2 * ((m - K * E) * den) + den) by nia. nia.
  - assert (2 * ((m - (K + 1) * E) * den) - den <= 0) by nia. nia.
Qed.

Lemma aspect_error_width (w h ma Ea x : Z) :
  1 <= w -> 1 <= h -> 121 * h < Ea ->
  2 * Z.abs (ma * h - w * Ea) <= h ->
  Z.abs (x * Ea - 240 * ma) <= Ea ->
  0 <= x ->
  Z.abs (Z.max x 1 * h - 240 * w) <= h.
Proof.
  intros Hw Hh Hbig Ha Hx Hx0.
  destruct (Z.eq_dec x 0) as [-> | Hne].
  - rewrite Z.max_r by lia.
    assert (240 * ma <= Ea) by lia.
    assert (240 * (w * Ea) <= 240 * (ma * h) + 120 * h) by lia.
    assert (240 * (ma * h) <= Ea * h) by nia.
    assert (240 * w * Ea < (h + 1) * Ea) by nia.
    assert (240 * w < h + 1) by nia. lia.
  - rewrite Z.max_l by lia.
    assert (Hid : (x * h - 240 * w) * Ea
                  = h * (x * Ea - 240 * ma) + 240 * (ma * h - w * Ea)) by ring.
    assert (Hb1 : Z.abs (h * (x * Ea - 240 * ma)) <= h * Ea).
    { rewrite Z.abs_mul, (Z.abs_eq h) by lia. nia. }
    assert (Hb2 : Z.abs ((x * h - 240 * w) * Ea) <= h * Ea + 120 * h).
    { rewrite Hid. lia. }
    rewrite Z.abs_mul, (Z.abs_eq Ea) in Hb2 by lia.
    assert (Z.abs (x * h - 240 * w) < h + 1) by nia. lia.
Qed.

Lemma aspect_error_height (w h ma Ea y : Z) :
  1 <= w -> 1 <= h -> 121 * h < Ea ->
  2 * Z.abs (ma * h - w * Ea) <= h ->
  Z.abs (y * ma - 320 * Ea) <= ma ->
  0 <= y <= 240 ->
  Z.abs (Z.max y 1 * w - 320 * h) <= w.
Proof.
  intros Hw Hh Hbig Ha Hy Hy0.
  destruct (Z.eq_dec y 0) as [-> | Hne].
  - rewrite Z.max_r by lia.
    assert (320 * Ea <= ma) by lia.
    assert (320 * Ea * h <= ma * h) by nia.
    assert (2 * (ma * h) <= 2 * (w * Ea) + h) by lia.
    assert (320 * h * Ea < (w + 1) * Ea) by nia.
    assert (320 * h < w + 1) by nia. lia.
  - rewrite Z.max_l by lia.
    assert (Hid : (y * w - 320 * h) * Ea
                  = y * (w * Ea - ma * h) + h * (y * ma - 320 * Ea)) by ring.
    assert (Hb1 : 2 * Z.abs (y * (w * Ea - ma * h)) <= 240 * h).
    { rewrite Z.abs_mul, (Z.abs_eq y) by lia. nia. }
    assert (Hb3 : Z.abs (h * (y * ma - 320 * Ea)) <= h * ma).
    { rewrite Z.abs_mul, (Z.abs_eq h) by lia. nia. }
    assert (Hb4 : 2 * (h * ma) <= 2 * (w * Ea) + h) by lia.
    assert (Hb2 : Z.abs ((y * w - 320 * h) * Ea) <= w * Ea + 121 * h).
    { rewrite Hid. lia. }
    rewrite Z.abs_mul, (Z.abs_eq Ea) in Hb2 by lia.
    assert (Z.abs (y * w - 320 * h) < w + 1) by nia. lia.
Qed.

(** What follows from the rounding of [width / height] for sides below
    [2^31]: the power of two of its last place is large against the
    height. *)
Lemma aspect_place_large (w h ma Ea : Z) :
  1 <= w < 2 ^ 31 -> 1 <= h < 2 ^ 31 -> 0 < Ea ->
  2 ^ 52 <= ma ->
  2 * Z.abs (ma * h - w * Ea) <= h ->
  121 * h < Ea /\ Ea <= 2 ^ 31 * (ma + 1).
Proof.
  intros Hw Hh HE Hma Herr.
  assert (H1 : 2 * (w * Ea) >= 2 * (ma * h) - h) by lia.
  assert (H2 : 2 * (w * Ea) <= 2 * (ma * h) + h) by lia.
  assert (H3 : 2 ^ 52 * h <= ma * h) by nia.
  assert (H4 : w * Ea <= (2 ^ 31 - 1) * Ea) by nia.
  assert (H5 : Ea <= w * Ea) by nia.
  assert (H6 : ma * h <= ma * 2 ^ 31) by nia.
  split; lia.
Qed.

(** The box ratio against a larger float: a float above the one
    nearest to 4/3 is at least 4/3. *)
Lemma above_box_ratio (ma ka : Z) :
  0 < ka -> 0 <= ma < 2 ^ 53 ->
  6004799503160661 * 2 ^ ka < ma * 2 ^ 52 ->
  4 * 2 ^ ka <= 3 * ma.
Proof.
  intros Hk Hma Hlt.
  destruct (Z.le_gt_cases ka 52) as [Hle | Hgt].
  - assert (HT : 2 ^ 52 = 2 ^ ka * 2 ^ (52 - ka)).
    { rewrite <- Z.pow_add_r by lia. f_equal. lia. }
    assert (0 < 2 ^ ka) by (apply Z.pow_pos_nonneg; lia).
    assert (0 < 2 ^ (52 - ka)) by (apply Z.pow_pos_nonneg; lia).
    set (E := 2 ^ ka) in *. set (T := 2 ^ (52 - ka)) in *.
    rewrite HT in Hlt.
    assert (6004799503160661 < ma * T) by nia.
    assert (4 * (E * T) <= 3 * (ma * T)) by lia.
    nia.
  - assert (HT : 2 ^ ka = 2 ^ 52 * 2 ^ (ka - 52)).
    { rewrite <- Z.pow_add_r by lia. f_equal. lia. }
    assert (2 ^ 1 <= 2 ^ (ka - 52)) by (apply Z.pow_le_mono_r; lia).
    set (T := 2 ^ (ka - 52)) in *. rewrite HT in Hlt.
    change (2 ^ 1) with 2 in *. change (2 ^ 53) with 9007199254740992 in *.
    change (2 ^ 52) with 4503599627370496 in *. nia.
Qed.

Lemma floor_clamped (num den U : Z) :
  0 < den -> 0 <= num <= (U + 1) * den -> 0 <= U ->
  exists K, 0 <= K <= U /\ K * den <= num <= (K + 1) * den.
Proof.
  intros Hden Hnum HU.
  pose proof (Z.div_mod num den ltac:(lia)) as Hdm.
  pose proof (Z.mod_pos_bound num den Hden) as Hmod.
  pose proof (Z.div_pos num den ltac:(lia) Hden) as HK0.
  set (K := num `div` den) in *.
  assert (HK : K <= U + 1) by nia.
  destruct (Z.eq_dec K (U + 1)) as [HKU | HKU].
  - exists U. split; [lia |]. rewrite HKU in Hdm. nia.
  - exists K. split; [lia |]. nia.
Qed.
Lemma unscale (c a b : Z) : 0 < c -> Z.abs (a * c) <= b * c -> Z.abs a <= b.
Proof. intros Hc H. rewrite Z.abs_mul, (Z.abs_eq c) in H by lia. nia. Qed.

Lemma quotient_conditions (E ma c : Z) :
  0 < c -> 0 < E -> 4 * E <= 3 * ma -> ma < 2 ^ 53 ->
  0 < 320 * E * c /\ 0 < ma * c
  /\ 320 * E * c < 2 ^ 50 * (ma * c)
  /\ ma * c <= 2 ^ 1000 * (320 * E * c)
  /\ 0 <= 320 * E * c <= (239 + 1) * (ma * c).
Proof.
  intros Hc HE H43 Hma.
  assert (0 < E * c) by nia. assert (0 < ma * c) by nia.
  assert (4 * (E * c) <= 3 * (ma * c)) by nia.
  assert (ma * c < 2 ^ 53 * c) by nia.
  assert (c <= E * c) by nia.
  repeat split; lia.
Qed.

Lemma quotient_scaled (ma ka : Z) :
  0 < ka ->
  exists c, 0 < c
    /\ 5629499534213120 * 2 ^ Z.max (-44 - - ka) 0 = 320 * 2 ^ ka * c
    /\ ma * 2 ^ Z.max (- (-44 - - ka)) 0 = ma * c.
Proof.
  intros Hka. destruct (Z.le_gt_cases 44 ka) as [Hge | Hlt].
  - exists 1. rewrite Z.max_l, Z.max_r by lia. split; [lia |].
    split; [| rewrite Z.pow_0_r; reflexivity].
    replace (2 ^ ka) with (2 ^ 44 * 2 ^ (-44 - - ka))
      by (rewrite <- Z.pow_add_r by lia; f_equal; lia).
    change (2 ^ 44) with 17592186044416. lia.
  - exists (2 ^ (- (-44 - - ka))). rewrite Z.max_r, Z.max_l by lia.
    split; [apply Z.pow_pos_nonneg; lia |]. split; [| reflexivity].
    rewrite Z.pow_0_r, <- Z.mul_assoc, <- Z.pow_add_r by lia.
    replace (ka + - (-44 - - ka)) with 44 by lia. reflexivity.
Qed.

(** The size that [thumbnail((320, 240))] computes for an image with
    sides below [2^31]: nothing when the image fits the box already;
    otherwise a size inside the box that keeps one side of the box and
    whose other side is within one pixel of the proportional one. *)
Lemma preserve_aspect_ratio_box (w h : Z) :
  1 <= w < 2 ^ 31 -> 1 <= h < 2 ^ 31 ->
  (w <= 320 /\ h <= 240 /\ preserve_aspect_ratio 320 240 w h = Ok None)
  \/ (~ (w <= 320 /\ h <= 240)
      /\ exists x y,
           preserve_aspect_ratio 320 240 w h = Ok (Some (x, y))
           /\ 1 <= x <= 320 /\ 1 <= y <= 240
           /\ ((y = 240 /\ Z.abs (x * h - 240 * w) <= h)
               \/ (x = 320 /\ Z.abs (y * w - 320 * h) <= w))).
Proof.
  intros Hw Hh. unfold preserve_aspect_ratio.
  destruct ((320 >=? w) && (240 >=? h)) eqn:Efit.
  { left. apply andb_true_iff in Efit as [H1 H2].
    apply Z.geb_le in H1, H2. auto. }
  right. split.
  { intros [H1 H2]. apply Z.geb_le in H1, H2. rewrite H1, H2 in Efit. discriminate. }
  destruct (int_truediv_small w h) as (ma & ka & -> & Hka & Hma & Herr);
    [lia | lia | lia | |].
  { assert (h <= 2 ^ 31) by lia. assert (2^31 <= 2^1000 * w); [|lia]. 
    change (2^31) with 2147483648. 
    assert (2147483648 <= 2 ^ 1000 * 1) by (vm_compute; discriminate). nia. }
  cbn [mbind result_bind]. rewrite box_ratio. cbn [mbind result_bind].
  unfold float_ge, float_lt. rewrite (fraction_small ma ka Hka).
  change (fraction false 6004799503160661 (-52)) with (6004799503160661, 2 ^ 52).
  assert (HE : 0 < 2 ^ ka) by (apply Z.pow_pos_nonneg; lia).
  destruct (aspect_place_large w h ma (2 ^ ka) Hw Hh HE ltac:(lia) Herr) as [Hbig Hplace].
  destruct (Z.ltb_spec (6004799503160661 * 2 ^ ka) (ma * 2 ^ 52)) as [HB | HA];
    cbn [negb].
  2:{ rewrite float_240. cbn [mbind result_bind]. unfold float_mul. cbn [xorb].
      rewrite Z.max_r by lia. rewrite Z.max_l by lia.
      replace (- (-45 + - ka)) with (45 + ka) by lia.
      rewrite Z.pow_add_r by lia. rewrite Z.pow_0_r, Z.mul_1_r.
      set (E := 2 ^ ka) in *.
      set (num := 8444249301319680 * ma). set (den := 2 ^ 45 * E).
      assert (Hden : 0 < den) by (unfold den; lia).
      assert (Hnum : 0 < num) by (unfold num; lia).
      assert (Hle : num <= 320 * den) by (unfold num, den; lia).
      assert (H1 : num < 2 ^ 50 * den) by (unfold num, den; lia).
      assert (H2 : den <= 2 ^ 1000 * num) by (unfold num, den; lia).
      destruct (round64_small false num den Hnum Hden H1 H2)
        as (mn & kn & -> & Hkn & Hmn & Hnerr).
      destruct (floor_clamped num den 319 Hden ltac:(lia) ltac:(lia))
        as (K0 & HK0 & HK0b).
      assert (HEn : 0 < 2 ^ kn) by (apply Z.pow_pos_nonneg; lia).
      pose proof (round_between num den mn (2 ^ kn) K0 Hden HEn Hnerr HK0b) as Hbetween.
      destruct (round_aspect_between mn kn K0
                  (fun n => q ← int_truediv n 240;
                            Ok (float_abs (float_sub (Finite false ma (- ka)) q))))
        as (x & -> & Hx); [lia | lia | exact Hbetween | |].
      { intros n Hn. destruct (int_truediv_finite n 240) as (q & ->);
          [| lia | cbn [mbind result_bind]; eauto].
        assert (321 < 2 ^ 1000) by reflexivity. lia. }
      cbn [mbind result_bind]. exists (Z.max x 1), 240.
      split; [reflexivity |]. split; [lia |]. split; [lia |].
      left. split; [reflexivity |].
      apply (aspect_error_width w h ma E x); try lia.
      assert (Hxd : Z.abs (x * den - num) <= den).
      { assert (x = K0 \/ x = K0 + 1) as [-> | ->] by lia; lia. }
      unfold num, den in Hxd.
      replace (x * (2 ^ 45 * E) - 8444249301319680 * ma)
        with (2 ^ 45 * (x * E - 240 * ma)) in Hxd by ring.
      rewrite Z.abs_mul in Hxd. change (Z.abs (2 ^ 45)) with (2 ^ 45) in Hxd.
      lia. }
  rewrite float_320. cbn [mbind result_bind]. unfold float_div, float_is_zero.
  destruct (Z.eqb_spec ma 0) as [| _]; [lia |]. cbn [mbind result_bind xorb].
  destruct (quotient_scaled ma ka Hka) as (c & Hc & -> & ->).
  set (E := 2 ^ ka) in *.
  pose proof (above_box_ratio ma ka Hka ltac:(lia) HB) as H43. fold E in H43.
  destruct (quotient_conditions E ma c Hc HE H43 ltac:(lia))
    as (Hnum & Hden & H1 & H2 & Hle).
  set (num := 320 * E * c) in *. set (den := ma * c) in *.
  destruct (round64_small false num den Hnum Hden H1 H2)
    as (mn & kn & -> & Hkn & Hmn & Hnerr).
  destruct (floor_clamped num den 239 Hden Hle ltac:(lia)) as (K0 & HK0 & HK0b).
  assert (HEn : 0 < 2 ^ kn) by (apply Z.pow_pos_nonneg; lia).
  pose proof (round_between num den mn (2 ^ kn) K0 Hden HEn Hnerr HK0b) as Hbetween.
  destruct (round_aspect_between mn kn K0
              (fun n => if n =? 0 then Ok (Finite false 0 (-1074))
                        else q ← int_truediv 320 n;
                             Ok (float_abs (float_sub (Finite false ma (- ka)) q))))
    as (y & -> & Hy); [lia | lia | exact Hbetween | |].
  { intros n Hn. destruct (Z.eqb_spec n 0); [eauto |].
    destruct (int_truediv_finite 320 n) as (q & ->);
      [| lia | cbn [mbind result_bind]; eauto].
    assert (320 < 2 ^ 1000) by reflexivity. lia. }
  cbn [mbind result_bind]. exists 320, (Z.max y 1).
  split; [reflexivity |]. split; [lia |]. split; [lia |].
  right. split; [reflexivity |].
  apply (aspect_error_height w h ma E y); try lia.
  apply (unscale c); [exact Hc |].
  assert (Hyd : Z.abs (y * den - num) <= den).
  { assert (y = K0 \/ y = K0 + 1) as [-> | ->] by lia; lia. }
  unfold num, den in Hyd.
  replace ((y * ma - 320 * E) * c) with (y * (ma * c) - 320 * E * c) by ring.
  exact Hyd.
Qed.

(** ** Thumbnails *)

(** C5, as the specification states it, fails: the probe reports a
    1920x1080 source, and the video thumbnail is the frame stretched to
    exactly 320x240, which is not the ratio of the source. *)
Lemma video_thumbnail_counterexample :
  let w := sample_world "30/1" "12.5" in
  let r := generate_thumbnail w "clip.mp4" video stored_state in
  let thumbnail := "./thumbnails/80000000-0000-4000-8000-00000000303a.jpg" in
  int_field (sample_video_stream "30/1") "width" = Ok 1920
  /\ int_field (sample_video_stream "30/1") "height" = Ok 1080
  /\ fst r = Ok (Some thumbnail)
  /\ fs (snd r) !! thumbnail = Some (JpegImage 320 240)
  /\ 320 * 1080 <> 240 * 1920.
Proof. vm_compute. repeat split; discriminate. Qed.

(** C5, amended.  A thumbnail that is produced is a JPEG image inside
    the 320x240 box.  For an image it is the size that PIL's thumbnail
    computes: the size of the source when that fits the box, and
    otherwise a size that keeps the aspect ratio of the source within
    one pixel, one side being the side of the box.  For a video it is
    the frame scaled to exactly 320x240, whatever the aspect ratio of
    the source. *)
Theorem thumbnail_sizes (w : World) (path : string) (st : state)
    (data : file_data) (Hfile : fs st !! path = Some data) :
  let thumbnail_path :=
    path_join (THUMBNAIL_DIR w)
      (uuid_str (uuid4_int (os_urandom w (draws st))) ++ ".jpg") in
  (ffmpeg_run w path data = Ok true ->
   exists st',
     generate_thumbnail w path video st = (Ok (Some thumbnail_path), st')
     /\ fs st' !! thumbnail_path = Some (JpegImage 320 240))
  /\ (forall img,
        image_open w data = Ok img ->
        img_load img = Ok tt ->
        img_mode img ∈ JPEG_MODES ->
        1 <= img_width img < 2 ^ 31 ->
        1 <= img_height img < 2 ^ 31 ->
        exists st' tw th,
          generate_thumbnail w path image st = (Ok (Some thumbnail_path), st')
          /\ fs st' !! thumbnail_path = Some (JpegImage tw th)
          /\ 1 <= tw <= 320 /\ 1 <= th <= 240
          /\ ((img_width img <= 320 /\ img_height img <= 240
               /\ tw = img_width img /\ th = img_height img)
              \/ (~ (img_width img <= 320 /\ img_height img <= 240)
                  /\ ((th = 240
                       /\ Z.abs (tw * img_height img - 240 * img_width img)
                          <= img_height img)
                      \/ (tw = 320
                          /\ Z.abs (th * img_width img - 320 * img_height img)
                             <= img_width img))))).
Proof.
  intros thumbnail_path. split.
  - intros Hrun. eexists. unfold generate_thumbnail, try_except_io.
    unfold mbind at 1. unfold io_bind at 1. unfold uuid4 at 1.
    fold thumbnail_path. unfold mbind, io_bind, ffmpeg_frame. cbn [fs].
    rewrite Hfile, Hrun. unfold put_file. cbn [fs fst snd mret io_ret].
    split; [reflexivity |]. cbn [fs]. apply lookup_insert_eq.
  - intros img Hopen Hload Hmode Hw Hh.
    unfold generate_thumbnail, try_except_io.
    unfold mbind at 1. unfold io_bind at 1. unfold uuid4 at 1.
    fold thumbnail_path.
    unfold mbind at 1. unfold io_bind at 1. unfold read, Image_open. cbn [fs].
    rewrite Hfile, Hopen.
    unfold mbind at 1. unfold io_bind at 1. unfold lift at 1. unfold Image_thumbnail.
    destruct (preserve_aspect_ratio_box (img_width img) (img_height img) Hw Hh)
      as [(Hfw & Hfh & ->) | (Hnofit & x & y & -> & Hx & Hy & Haspect)];
      cbn [mbind result_bind]; [| rewrite Hload; cbn [mbind result_bind]];
      unfold mbind at 1; unfold io_bind at 1; unfold Image_save_jpeg;
      unfold mbind at 1; unfold io_bind at 1; unfold lift at 1; rewrite Hload;
      rewrite decide_True by exact Hmode; unfold put_file;
      cbn [fst snd mret io_ret fs].
    + eexists _, (img_width img), (img_height img).
      split; [reflexivity |]. cbn [fs].
      split; [apply lookup_insert_eq |]. split; [lia |]. split; [lia |].
      left. auto.
    + eexists _, x, y.
      split; [reflexivity |]. cbn [fs].
      split; [apply lookup_insert_eq |]. split; [lia |]. split; [lia |].
      right. auto.
Qed.

Lemma thumbnail_sizes_witness :
  let w := sample_world "30/1" "12.5" in
  let thumbnail_path := "./thumbnails/80000000-0000-4000-8000-00000000303a.jpg" in
  (exists st',
     generate_thumbnail w "clip.mp4" video stored_state
     = (Ok (Some thumbnail_path), st')
     /\ fs st' !! thumbnail_path = Some (JpegImage 320 240))
  /\ (exists st' tw th,
        generate_thumbnail w "clip.mp4" image stored_state
        = (Ok (Some thumbnail_path), st')
        /\ fs st' !! thumbnail_path = Some (JpegImage tw th)
        /\ 1 <= tw <= 320 /\ 1 <= th <= 240
        /\ ((1920 <= 320 /\ 1080 <= 240 /\ tw = 1920 /\ th = 1080)
            \/ (~ (1920 <= 320 /\ 1080 <= 240)
                /\ ((th = 240 /\ Z.abs (tw * 1080 - 240 * 1920) <= 1080)
                    \/ (tw = 320 /\ Z.abs (th * 1920 - 320 * 1080) <= 1920))))).
Proof.
  pose proof (thumbnail_sizes (sample_world "30/1" "12.5") "clip.mp4" stored_state
                (RawBytes (list_ascii_of_string "abcde")) eq_refl) as [Hv Hi].
  split.
  - apply Hv. reflexivity.
  - apply (Hi sample_image).
    + reflexivity.
    + reflexivity.
    + apply (bool_decide_eq_true_1 ("RGB" ∈ JPEG_MODES)). vm_compute. reflexivity.
    + simpl. lia.
    + simpl. lia.
Defined.

(** * Further properties of the ingestion code *)

(** ** Validation and classification, exactly *)

Lemma extension_sets_disjoint (e : string) :
  (e ∈ SUPPORTED_VIDEO_TYPES ->
   (e ∉ SUPPORTED_AUDIO_TYPES) /\ (e ∉ SUPPORTED_IMAGE_TYPES))
  /\ (e ∈ SUPPORTED_AUDIO_TYPES -> (e ∉ SUPPORTED_IMAGE_TYPES)).
Proof.
  rewrite video_set_list, audio_set_list, image_set_list.
  unfold VIDEO_EXTENSIONS, AUDIO_EXTENSIONS, IMAGE_EXTENSIONS. simpl.
  split.
  - intros H. split; intros H'; intuition (subst; discriminate).
  - intros H H'. intuition (subst; discriminate).
Qed.

(** X1.  [validate_file] accepts an upload exactly when a size was
    declared, the size is at most [MAX_FILE_SIZE] -- the ceiling itself
    is accepted -- and the lower-cased extension is in one of the three
    sets. *)
Theorem validate_file_accepts (f : UploadFile) :
  validate_file f = Ok tt
  <-> exists n, size f = Some n /\ n <= MAX_FILE_SIZE
                /\ lower (snd (splitext (filename f)))
                   ∈ SUPPORTED_VIDEO_TYPES ∪ SUPPORTED_AUDIO_TYPES
                     ∪ SUPPORTED_IMAGE_TYPES.
Proof.
  split.
  - intros Hval. destruct (validate_file_ok f Hval) as [kind Hkind].
    destruct (get_file_type_ok_extension _ _ Hkind) as [Hext _].
    unfold validate_file in Hval. destruct (size f) as [n |]; [| discriminate].
    exists n. split; [reflexivity |]. split; [| exact Hext].
    cbn [mbind result_bind] in Hval.
    destruct (Z.gtb_spec n MAX_FILE_SIZE); [discriminate | lia].
  - intros (n & Hsize & Hle & Hext). unfold validate_file. rewrite Hsize.
    cbn [mbind result_bind].
    destruct (Z.gtb_spec n MAX_FILE_SIZE); [lia |].
    unfold get_file_type. rewrite !elem_of_union in Hext.
    repeat case_decide; try reflexivity. tauto.
Qed.

(** X2.  The kind that [get_file_type] returns names the set that holds
    the lower-cased extension: the three sets are disjoint, so the
    order of the three tests decides nothing. *)
Theorem get_file_type_exact (name : string) :
  let ext := lower (snd (splitext name)) in
  (get_file_type name = Ok video <-> ext ∈ SUPPORTED_VIDEO_TYPES)
  /\ (get_file_type name = Ok audio <-> ext ∈ SUPPORTED_AUDIO_TYPES)
  /\ (get_file_type name = Ok image <-> ext ∈ SUPPORTED_IMAGE_TYPES).
Proof.
  intros ext. unfold get_file_type. fold ext.
  destruct (extension_sets_disjoint ext) as [Hv Ha].
  destruct (decide (ext ∈ SUPPORTED_VIDEO_TYPES)) as [HV | HV];
    destruct (decide (ext ∈ SUPPORTED_AUDIO_TYPES)) as [HA | HA];
    destruct (decide (ext ∈ SUPPORTED_IMAGE_TYPES)) as [HI | HI];
    repeat split; intros X; try discriminate; try reflexivity;
    try assumption; exfalso; tauto.
Qed.

(** ** The two parts of a split name *)

Lemma str_take_drop (n : nat) (s : string) : str_take n s ++ str_drop n s = s.
Proof.
  revert n. induction s as [| c s IH]; intros [| n]; try reflexivity.
  change (String c (str_take n s ++ str_drop n s) = String c s).
  rewrite IH. reflexivity.
Qed.

Lemma str_take_app (a b : string) : str_take (String.length a) (a ++ b) = a.
Proof.
  induction a as [| c a IH]; [destruct b; reflexivity |].
  change (String c (str_take (String.length a) (a ++ b)) = String c a).
  rewrite IH. reflexivity.
Qed.

Lemma str_app_empty (s : string) : s ++ "" = s.
Proof.
  induction s as [| c s IH]; [reflexivity |].
  change (String c (s ++ "") = String c s). rewrite IH. reflexivity.
Qed.

Lemma str_drop_app (a b : string) : str_drop (String.length a) (a ++ b) = b.
Proof. induction a as [| c a IH]; [destruct b; reflexivity | exact IH]. Qed.

(** [rfind]: the character is absent and the answer is the default, or
    the answer is the place of its last occurrence. *)
Lemma rfind_from_spec (c : ascii) (s : string) :
  forall i last,
  (rfind_from c s i last = last /\ no_char c s = true)
  \/ exists a b, s = a ++ String c b
                 /\ rfind_from c s i last = i + Z.of_nat (String.length a)
                 /\ no_char c b = true.
Proof.
  induction s as [| x s IH]; intros i last; simpl.
  - left. split; reflexivity.
  - destruct (IH (i + 1) (if Ascii.eqb x c then i else last))
      as [[Hr Hno] | (a & b & Hs & Hr & Hno)].
    + destruct (Ascii.eqb_spec x c) as [-> | Hne].
      * right. exists "", s. simpl. split; [reflexivity |]. split; [lia | exact Hno].
      * left. split; [exact Hr |]. unfold no_char in *. simpl.
        rewrite Hno, andb_true_r. apply negb_true_iff, Ascii.eqb_neq. exact Hne.
    + right. exists (String x a), b. simpl. rewrite Hs at 1.
      split; [reflexivity |]. split; [lia | exact Hno].
Qed.

Lemma splitext_scan_cases (p : string) (dotIndex : Z) (n : nat) (j : Z) :
  splitext_scan p dotIndex n j = (p, "")
  \/ splitext_scan p dotIndex n j
     = (str_take (Z.to_nat dotIndex) p, str_drop (Z.to_nat dotIndex) p).
Proof.
  revert j. induction n as [| n IH]; intros j; simpl; [left; reflexivity |].
  destruct (String.get (Z.to_nat j) p) as [c |]; [| right; reflexivity].
  destruct (Ascii.eqb c "."); [apply IH | right; reflexivity].
Qed.

(** X3.  [os.path.splitext] cuts the name in two parts that put together
    give the name back, and the second part is empty or is one dot
    followed by characters that are neither dots nor path separators:
    an extension never reaches into a directory name. *)
Theorem splitext_decomposes (p : string) :
  fst (splitext p) ++ snd (splitext p) = p
  /\ (snd (splitext p) = ""
      \/ exists s, snd (splitext p) = String "." s
                   /\ no_char "." s = true /\ no_char "/" s = true).
Proof.
  unfold splitext, rfind.
  destruct (Z.gtb_spec (rfind_from "." p 0 (-1)) (rfind_from "/" p 0 (-1)))
    as [Hgt | _]; [| split; [simpl; apply str_app_empty | left; reflexivity]].
  destruct (splitext_scan_cases p (rfind_from "." p 0 (-1))
              (Z.to_nat (rfind_from "." p 0 (-1) - (rfind_from "/" p 0 (-1) + 1)))
              (rfind_from "/" p 0 (-1) + 1)) as [-> | ->];
    [split; [simpl; apply str_app_empty | left; reflexivity] |].
  cbn [fst snd]. split; [apply str_take_drop |]. right.
  destruct (rfind_from_spec "." p 0 (-1)) as [[Hr _] | (a & b & Hp & Hr & Hno)].
  { destruct (rfind_from_spec "/" p 0 (-1)) as [[Hs _] | (a' & b' & _ & Hs & _)]; lia. }
  exists b. rewrite Hr in *. rewrite Z.add_0_l, Nat2Z.id in *.
  rewrite Hp at 1. rewrite str_drop_app.
  split; [reflexivity |]. split; [exact Hno |].
  rewrite Hp, rfind_from_app in Hgt. cbn [rfind_from] in Hgt.
  change (Ascii.eqb "." "/") with false in Hgt.
  destruct (rfind_from_spec "/" b (0 + Z.of_nat (String.length a) + 1)
              (rfind_from "/" a 0 (-1)))
    as [[_ Hnb] | (a' & b' & _ & Hs & _)]; [exact Hnb | lia].
Qed.

(** ** What can leave an extractor *)

Lemma py_iter_raises (x : pyval) (e : exn) :
  py_iter x = Raise e -> is_Exception e = true.
Proof. destruct x; simpl; try discriminate; intros [= <-]; reflexivity. Qed.

Lemma first_stream_raises (kind : string) (streams : list pyval) (e : exn) :
  first_stream kind streams = Raise e -> is_Exception e = true.
Proof.
  induction streams as [| s t IH]; simpl; [discriminate |].
  destruct (py_getitem s "codec_type") as [c | e'] eqn:Ec; cbn [mbind result_bind].
  - destruct (py_eq_str c kind); [discriminate | exact IH].
  - intros [= <-]. exact (py_getitem_raises _ _ _ Ec).
Qed.

Lemma int_truediv_raises (a b : Z) (e : exn) :
  int_truediv a b = Raise e -> is_Exception e = true.
Proof.
  unfold int_truediv, finite_or_overflow.
  destruct (b =? 0); [intros [= <-]; reflexivity |].
  destruct (round64 _ _ _); try discriminate. intros [= <-]. reflexivity.
Qed.

Lemma decinteger_raises (s : string) (e : exn) :
  decinteger s = Some (Raise e) -> e = SyntaxError.
Proof.
  unfold decinteger. repeat case_match; try discriminate; intros [= <-]; reflexivity.
Qed.

(** An exception of [eval] that is not of class [Exception] comes from
    the evaluation of a string that is no literal and no quotient of
    literals. *)
Lemma eval_str_raises (other : string -> result pyval) (s : string) (e : exn) :
  eval_str other s = Raise e -> is_Exception e = true \/ other s = Raise e.
Proof.
  unfold eval_str. destruct (split_first _ s) as [a [b |]].
  - destruct (decinteger a) as [[n | ea] |] eqn:Ea; [| | right; assumption].
    + destruct (decinteger b) as [[d | eb] |] eqn:Eb; [| | right; assumption];
        cbn [mbind result_bind].
      * destruct (int_truediv n d) as [q | eq] eqn:Eq; cbn [mbind result_bind];
          [discriminate |].
        intros [= <-]. left. exact (int_truediv_raises _ _ _ Eq).
      * intros [= <-]. left. rewrite (decinteger_raises _ _ Eb). reflexivity.
    + destruct (decinteger b) as [rb |]; [| right; assumption].
      cbn [mbind result_bind]. intros [= <-]. left.
      rewrite (decinteger_raises _ _ Ea). reflexivity.
  - destruct (decinteger a) as [[n | ea] |] eqn:Ea; [| | right; assumption];
      cbn [mbind result_bind]; [discriminate |].
    intros [= <-]. left. rewrite (decinteger_raises _ _ Ea). reflexivity.
Qed.

Lemma try_except_escapes {A : Type} (body : result A) (a : A) (e : exn) :
  try_except body (fun _ => Ok a) = Raise e ->
  body = Raise e /\ is_Exception e = false.
Proof.
  unfold try_except. destruct body as [x | e']; [discriminate |].
  destruct (is_Exception e') eqn:He; [discriminate |].
  intros [= <-]. split; [reflexivity | exact He].
Qed.

Lemma ffmpeg_probe_raises (w : World) (path : string) (st : state) (e : exn) :
  tools_raise_Exception w ->
  ffmpeg_probe w path st = Raise e -> is_Exception e = true.
Proof.
  intros [Hprobe _]. unfold ffmpeg_probe. destruct (fs st !! path) as [d |].
  - apply Hprobe.
  - intros [= <-]. reflexivity.
Qed.

Lemma probe_streams_raises (probe : pyval) (e : exn) :
  probe_streams probe = Raise e -> is_Exception e = true.
Proof.
  unfold probe_streams. destruct (py_getitem probe "streams") as [v | e'] eqn:E;
    cbn [mbind result_bind].
  - apply py_iter_raises.
  - intros [= <-]. exact (py_getitem_raises _ _ _ E).
Qed.

Lemma py_get_float_raises (x : pyval) (k : string) (dflt : pyval) (e : exn) :
  py_get x k dflt ≫= py_float = Raise e -> is_Exception e = true.
Proof.
  destruct (py_get x k dflt) as [v | e'] eqn:E; cbn [mbind result_bind].
  - apply py_float_raises.
  - intros [= <-]. exact (py_get_raises _ _ _ _ E).
Qed.

(** X4.  When the probe and the image decoder fail with exceptions of
    class [Exception] only, the audio and the image extractor always
    return a dictionary, and an exception leaves the video extractor
    only if [eval] of the frame-rate field raised it: the probe
    returned, its first video stream carries an [r_frame_rate] that is
    a string, the width, the height and the duration were read, and
    [eval] of that very string -- no number and no quotient of numbers,
    so that it is left to the interpreter -- raised the exception,
    which is not of class [Exception]. *)
Theorem extractor_escape_only_through_eval (w : World) (path : string)
    (st : state) (Htools : tools_raise_Exception w) :
  (exists metadata, extract_audio_metadata w path st = Ok metadata)
  /\ (exists metadata, extract_image_metadata w path st = Ok metadata)
  /\ (forall e, extract_video_metadata w path st = Raise e ->
        is_Exception e = false
        /\ exists probe streams d s,
             ffmpeg_probe w path st = Ok probe
             /\ probe_streams probe = Ok streams
             /\ first_stream "video" streams = Ok (PyDict d)
             /\ dict_lookup "r_frame_rate" d = Some (PyStr s)
             /\ (exists width height duration,
                   int_field (PyDict d) "width" = Ok width
                   /\ int_field (PyDict d) "height" = Ok height
                   /\ duration_field probe = Ok duration)
             /\ eval_str (eval_other w) s = Raise e
             /\ eval_other w s = Raise e).
Proof.
  split; [| split].
  - destruct (extract_audio_metadata w path st) as [md | e] eqn:H; [eauto |].
    exfalso. unfold extract_audio_metadata in H.
    apply try_except_escapes in H as [H He].
    next_step H He (fun e' => ffmpeg_probe_raises w path st e' Htools).
    fold (probe_streams a) in H. next_step H He probe_streams_raises.
    next_step H He first_stream_raises.
    destruct (py_truth a1); [| discriminate].
    next_step H He py_getitem_raises.
    next_step H He py_get_float_raises.
    next_step H He py_get_raises.
    fold (int_field a1 "sample_rate") in H. next_step H He int_field_raises.
    fold (int_field a1 "channels") in H. next_step H He int_field_raises.
    discriminate.
  - destruct (extract_image_metadata w path st) as [md | e] eqn:H; [eauto |].
    exfalso. unfold extract_image_metadata in H.
    apply try_except_escapes in H as [H He].
    destruct Htools as [_ Himg]. unfold Image_open in H.
    destruct (fs st !! path) as [d |]; cbn [mbind result_bind] in H.
    + destruct (image_open w d) as [img | e'] eqn:E; cbn [mbind result_bind] in H;
        [discriminate |].
      injection H as ->. apply Himg in E. congruence.
    + injection H as <-. discriminate.
  - intros e H. unfold extract_video_metadata in H.
    apply try_except_escapes in H as [H He]. split; [exact He |].
    destruct (ffmpeg_probe w path st) as [probe | e0] eqn:Eprobe;
      cbn [mbind result_bind] in H;
      [| injection H as ->;
         apply (ffmpeg_probe_raises w path st _ Htools) in Eprobe; congruence].
    fold (probe_streams probe) in H.
    destruct (probe_streams probe) as [streams | e0] eqn:Estreams;
      cbn [mbind result_bind] in H;
      [| injection H as ->; apply probe_streams_raises in Estreams; congruence].
    destruct (first_stream "video" streams) as [stream | e0] eqn:Efirst;
      cbn [mbind result_bind] in H;
      [| injection H as ->; apply first_stream_raises in Efirst; congruence].
    destruct (py_truth stream) eqn:Etruth; [| discriminate].
    fold (int_field stream "width") in H.
    destruct (int_field stream "width") as [width | e0] eqn:Ewidth;
      cbn [mbind result_bind] in H;
      [| injection H as ->; apply int_field_raises in Ewidth; congruence].
    fold (int_field stream "height") in H.
    destruct (int_field stream "height") as [height | e0] eqn:Eheight;
      cbn [mbind result_bind] in H;
      [| injection H as ->; apply int_field_raises in Eheight; congruence].
    destruct (py_getitem probe "format") as [format | e0] eqn:Eformat;
      cbn [mbind result_bind] in H;
      [| injection H as ->; apply py_getitem_raises in Eformat; congruence].
    destruct (py_get format "duration" (PyInt 0) ≫= py_float)
      as [duration | e0] eqn:Eduration; cbn [mbind result_bind] in H;
      [| injection H as ->; apply py_get_float_raises in Eduration; congruence].
    destruct (py_get stream "r_frame_rate" (PyStr "30/1") ≫= py_eval (eval_other w))
      as [fps | e'] eqn:Efps; cbn [mbind result_bind] in H.
    { next_step H He py_get_raises. discriminate. }
    injection H as ->.
    destruct stream as [| | | | | | d]; try discriminate Ewidth.
    cbn [py_get mbind result_bind] in Efps.
    destruct (dict_lookup "r_frame_rate" d) as [rate |] eqn:Erate;
      cbn [default from_option id py_eval] in Efps.
    2:{ vm_compute in Efps. discriminate Efps. }
    destruct rate; cbn [py_eval] in Efps; try (injection Efps as <-; discriminate).
    destruct (eval_str_raises _ _ _ Efps) as [Hx | Hx]; [congruence |].
    exists probe, streams, d, s.
    repeat (split; [first [assumption | reflexivity] |]).
    split.
    + exists width, height, duration. split; [assumption |]. split; [assumption |].
      unfold duration_field. rewrite Eformat. exact Eduration.
    + split; assumption.
Qed.

Lemma extractor_escape_only_through_eval_witness :
  (exists metadata,
     extract_audio_metadata exiting_world "clip.mp4" stored_state = Ok metadata)
  /\ (exists metadata,
        extract_image_metadata exiting_world "clip.mp4" stored_state = Ok metadata)
  /\ (is_Exception SystemExit = false
      /\ exists probe streams d s,
           ffmpeg_probe exiting_world "clip.mp4" stored_state = Ok probe
           /\ probe_streams probe = Ok streams
           /\ first_stream "video" streams = Ok (PyDict d)
           /\ dict_lookup "r_frame_rate" d = Some (PyStr s)
           /\ (exists width height duration,
                 int_field (PyDict d) "width" = Ok width
                 /\ int_field (PyDict d) "height" = Ok height
                 /\ duration_field probe = Ok duration)
           /\ eval_str (eval_other exiting_world) s = Raise SystemExit
           /\ eval_other exiting_world s = Raise SystemExit).
Proof.
  assert (Htools : tools_raise_Exception exiting_world)
    by (split; intros; discriminate).
  destruct (extractor_escape_only_through_eval exiting_world "clip.mp4"
              stored_state Htools) as (Ha & Hi & Hv).
  split; [exact Ha |]. split; [exact Hi |].
  apply Hv. reflexivity.
Defined.

(** ** Storing, exactly *)

Lemma upload_file_to_storage_ok (w : World) (f : UploadFile) (st st' : state)
    (path : string) (kind : file_type) (metadata : dict) :
  upload_file_to_storage w f st = (Ok (path, kind, metadata), st') ->
  validate_file f = Ok tt
  /\ get_file_type (filename f) = Ok kind
  /\ (length (file f) <= disk_free st)%nat
  /\ path = stored_path w f st
  /\ st' = {| fs := <[path := RawBytes (file f)]> (fs st);
              disk_free := (disk_free st - length (file f))%nat;
              draws := S (draws st) |}
  /\ extract_metadata w kind path st' = Ok metadata.
Proof.
  intros H. destruct (validate_file f) as [[] | e] eqn:Hval.
  2:{ unfold upload_file_to_storage, mbind, io_bind, lift in H.
      rewrite Hval in H. discriminate. }
  destruct (validate_file_ok f Hval) as [kind' Hkind].
  rewrite (upload_file_to_storage_spec w f st kind' Hval Hkind) in H.
  cbv zeta in H.
  destruct (decide (length (file f) <= disk_free st)%nat) as [Hroom |];
    [| discriminate].
  destruct (extract_metadata w kind' (stored_path w f st) _) as [md | e] eqn:Hmd;
    cbn [mbind result_bind] in H; [| discriminate].
  apply pair_equal_spec in H. destruct H as [H1 H2].
  injection H1 as Hp Hk Hm. subst path kind' md st'. auto 10.
Qed.

(** X5.  [upload_file_to_storage] returns a result exactly when the
    upload passes validation, the body fits the free space and the
    extractor of its kind returns; the file at the stored path then
    holds the bytes of the body, the free space has shrunk by their
    number, and one random draw is used up. *)
Theorem upload_succeeds_exactly (w : World) (f : UploadFile) (st st' : state)
    (path : string) (kind : file_type) (metadata : dict) :
  upload_file_to_storage w f st = (Ok (path, kind, metadata), st')
  <-> validate_file f = Ok tt
      /\ get_file_type (filename f) = Ok kind
      /\ (length (file f) <= disk_free st)%nat
      /\ path = stored_path w f st
      /\ st' = {| fs := <[path := RawBytes (file f)]> (fs st);
                  disk_free := (disk_free st - length (file f))%nat;
                  draws := S (draws st) |}
      /\ extract_metadata w kind path st' = Ok metadata.
Proof.
  split.
  - apply upload_file_to_storage_ok.
  - intros (Hval & Hkind & Hroom & -> & -> & Hmd).
    rewrite (upload_file_to_storage_spec w f st kind Hval Hkind). cbv zeta.
    rewrite decide_True by exact Hroom. rewrite Hmd. reflexivity.
Qed.

(** ** What thumbnailing touches *)

Lemma generate_thumbnail_cases (w : World) (path : string) (kind : file_type)
    (st : state) :
  let r := generate_thumbnail w path kind st in
  r = (Ok None, after_draw st)
  \/ r = (Ok (Some (thumbnail_path w st)), after_draw st)
  \/ (exists data,
        r = (Ok (Some (thumbnail_path w st)),
             with_file (thumbnail_path w st) data (after_draw st)))
  \/ (exists e, is_Exception e = false /\ r = (Raise e, after_draw st)).
Proof.
  assert (Hraise : forall e : exn,
    (if is_Exception e then (Ok None, after_draw st)
     else (@Raise (option string) e, after_draw st)) = (Ok None, after_draw st)
    \/ exists e', is_Exception e' = false
         /\ (if is_Exception e then (Ok None, after_draw st)
             else (@Raise (option string) e, after_draw st))
            = (Raise e', after_draw st)).
  { intros e. destruct (is_Exception e) eqn:He; [left; reflexivity |].
    right. exists e. auto. }
  unfold generate_thumbnail, try_except_io, mbind, io_bind, uuid4.
  cbv zeta. fold (thumbnail_path w st). fold (after_draw st).
  destruct kind.
  - unfold ffmpeg_frame, put_file, mret, io_ret.
    destruct (fs (after_draw st) !! path) as [data |]; [| left; reflexivity].
    destruct (ffmpeg_run w path data) as [[] | e].
    + right. right. left. exists (JpegImage 320 240). reflexivity.
    + right. left. reflexivity.
    + destruct (Hraise e) as [-> | (e' & He' & ->)]; eauto 10.
  - left. reflexivity.
  - unfold read, lift, Image_save_jpeg, mbind, io_bind, lift, mret, io_ret, put_file.
    destruct (Image_open w path (after_draw st)) as [img | e].
    2:{ destruct (Hraise e) as [-> | (e' & He' & ->)]; eauto 10. }
    destruct (Image_thumbnail img 320 240) as [size | e].
    2:{ destruct (Hraise e) as [-> | (e' & He' & ->)]; eauto 10. }
    destruct (img_load img) as [[] | e].
    2:{ destruct (Hraise e) as [-> | (e' & He' & ->)]; eauto 10. }
    destruct (decide (img_mode img ∈ JPEG_MODES)); [| left; reflexivity].
    right. right. left. exists (JpegImage (fst size) (snd size)). reflexivity.
Qed.

(** X6.  [generate_thumbnail] uses one random draw and changes no
    file but the one at the thumbnail path; a path that it returns is
    the thumbnail path; an exception that leaves it is not of class
    [Exception]; and for an audio file it returns no thumbnail and
    changes no file at all. *)
Theorem generate_thumbnail_touches_one_path (w : World) (path : string)
    (kind : file_type) (st : state) :
  let r := generate_thumbnail w path kind st in
  (forall p, p <> thumbnail_path w st -> fs (snd r) !! p = fs st !! p)
  /\ draws (snd r) = S (draws st)
  /\ (forall p, fst r = Ok (Some p) -> p = thumbnail_path w st)
  /\ (forall e, fst r = Raise e -> is_Exception e = false)
  /\ (kind = audio -> fst r = Ok None /\ fs (snd r) = fs st).
Proof.
  intros r.
  assert (Haudio : kind = audio -> fst r = Ok None /\ fs (snd r) = fs st).
  { intros ->. split; reflexivity. }
  destruct (generate_thumbnail_cases w path kind st)
    as [H | [H | [(data & H) | (e & He & H)]]];
    fold r in H; fold r in Haudio; rewrite H in Haudio |- *;
    cbn [fst snd after_draw with_file fs disk_free draws] in Haudio |- *;
    repeat split; try congruence; try (apply Haudio; assumption).
  intros p Hp. apply lookup_insert_ne. congruence.
Qed.

Lemma generate_thumbnail_touches_one_path_witness :
  let w := sample_world "30/1" "12.5" in
  let r := generate_thumbnail w "clip.mp4" audio stored_state in
  (forall p, p <> thumbnail_path w stored_state ->
     fs (snd r) !! p = fs stored_state !! p)
  /\ draws (snd r) = S (draws stored_state)
  /\ (forall p, fst r = Ok (Some p) -> p = thumbnail_path w stored_state)
  /\ (forall e, fst r = Raise e -> is_Exception e = false)
  /\ (fst r = Ok None /\ fs (snd r) = fs stored_state).
Proof.
  destruct (generate_thumbnail_touches_one_path (sample_world "30/1" "12.5")
              "clip.mp4" audio stored_state) as (H1 & H2 & H3 & H4 & H5).
  split; [exact H1 |]. split; [exact H2 |]. split; [exact H3 |].
  split; [exact H4 |]. apply H5. reflexivity.
Defined.

(** X7.  For a video, [generate_thumbnail] returns the thumbnail path
    whenever the frame extraction does not raise; it does not look for
    the file.  When the extraction wrote no frame, the path is returned
    and no file is there. *)
Theorem video_thumbnail_path_without_file (w : World) (path : string)
    (st : state) (data : file_data)
    (Hfile : fs st !! path = Some data)
    (Hrun : ffmpeg_run w path data = Ok false)
    (Hfresh : fs st !! thumbnail_path w st = None) :
  exists st',
    generate_thumbnail w path video st = (Ok (Some (thumbnail_path w st)), st')
    /\ fs st' !! thumbnail_path w st = None
    /\ fs st' = fs st.
Proof.
  exists (after_draw st).
  unfold generate_thumbnail, try_except_io, mbind, io_bind, uuid4.
  cbv zeta. fold (thumbnail_path w st). fold (after_draw st).
  unfold ffmpeg_frame. cbn [after_draw fs].
  rewrite Hfile, Hrun. cbn [mret io_ret]. auto.
Qed.

Lemma video_thumbnail_path_without_file_witness :
  exists st',
    generate_thumbnail frameless_world "clip.mp4" video stored_state
    = (Ok (Some (thumbnail_path frameless_world stored_state)), st')
    /\ fs st' !! thumbnail_path frameless_world stored_state = None
    /\ fs st' = fs stored_state.
Proof.
  apply (video_thumbnail_path_without_file frameless_world "clip.mp4"
           stored_state (RawBytes (list_ascii_of_string "abcde"))).
  - reflexivity.
  - reflexivity.
  - vm_compute. reflexivity.
Defined.

(** ** What the extractors return *)

Lemma try_except_default {A : Type} (body : result A) (d r : A) :
  try_except body (fun _ => Ok d) = Ok r -> body = Ok r \/ r = d.
Proof.
  unfold try_except. destruct body as [a | e].
  - intros [= <-]. left. reflexivity.
  - destruct (is_Exception e); [| discriminate]. intros [= <-]. right. reflexivity.
Qed.

(** X8.  The metadata that an extractor returns is empty or holds
    every key of its kind, in the order of the source: integers for the
    width, the height, the sample rate and the channel count, a float
    for the duration.  No extractor returns a part of its keys. *)
Theorem metadata_is_empty_or_complete (w : World) (kind : file_type)
    (path : string) (st : state) (metadata : dict)
    (Hmd : extract_metadata w kind path st = Ok metadata) :
  metadata = []
  \/ match kind with
     | video =>
         exists width height duration fps codec,
           metadata = [("width", PyInt width); ("height", PyInt height);
                       ("duration", PyFloat duration); ("fps", fps);
                       ("codec", codec)]
     | audio =>
         exists duration codec sample_rate channels,
           metadata = [("duration", PyFloat duration); ("codec", codec);
                       ("sample_rate", PyInt sample_rate);
                       ("channels", PyInt channels)]
     | image =>
         exists width height format,
           metadata = [("width", PyInt width); ("height", PyInt height);
                       ("format", format)]
     end.
Proof.
  destruct kind; cbn [extract_metadata] in Hmd.
  - unfold extract_video_metadata in Hmd.
    apply try_except_default in Hmd as [H | ->]; [| left; reflexivity].
    do 3 bind_ok H.
    destruct (py_truth _); [| injection H as <-; left; reflexivity].
    do 6 bind_ok H. injection H as <-. right. eauto 10.
  - unfold extract_audio_metadata in Hmd.
    apply try_except_default in Hmd as [H | ->]; [| left; reflexivity].
    do 3 bind_ok H.
    destruct (py_truth _); [| injection H as <-; left; reflexivity].
    do 5 bind_ok H. injection H as <-. right. eauto 10.
  - unfold extract_image_metadata in Hmd.
    apply try_except_default in Hmd as [H | ->]; [| left; reflexivity].
    bind_ok H. injection H as <-. right. eauto 10.
Qed.

Lemma metadata_is_empty_or_complete_witness :
  exists metadata,
    extract_metadata (sample_world "30000/1001" "12.5") audio "clip.mp4"
      stored_state = Ok metadata
    /\ (metadata = []
        \/ exists duration codec sample_rate channels,
             metadata = [("duration", PyFloat duration); ("codec", codec);
                         ("sample_rate", PyInt sample_rate);
                         ("channels", PyInt channels)]).
Proof.
  eexists. split; [vm_compute; reflexivity |].
  apply (metadata_is_empty_or_complete (sample_world "30000/1001" "12.5") audio
           "clip.mp4" stored_state).
  vm_compute. reflexivity.
Defined.

Lemma first_stream_none (kind : string) (streams : list pyval) :
  first_stream kind streams = Ok PyNone <-> no_stream_of kind streams.
Proof.
  unfold no_stream_of. induction streams as [| s t IH]; cbn [first_stream].
  - split; [constructor | reflexivity].
  - destruct (py_getitem s "codec_type") as [c | e] eqn:Ec; cbn [mbind result_bind].
    + destruct (py_eq_str c kind) eqn:Eeq.
      * split.
        -- intros [= ->]. discriminate.
        -- intros H. inversion H as [| ? ? (c' & Hc' & Hne) _]; subst.
           congruence.
      * rewrite IH. split.
        -- intros H. constructor; [eauto | exact H].
        -- intros H. inversion H; assumption.
    + split; [discriminate |].
      intros H. inversion H as [| ? ? (c' & Hc' & Hne) _]; subst. congruence.
Qed.

(** X9.  A file whose probe shows no stream of the wanted kind -- an
    audio track under a video extension, say -- gets empty metadata from
    the extractor of that kind, whatever the probe holds besides; the
    search for the stream ends with [None] exactly when every stream
    carries a [codec_type] and none is of the kind. *)
Theorem no_stream_of_kind_empties_metadata (w : World) (path : string)
    (st : state) (probe : pyval) (streams : list pyval)
    (Hprobe : ffmpeg_probe w path st = Ok probe)
    (Hstreams : probe_streams probe = Ok streams) :
  (forall kind,
     first_stream kind streams = Ok PyNone <-> no_stream_of kind streams)
  /\ (no_stream_of "video" streams -> extract_video_metadata w path st = Ok [])
  /\ (no_stream_of "audio" streams -> extract_audio_metadata w path st = Ok []).
Proof.
  unfold probe_streams in Hstreams.
  split; [intros kind; apply first_stream_none |].
  split; intros H; apply first_stream_none in H.
  - unfold extract_video_metadata. rewrite Hprobe. cbn [mbind result_bind].
    rewrite Hstreams. cbn [mbind result_bind]. rewrite H. reflexivity.
  - unfold extract_audio_metadata. rewrite Hprobe. cbn [mbind result_bind].
    rewrite Hstreams. cbn [mbind result_bind]. rewrite H. reflexivity.
Qed.

Lemma no_stream_of_kind_empties_metadata_witness :
  no_stream_of "video" [sample_audio_stream]
  /\ extract_video_metadata audio_only_world "clip.mp4" stored_state = Ok [].
Proof.
  assert (H : no_stream_of "video" [sample_audio_stream]).
  { constructor; [| constructor]. exists (PyStr "audio"). split; reflexivity. }
  split; [exact H |].
  apply (no_stream_of_kind_empties_metadata audio_only_world "clip.mp4"
           stored_state audio_only_probe [sample_audio_stream]
           eq_refl eq_refl).
  exact H.
Defined.

(** X10.  A stream that carries none of the optional fields, under a
    format without a duration, gets the defaults of the source: width,
    height, sample rate and channel count 0, duration 0.0, frame rate
    30.0 -- the value of ['30/1'] -- and codec ['unknown']. *)
Theorem absent_fields_take_defaults (w : World) (path : string) (st : state)
    (probe : pyval) (streams : list pyval) (d fmt : dict) (kind : string)
    (Hprobe : ffmpeg_probe w path st = Ok probe)
    (Hstreams : probe_streams probe = Ok streams)
    (Hfirst : first_stream kind streams = Ok (PyDict d))
    (Hformat : py_getitem probe "format" = Ok (PyDict fmt))
    (Hduration : dict_lookup "duration" fmt = None)
    (Habsent : forall k,
       k ∈ ["width"; "height"; "r_frame_rate"; "codec_name"; "sample_rate";
            "channels"] ->
       dict_lookup k d = None) :
  (kind = "video" ->
   extract_video_metadata w path st
   = Ok [("width", PyInt 0); ("height", PyInt 0);
         ("duration", PyFloat (Finite false 0 (-1074))); ("fps", DEFAULT_RATE);
         ("codec", PyStr "unknown")])
  /\ (kind = "audio" ->
      extract_audio_metadata w path st
      = Ok [("duration", PyFloat (Finite false 0 (-1074)));
            ("codec", PyStr "unknown"); ("sample_rate", PyInt 0);
            ("channels", PyInt 0)]).
Proof.
  unfold probe_streams in Hstreams.
  assert (Htruth : py_truth (PyDict d) = true).
  { destruct (first_stream_found _ _ _ Hfirst) as [? | ?]; [discriminate | assumption]. }
  assert (Hk : forall k,
            k ∈ ["width"; "height"; "r_frame_rate"; "codec_name"; "sample_rate";
                 "channels"] ->
            forall dflt, py_get (PyDict d) k dflt = Ok dflt).
  { intros k Hin dflt. cbn [py_get]. rewrite (Habsent k Hin). reflexivity. }
  split; intros ->.
  - unfold extract_video_metadata. rewrite Hprobe. cbn [mbind result_bind].
    rewrite Hstreams. cbn [mbind result_bind]. rewrite Hfirst. cbn [mbind result_bind].
    rewrite Htruth, Hformat.
    rewrite !Hk by (rewrite !elem_of_cons; auto 10).
    cbn [mbind result_bind py_get]. rewrite Hduration.
    reflexivity.
  - unfold extract_audio_metadata. rewrite Hprobe. cbn [mbind result_bind].
    rewrite Hstreams. cbn [mbind result_bind]. rewrite Hfirst. cbn [mbind result_bind].
    rewrite Htruth, Hformat.
    rewrite !Hk by (rewrite !elem_of_cons; auto 10).
    cbn [mbind result_bind py_get]. rewrite Hduration.
    reflexivity.
Qed.

Lemma absent_fields_take_defaults_witness :
  extract_video_metadata bare_world "clip.mp4" stored_state
  = Ok [("width", PyInt 0); ("height", PyInt 0);
        ("duration", PyFloat (Finite false 0 (-1074))); ("fps", DEFAULT_RATE);
        ("codec", PyStr "unknown")].
Proof.
  apply (absent_fields_take_defaults bare_world "clip.mp4" stored_state
           bare_probe
           [PyDict [("codec_type", PyStr "audio")];
            PyDict [("codec_type", PyStr "video")]]
           [("codec_type", PyStr "video")] [] "video"
           eq_refl eq_refl eq_refl eq_refl eq_refl).
  - intros k Hin. rewrite !elem_of_cons in Hin.
    destruct Hin as [-> | [-> | [-> | [-> | [-> | [-> | Hin]]]]]];
      try reflexivity.
    apply elem_of_nil in Hin. destruct Hin.
  - reflexivity.
Defined.

(** X11.  A path at which no file is stored is not an error for the
    caller: the extractor of every kind returns empty metadata and
    [generate_thumbnail] returns no thumbnail and writes nothing. *)
Theorem missing_file_is_swallowed (w : World) (kind : file_type)
    (path : string) (st : state) (Hmissing : fs st !! path = None) :
  extract_metadata w kind path st = Ok []
  /\ generate_thumbnail w path kind st = (Ok None, after_draw st).
Proof.
  split.
  - destruct kind; cbn [extract_metadata];
      unfold extract_video_metadata, extract_audio_metadata,
        extract_image_metadata, ffmpeg_probe, Image_open;
      rewrite Hmissing; reflexivity.
  - unfold generate_thumbnail, try_except_io, mbind, io_bind, uuid4.
    cbv zeta. fold (after_draw st).
    destruct kind; [| reflexivity |].
    + unfold ffmpeg_frame. cbn [after_draw fs]. rewrite Hmissing. reflexivity.
    + unfold read, Image_open. cbn [after_draw fs]. rewrite Hmissing. reflexivity.
Qed.

Lemma missing_file_is_swallowed_witness :
  extract_metadata (sample_world "30/1" "12.5") video "gone.mp4" stored_state
  = Ok []
  /\ generate_thumbnail (sample_world "30/1" "12.5") "gone.mp4" video
       stored_state
     = (Ok None, after_draw stored_state).
Proof.
  apply (missing_file_is_swallowed (sample_world "30/1" "12.5") video
           "gone.mp4" stored_state).
  reflexivity.
Defined.

(** ** Names and paths *)

Lemma str_length_app (a b : string) :
  String.length (a ++ b) = (String.length a + String.length b)%nat.
Proof.
  induction a as [| c a IH]; [reflexivity |].
  change (S (String.length (a ++ b)) = S (String.length a + String.length b)).
  rewrite IH. reflexivity.
Qed.

Lemma str_app_inj (a a' b b' : string) :
  String.length a = String.length a' -> a ++ b = a' ++ b' -> a = a' /\ b = b'.
Proof.
  revert a'. induction a as [| c a IH]; intros [| c' a'] Hlen H;
    try discriminate Hlen.
  - split; [reflexivity | exact H].
  - change (String c (a ++ b) = String c' (a' ++ b')) in H.
    injection H as -> H. injection Hlen as Hlen.
    destruct (IH a' Hlen H) as [-> ->]. split; reflexivity.
Qed.

Lemma str_length_take (n : nat) (s : string) :
  (n <= String.length s)%nat -> String.length (str_take n s) = n.
Proof.
  revert n. induction s as [| c s IH]; intros [| n] H; simpl in *; try lia.
  rewrite IH by lia. reflexivity.
Qed.

Lemma str_length_drop (n : nat) (s : string) :
  String.length (str_drop n s) = (String.length s - n)%nat.
Proof.
  revert n. induction s as [| c s IH]; intros [| n]; simpl; try reflexivity.
  apply IH.
Qed.

Lemma str_drop_drop (n m : nat) (s : string) :
  str_drop n (str_drop m s) = str_drop (m + n) s.
Proof.
  revert m. induction s as [| c s IH]; intros [| m]; simpl; try reflexivity.
  - destruct n; reflexivity.
  - apply IH.
Qed.

Lemma hex_fixed_length (k : nat) (n : Z) : String.length (hex_fixed k n) = k.
Proof.
  revert n. induction k as [| k IH]; intros n; [reflexivity |].
  cbn [hex_fixed]. rewrite str_length_app, IH. simpl. lia.
Qed.

Lemma uuid_str_length (i : Z) : String.length (uuid_str i) = 36%nat.
Proof.
  unfold uuid_str. cbv zeta.
  pose proof (hex_fixed_length 32 i) as H.
  rewrite !str_length_app, !str_length_drop, !str_length_take, H
    by (rewrite ?str_length_drop, H; simpl; lia).
  reflexivity.
Qed.

Lemma hexdigit_inj (a b : Z) :
  0 <= a < 16 -> 0 <= b < 16 -> hexdigit a = hexdigit b -> a = b.
Proof.
  intros Ha Hb H.
  assert (Hcases : forall x, 0 <= x < 16 ->
            x = 0 \/ x = 1 \/ x = 2 \/ x = 3 \/ x = 4 \/ x = 5 \/ x = 6 \/ x = 7
            \/ x = 8 \/ x = 9 \/ x = 10 \/ x = 11 \/ x = 12 \/ x = 13 \/ x = 14
            \/ x = 15) by (intros; lia).
  destruct (Hcases a Ha) as [-> | [-> | [-> | [-> | [-> | [-> | [-> | [-> |
      [-> | [-> | [-> | [-> | [-> | [-> | [-> | ->]]]]]]]]]]]]]]];
  destruct (Hcases b Hb) as [-> | [-> | [-> | [-> | [-> | [-> | [-> | [-> |
      [-> | [-> | [-> | [-> | [-> | [-> | [-> | ->]]]]]]]]]]]]]]];
  first [reflexivity | vm_compute in H; discriminate H].
Qed.

Lemma hex_fixed_inj (k : nat) (i j : Z) :
  0 <= i < 16 ^ Z.of_nat k -> 0 <= j < 16 ^ Z.of_nat k ->
  hex_fixed k i = hex_fixed k j -> i = j.
Proof.
  revert i j. induction k as [| k IH]; intros i j Hi Hj H.
  - change (16 ^ Z.of_nat 0) with 1 in Hi, Hj. lia.
  - cbn [hex_fixed] in H.
    apply str_app_inj in H as [Hhi Hlo];
      [| rewrite !hex_fixed_length; reflexivity].
    injection Hlo as Hlo.
    replace (16 ^ Z.of_nat (S k)) with (16 * 16 ^ Z.of_nat k) in Hi, Hj
      by (rewrite Nat2Z.inj_succ, Z.pow_succ_r by lia; reflexivity).
    apply hexdigit_inj in Hlo; [| apply Z.mod_pos_bound; lia ..].
    apply IH in Hhi;
      [| split; [apply Z.div_pos; lia | apply Z.div_lt_upper_bound; lia] ..].
    rewrite (Z.div_mod i 16), (Z.div_mod j 16) by lia.
    change (i `div` 16 = j `div` 16) in Hhi.
    change (i `mod` 16 = j `mod` 16) in Hlo.
    rewrite Hhi, Hlo. reflexivity.
Qed.

(** [str(UUID)] loses nothing: the 32 digits are read back from it. *)
Lemma uuid_str_inj (i j : Z) :
  uuid_range i -> uuid_range j -> uuid_str i = uuid_str j -> i = j.
Proof.
  unfold uuid_range. intros Hi Hj H.
  apply (hex_fixed_inj 32); [exact Hi | exact Hj |].
  unfold uuid_str in H. cbv zeta in H.
  set (a := hex_fixed 32 i) in *. set (b := hex_fixed 32 j) in *.
  assert (La : String.length a = 32%nat) by apply hex_fixed_length.
  assert (Lb : String.length b = 32%nat) by apply hex_fixed_length.
  apply str_app_inj in H as [H1 H];
    [| rewrite !str_length_take by lia; reflexivity].
  apply (str_app_inj "-" "-") in H as [_ H]; [| reflexivity].
  apply str_app_inj in H as [H2 H];
    [| rewrite !str_length_take by (rewrite str_length_drop; lia); reflexivity].
  apply (str_app_inj "-" "-") in H as [_ H]; [| reflexivity].
  apply str_app_inj in H as [H3 H];
    [| rewrite !str_length_take by (rewrite str_length_drop; lia); reflexivity].
  apply (str_app_inj "-" "-") in H as [_ H]; [| reflexivity].
  apply str_app_inj in H as [H4 H];
    [| rewrite !str_length_take by (rewrite str_length_drop; lia); reflexivity].
  apply (str_app_inj "-" "-") in H as [_ H5]; [| reflexivity].
  rewrite <- (str_take_drop 8 a), <- (str_take_drop 8 b), H1. f_equal.
  rewrite <- (str_take_drop 4 (str_drop 8 a)), <- (str_take_drop 4 (str_drop 8 b)), H2.
  f_equal. rewrite !str_drop_drop. cbn [Nat.add].
  rewrite <- (str_take_drop 4 (str_drop 12 a)), <- (str_take_drop 4 (str_drop 12 b)), H3.
  f_equal. rewrite !str_drop_drop. cbn [Nat.add].
  rewrite <- (str_take_drop 4 (str_drop 16 a)), <- (str_take_drop 4 (str_drop 16 b)), H4.
  f_equal. rewrite !str_drop_drop. cbn [Nat.add]. exact H5.
Qed.

Lemma small_log2 (x : Z) : 0 <= x -> (x < 2 ^ 128 <-> Z.log2 x < 128).
Proof.
  intros Hx. destruct (Z.eq_dec x 0) as [-> | Hne].
  - split; intros _; [reflexivity | reflexivity].
  - apply Z.log2_lt_pow2. lia.
Qed.

Lemma small_lor (a b : Z) :
  uuid_range a -> uuid_range b -> uuid_range (Z.lor a b).
Proof.
  unfold uuid_range. intros [Ha Ha'] [Hb Hb'].
  assert (H0 : 0 <= Z.lor a b) by (apply Z.lor_nonneg; lia).
  split; [exact H0 |].
  apply small_log2; [exact H0 |]. rewrite Z.log2_lor by lia.
  apply small_log2 in Ha', Hb'; lia.
Qed.

Lemma small_clear (a b : Z) :
  uuid_range a -> 0 <= b -> uuid_range (Z.land a (Z.lnot b)).
Proof.
  unfold uuid_range. intros [Ha Ha'] Hb. rewrite <- Z.ldiff_land.
  assert (H0 : 0 <= Z.ldiff a b) by (apply Z.ldiff_nonneg; lia).
  split; [exact H0 |].
  apply small_log2; [exact H0 |]. apply small_log2 in Ha'; [| exact Ha].
  assert (H1 : 0 <= Z.land a b) by (apply Z.land_nonneg; lia).
  pose proof (Z.log2_lor (Z.ldiff a b) (Z.land a b) H0 H1) as H.
  rewrite Z.lor_ldiff_and in H. lia.
Qed.

Lemma uuid4_int_range (r : Z) : uuid_range (uuid4_int r).
Proof.
  unfold uuid4_int. cbv zeta.
  apply small_lor; [| split; [discriminate | reflexivity]].
  apply small_clear; [| discriminate].
  apply small_lor; [| split; [discriminate | reflexivity]].
  apply small_clear; [| discriminate].
  unfold uuid_range. apply Z.mod_pos_bound. reflexivity.
Qed.

Lemma ends_with_sep_split (a : string) :
  ends_with_sep a = true -> exists a', a = a' ++ "/".
Proof.
  induction a as [| c a IH]; [discriminate |].
  destruct a as [| c' a].
  - simpl. intros H. apply Ascii.eqb_eq in H as ->. exists "". reflexivity.
  - intros H. destruct (IH H) as [a' Ha']. exists (String c a').
    change (String c (String c' a) = String c (a' ++ "/")). rewrite Ha'. reflexivity.
Qed.

Lemma basename_after_sep (a name : string) :
  no_char "/" name = true -> basename ((a ++ "/") ++ name) = name.
Proof.
  intros Hname. unfold basename, rfind.
  rewrite rfind_from_app, (rfind_from_absent _ _ _ _ Hname).
  rewrite rfind_from_app. cbn [rfind_from]. change (Ascii.eqb "/" "/") with true.
  cbv iota.
  replace (Z.to_nat (0 + Z.of_nat (String.length a) + 1))
    with (String.length (a ++ "/")) by (rewrite str_length_app; simpl; lia).
  apply str_drop_app.
Qed.

Lemma basename_plain (name : string) :
  no_char "/" name = true -> basename name = name.
Proof.
  intros Hname. unfold basename, rfind.
  rewrite (rfind_from_absent _ _ _ _ Hname). reflexivity.
Qed.

(** The last component of a joined path is the name that was joined,
    when the name holds no separator. *)
Lemma basename_path_join (root name : string) :
  no_char "/" name = true -> basename (path_join root name) = name.
Proof.
  intros Hname. unfold path_join. rewrite (no_sep_not_absolute _ Hname).
  destruct (String.eqb_spec root "") as [-> | Hroot]; cbn [orb].
  - apply basename_plain. exact Hname.
  - destruct (ends_with_sep root) eqn:Hend.
    + destruct (ends_with_sep_split _ Hend) as [a ->].
      apply basename_after_sep. exact Hname.
    + replace (root ++ "/" ++ name) with ((root ++ "/") ++ name).
      * apply basename_after_sep. exact Hname.
      * clear. induction root as [| c r IH]; [reflexivity |].
        change (String c ((r ++ "/") ++ name) = String c (r ++ "/" ++ name)).
        rewrite IH. reflexivity.
Qed.

Lemma unique_filename_no_sep (w : World) (f : UploadFile) (st : state) :
  validate_file f = Ok tt -> no_char "/" (unique_filename w f st) = true.
Proof.
  intros Hval. destruct (validate_file_ok f Hval) as [kind Hkind].
  destruct (get_file_type_ok_extension _ _ Hkind) as [_ Hnosep].
  unfold unique_filename. rewrite no_char_app, Hnosep, andb_true_r.
  apply uuid_str_no_sep.
Qed.

Lemma thumbnail_name_no_sep (i : Z) : no_char "/" (uuid_str i ++ ".jpg") = true.
Proof. rewrite no_char_app, uuid_str_no_sep. reflexivity. Qed.

(** Two names built on different UUIDs lie at different paths. *)
Lemma paths_of_distinct_uuids (root root' ext ext' : string) (i j : Z) :
  uuid_range i -> uuid_range j -> i <> j ->
  no_char "/" ext = true -> no_char "/" ext' = true ->
  path_join root (uuid_str i ++ ext) <> path_join root' (uuid_str j ++ ext').
Proof.
  intros Hi Hj Hne He He' H.
  apply (f_equal basename) in H.
  rewrite !basename_path_join in H
    by (rewrite no_char_app, uuid_str_no_sep; assumption).
  apply str_app_inj in H as [H _]; [| rewrite !uuid_str_length; reflexivity].
  apply Hne. apply uuid_str_inj; assumption.
Qed.

(** X12.  The record of an upload names the file by the last component
    of the stored path, and that component is the unique name: the
    token followed by the lower-cased extension, whatever the upload
    root is.  The last component of the thumbnail path is the token of
    the thumbnail followed by [.jpg]. *)
Theorem basename_is_unique_filename (w : World) (f : UploadFile) (st : state)
    (Hval : validate_file f = Ok tt) :
  basename (stored_path w f st)
  = uuid_str (uuid4_int (os_urandom w (draws st)))
      ++ lower (snd (splitext (filename f)))
  /\ basename (thumbnail_path w st)
     = uuid_str (uuid4_int (os_urandom w (draws st))) ++ ".jpg".
Proof.
  split.
  - unfold stored_path. rewrite basename_path_join; [reflexivity |].
    apply unique_filename_no_sep. exact Hval.
  - unfold thumbnail_path. apply basename_path_join. apply thumbnail_name_no_sep.
Qed.

Lemma basename_is_unique_filename_witness :
  basename (stored_path (sample_world "30/1" "12.5") (sample_upload "Clip.MP4")
              (fresh_state 100))
  = uuid_str (uuid4_int (os_urandom (sample_world "30/1" "12.5")
                           (draws (fresh_state 100))))
      ++ lower (snd (splitext (filename (sample_upload "Clip.MP4"))))
  /\ basename (thumbnail_path (sample_world "30/1" "12.5") (fresh_state 100))
     = uuid_str (uuid4_int (os_urandom (sample_world "30/1" "12.5")
                              (draws (fresh_state 100)))) ++ ".jpg".
Proof.
  apply (basename_is_unique_filename (sample_world "30/1" "12.5")
           (sample_upload "Clip.MP4") (fresh_state 100)).
  reflexivity.
Defined.

(** X13.  The UUID is all that keeps two stored files apart: two
    accepted uploads whose UUIDs differ are stored at different paths,
    whatever their filenames are, and two uploads with one UUID and one
    extension, case apart, are stored at one path.  The text of a UUID
    has 36 characters and determines the UUID. *)
Theorem stored_paths_differ_with_uuids (w : World) (f f' : UploadFile)
    (st st' : state)
    (Hval : validate_file f = Ok tt) (Hval' : validate_file f' = Ok tt) :
  let u := uuid4_int (os_urandom w (draws st)) in
  let u' := uuid4_int (os_urandom w (draws st')) in
  (u <> u' -> stored_path w f st <> stored_path w f' st')
  /\ (u = u' ->
      lower (snd (splitext (filename f))) = lower (snd (splitext (filename f'))) ->
      stored_path w f st = stored_path w f' st')
  /\ String.length (uuid_str u) = 36%nat
  /\ (uuid_str u = uuid_str u' <-> u = u').
Proof.
  intros u u'.
  destruct (validate_file_ok f Hval) as [kind Hkind].
  destruct (validate_file_ok f' Hval') as [kind' Hkind'].
  destruct (get_file_type_ok_extension _ _ Hkind) as [_ Hnosep].
  destruct (get_file_type_ok_extension _ _ Hkind') as [_ Hnosep'].
  split; [| split; [| split]].
  - intros Hne. unfold stored_path, unique_filename. fold u u'.
    apply paths_of_distinct_uuids; try assumption; apply uuid4_int_range.
  - intros Hu Hext. unfold stored_path, unique_filename. fold u u'.
    rewrite Hu, Hext. reflexivity.
  - apply uuid_str_length.
  - split; [| intros ->; reflexivity].
    apply uuid_str_inj; apply uuid4_int_range.
Qed.

Lemma stored_paths_differ_with_uuids_witness :
  let w := sample_world "30/1" "12.5" in
  stored_path w (sample_upload "clip.mp4") (fresh_state 100)
  <> stored_path w (sample_upload "clip.mp4") stored_state.
Proof.
  apply (stored_paths_differ_with_uuids (sample_world "30/1" "12.5")
           (sample_upload "clip.mp4") (sample_upload "clip.mp4")
           (fresh_state 100) stored_state eq_refl eq_refl).
  vm_compute. discriminate.
Defined.

(** ** The pipeline *)

(** X14.  When the pipeline of the upload route returns and the UUIDs
    of the original and of the thumbnail differ, the thumbnail has not
    touched the original: the stored path holds the bytes of the body,
    the thumbnail -- none, or the thumbnail path -- is at another path,
    every file at a third path is as it was, and two random draws are
    used up.  An audio upload has no thumbnail. *)
Theorem ingestion_keeps_original (w : World) (f : UploadFile) (st st' : state)
    (path : string) (kind : file_type) (metadata : dict)
    (thumbnail : option string)
    (Hrun : ingestion_pipeline w f st
            = (Ok (path, kind, metadata, thumbnail), st'))
    (Huuid : uuid4_int (os_urandom w (draws st))
             <> uuid4_int (os_urandom w (S (draws st)))) :
  fs st' !! path = Some (RawBytes (file f))
  /\ path <> thumbnail_path w (after_draw st)
  /\ (thumbnail = None \/ thumbnail = Some (thumbnail_path w (after_draw st)))
  /\ (forall p, p <> path -> p <> thumbnail_path w (after_draw st) ->
        fs st' !! p = fs st !! p)
  /\ draws st' = S (S (draws st))
  /\ (thumbnail = None \/ kind <> audio).
Proof.
  unfold ingestion_pipeline in Hrun.
  unfold mbind at 1 in Hrun. unfold io_bind at 1 in Hrun.
  destruct (upload_file_to_storage w f st) as [[[[p k] md] | e] st1] eqn:Hup;
    [| discriminate].
  apply upload_file_to_storage_ok in Hup
    as (Hval & Hkind & Hroom & Hp & Hst1 & Hmd).
  unfold mbind at 1 in Hrun. unfold io_bind at 1 in Hrun.
  assert (Htp : thumbnail_path w st1 = thumbnail_path w (after_draw st))
    by (rewrite Hst1; reflexivity).
  assert (Hne : p <> thumbnail_path w (after_draw st)).
  { rewrite Hp. unfold stored_path, unique_filename, thumbnail_path.
    cbn [after_draw draws].
    destruct (validate_file_ok f Hval) as [kind' Hkind'].
    destruct (get_file_type_ok_extension _ _ Hkind') as [_ Hnosep].
    apply paths_of_distinct_uuids;
      [apply uuid4_int_range | apply uuid4_int_range | exact Huuid
      | exact Hnosep | reflexivity]. }
  assert (Haudio : k = audio ->
            generate_thumbnail w p k st1 = (Ok None, after_draw st1)).
  { intros ->. reflexivity. }
  destruct (generate_thumbnail_cases w p k st1)
    as [H | [H | [(data & H) | (e & He & H)]]];
    cbv zeta in H; rewrite ?Htp in H; rewrite H in Hrun;
    cbn [mret io_ret] in Hrun;
    try discriminate;
    apply pair_equal_spec in Hrun; destruct Hrun as [Hr <-];
    injection Hr as <- <- <- <-;
    rewrite Hst1; cbn [after_draw with_file fs disk_free draws].
  - repeat split; try (left; reflexivity); try assumption.
    + apply lookup_insert_eq.
    + intros q Hq _. apply lookup_insert_ne. congruence.
  - repeat split; try assumption.
    + apply lookup_insert_eq.
    + right. reflexivity.
    + intros q Hq _. apply lookup_insert_ne. congruence.
    + right. intros Hk. specialize (Haudio Hk). congruence.
  - repeat split; try assumption.
    + rewrite lookup_insert_ne by congruence. apply lookup_insert_eq.
    + right. reflexivity.
    + intros q Hq Hq'. rewrite lookup_insert_ne by congruence.
      apply lookup_insert_ne. congruence.
    + right. intros Hk. specialize (Haudio Hk). congruence.
Qed.

Lemma ingestion_keeps_original_witness :
  exists path kind metadata thumbnail st',
    ingestion_pipeline (sample_world "30/1" "12.5") (sample_upload "clip.mp4")
      (fresh_state 100)
    = (Ok (path, kind, metadata, thumbnail), st')
    /\ fs st' !! path = Some (RawBytes (file (sample_upload "clip.mp4")))
    /\ path <> thumbnail_path (sample_world "30/1" "12.5")
                 (after_draw (fresh_state 100)).
Proof.
  destruct (ingestion_pipeline (sample_world "30/1" "12.5")
              (sample_upload "clip.mp4") (fresh_state 100))
    as [[[[[path kind] metadata] thumbnail] | e] st'] eqn:Hrun.
  - exists path, kind, metadata, thumbnail, st'.
    split; [reflexivity |].
    assert (Huuid : uuid4_int (os_urandom (sample_world "30/1" "12.5")
                                 (draws (fresh_state 100)))
                    <> uuid4_int (os_urandom (sample_world "30/1" "12.5")
                                    (S (draws (fresh_state 100)))))
      by (vm_compute; discriminate).
    destruct (ingestion_keeps_original _ _ _ _ _ _ _ _ Hrun Huuid)
      as (H1 & H2 & _).
    split; assumption.
  - vm_compute in Hrun. discriminate Hrun.
Defined.

(** ** Thumbnails of images *)

Lemma never_larger (w h x y : Z) :
  1 <= w -> 1 <= h -> ~ (w <= 320 /\ h <= 240) ->
  1 <= x <= 320 -> 1 <= y <= 240 ->
  (y = 240 /\ Z.abs (x * h - 240 * w) <= h)
  \/ (x = 320 /\ Z.abs (y * w - 320 * h) <= w) ->
  x <= w /\ y <= h.
Proof.
  intros Hw Hh Hfit Hx Hy [[-> H] | [-> H]].
  - assert (H1 : x * h - 240 * w <= h) by lia.
    assert (H2 : 240 * w - x * h <= h) by lia.
    clear H. nia.
  - assert (H1 : y * w - 320 * h <= w) by lia.
    assert (H2 : 320 * h - y * w <= w) by lia.
    clear H. nia.
Qed.

Lemma preserve_aspect_ratio_raises (x y w h : Z) (e : exn) :
  preserve_aspect_ratio x y w h = Raise e -> is_Exception e = true.
Proof.
  assert (Hfloor : forall a e', float_floor a = Raise e' -> is_Exception e' = true).
  { intros [neg m ex | neg |] e'; simpl.
    - destruct (fraction neg m ex). discriminate.
    - intros [= <-]. reflexivity.
    - intros [= <-]. reflexivity. }
  assert (Hceil : forall a e', float_ceil a = Raise e' -> is_Exception e' = true).
  { intros [neg m ex | neg |] e'; simpl.
    - destruct (fraction neg m ex). discriminate.
    - intros [= <-]. reflexivity.
    - intros [= <-]. reflexivity. }
  assert (Hof : forall z e', float_of_int z = Raise e' -> is_Exception e' = true).
  { intros z e'. unfold float_of_int, finite_or_overflow.
    destruct (round64 _ _ _); try discriminate. intros [= <-]. reflexivity. }
  assert (Hdiv : forall a b e', float_div a b = Raise e' -> is_Exception e' = true).
  { intros a b e'. unfold float_div. destruct (float_is_zero b); [| discriminate].
    intros [= <-]. reflexivity. }
  assert (Hround : forall number key e',
            (forall n e'', key n = Raise e'' -> is_Exception e'' = true) ->
            round_aspect number key = Raise e' -> is_Exception e' = true).
  { intros number key e' Hkey. unfold round_aspect.
    destruct (float_floor number) as [lo | e1] eqn:E1; cbn [mbind result_bind];
      [| intros [= <-]; eauto].
    destruct (float_ceil number) as [hi | e2] eqn:E2; cbn [mbind result_bind];
      [| intros [= <-]; eauto].
    destruct (key lo) as [klo | e3] eqn:E3; cbn [mbind result_bind];
      [| intros [= <-]; eauto].
    destruct (key hi) as [khi | e4] eqn:E4; cbn [mbind result_bind];
      [discriminate | intros [= <-]; eauto]. }
  unfold preserve_aspect_ratio.
  destruct ((x >=? w) && (y >=? h)); [discriminate |].
  destruct (int_truediv w h) as [aspect | e1] eqn:E1; cbn [mbind result_bind];
    [| intros [= <-]; eapply int_truediv_raises; eauto].
  destruct (int_truediv x y) as [box | e2] eqn:E2; cbn [mbind result_bind];
    [| intros [= <-]; eapply int_truediv_raises; eauto].
  destruct (float_ge box aspect).
  - destruct (float_of_int y) as [fy | e3] eqn:E3; cbn [mbind result_bind];
      [| intros [= <-]; eauto].
    destruct (round_aspect _ _) as [x' | e4] eqn:E4; cbn [mbind result_bind];
      [discriminate | intros [= <-]].
    eapply Hround; [| exact E4].
    intros n e''. cbv beta. destruct (int_truediv n y) as [q | e5] eqn:E5;
      cbn [mbind result_bind]; [discriminate | intros [= <-]].
    eapply int_truediv_raises; eauto.
  - destruct (float_of_int x) as [fx | e3] eqn:E3; cbn [mbind result_bind];
      [| intros [= <-]; eauto].
    destruct (float_div fx aspect) as [number | e4] eqn:E4; cbn [mbind result_bind];
      [| intros [= <-]; eauto].
    destruct (round_aspect _ _) as [y' | e5] eqn:E5; cbn [mbind result_bind];
      [discriminate | intros [= <-]].
    eapply Hround; [| exact E5].
    intros n e''. cbv beta. destruct (n =? 0); [discriminate |].
    destruct (int_truediv x n) as [q | e6] eqn:E6;
      cbn [mbind result_bind]; [discriminate | intros [= <-]].
    eapply int_truediv_raises; eauto.
Qed.

Lemma Image_thumbnail_raises (img : pil_image) (x y : Z) (e : exn) :
  (forall e', img_load img = Raise e' -> is_Exception e' = true) ->
  Image_thumbnail img x y = Raise e -> is_Exception e = true.
Proof.
  intros Hload. unfold Image_thumbnail.
  destruct (preserve_aspect_ratio _ _ _ _) as [[size |] | e1] eqn:E1;
    cbn [mbind result_bind].
  - destruct (img_load img) as [[] | e2] eqn:E2; cbn [mbind result_bind];
      [discriminate | intros [= <-]; eauto].
  - discriminate.
  - intros [= <-]. eapply preserve_aspect_ratio_raises; eauto.
Qed.

(** X15.  [thumbnail((320, 240))] never enlarges: for an image with
    sides below [2^31] the size afterwards is inside the box and no
    larger than the source on either side.  It changes nothing the
    second time: an image of that size is left as it is, without a
    look at its pixel data. *)
Theorem thumbnail_never_enlarges (img : pil_image) (tw th : Z)
    (Hw : 1 <= img_width img < 2 ^ 31) (Hh : 1 <= img_height img < 2 ^ 31)
    (Hthumb : Image_thumbnail img 320 240 = Ok (tw, th)) :
  1 <= tw <= Z.min 320 (img_width img)
  /\ 1 <= th <= Z.min 240 (img_height img)
  /\ forall img',
       img_width img' = tw -> img_height img' = th ->
       Image_thumbnail img' 320 240 = Ok (tw, th).
Proof.
  assert (Hsize : 1 <= tw <= Z.min 320 (img_width img)
                  /\ 1 <= th <= Z.min 240 (img_height img)).
  { unfold Image_thumbnail in Hthumb.
    destruct (preserve_aspect_ratio_box _ _ Hw Hh)
      as [(H1 & H2 & Heq) | (Hfit & x & y & Heq & Hx & Hy & Hratio)];
      rewrite Heq in Hthumb; cbn [mbind result_bind] in Hthumb.
    - injection Hthumb as <- <-. lia.
    - destruct (img_load img) as [[] | e]; cbn [mbind result_bind] in Hthumb;
        [| discriminate].
      injection Hthumb as <- <-.
      destruct (never_larger (img_width img) (img_height img) x y
                  ltac:(lia) ltac:(lia) Hfit Hx Hy Hratio).
      lia. }
  split; [apply Hsize |]. split; [apply Hsize |].
  intros img' Hw' Hh'. unfold Image_thumbnail, preserve_aspect_ratio.
  rewrite Hw', Hh'.
  replace (320 >=? tw) with true by (symmetry; apply Z.geb_le; lia).
  replace (240 >=? th) with true by (symmetry; apply Z.geb_le; lia).
  cbn [andb mbind result_bind]. rewrite <- Hw', <- Hh'. reflexivity.
Qed.

Lemma thumbnail_never_enlarges_witness :
  exists tw th,
    Image_thumbnail sample_image 320 240 = Ok (tw, th)
    /\ 1 <= tw <= Z.min 320 (img_width sample_image)
    /\ 1 <= th <= Z.min 240 (img_height sample_image).
Proof.
  exists 320, 180.
  assert (H : Image_thumbnail sample_image 320 240 = Ok (320, 180))
    by (vm_compute; reflexivity).
  split; [exact H |].
  destruct (thumbnail_never_enlarges sample_image 320 180) as (H1 & H2 & _).
  - vm_compute. split; [discriminate | reflexivity].
  - vm_compute. split; [discriminate | reflexivity].
  - exact H.
  - split; assumption.
Defined.

(** X16.  An image in a mode that the JPEG encoder refuses -- [RGBA]
    or [P], as PNG and GIF files have them -- gets no thumbnail: the
    failure of [save] is caught, [generate_thumbnail] returns [None]
    and no file is written. *)
Theorem unwritable_mode_gives_no_thumbnail (w : World) (path : string)
    (st : state) (data : file_data) (img : pil_image)
    (Hfile : fs st !! path = Some data)
    (Hopen : image_open w data = Ok img)
    (Hload : forall e, img_load img = Raise e -> is_Exception e = true)
    (Hmode : img_mode img ∉ JPEG_MODES) :
  generate_thumbnail w path image st = (Ok None, after_draw st).
Proof.
  unfold generate_thumbnail, try_except_io, mbind, io_bind, uuid4.
  cbv zeta. fold (after_draw st).
  unfold read, Image_open. cbn [after_draw fs]. rewrite Hfile, Hopen.
  fold (after_draw st). unfold lift at 1.
  destruct (Image_thumbnail img 320 240) as [size | e] eqn:Eth.
  2:{ rewrite (Image_thumbnail_raises img 320 240 e Hload Eth). reflexivity. }
  unfold Image_save_jpeg, mbind, io_bind, lift.
  destruct (img_load img) as [[] | e] eqn:El.
  2:{ rewrite (Hload e eq_refl). reflexivity. }
  rewrite decide_False by exact Hmode. reflexivity.
Qed.

Lemma unwritable_mode_gives_no_thumbnail_witness :
  generate_thumbnail rgba_world "clip.mp4" image stored_state
  = (Ok None, after_draw stored_state).
Proof.
  apply (unwritable_mode_gives_no_thumbnail rgba_world "clip.mp4" stored_state
           (RawBytes (list_ascii_of_string "abcde")) sample_rgba_image).
  - reflexivity.
  - reflexivity.
  - discriminate.
  - vm_compute. discriminate.
Defined.

(** ** The stored path in the transcription route *)

Lemma str_app_assoc (a b c : string) : (a ++ b) ++ c = a ++ b ++ c.
Proof.
  induction a as [| x a IH]; [reflexivity |].
  change (String x ((a ++ b) ++ c) = String x (a ++ b ++ c)).
  rewrite IH. reflexivity.
Qed.

(** A joined path is [prefix ++ name], the prefix being empty or
    ending with the separator; it is absolute when the root is. *)
Lemma path_join_prefix (root name : string) :
  no_char "/" name = true ->
  exists prefix,
    path_join root name = prefix ++ name
    /\ (prefix = "" \/ exists a, prefix = a ++ "/")
    /\ starts_with_sep (prefix ++ name) = starts_with_sep root.
Proof.
  intros Hname. unfold path_join.
  pose proof (no_sep_not_absolute _ Hname) as Hrel. rewrite Hrel.
  destruct (String.eqb_spec root "") as [-> | Hroot]; cbn [orb].
  - exists "". split; [reflexivity |]. split; [left; reflexivity | exact Hrel].
  - assert (Hhead : forall t, starts_with_sep (root ++ t) = starts_with_sep root).
    { intros t. destruct root as [| c r]; [congruence | reflexivity]. }
    destruct (ends_with_sep root) eqn:Hend.
    + exists root. split; [reflexivity |]. split; [| apply Hhead].
      right. apply ends_with_sep_split. exact Hend.
    + exists (root ++ "/"). rewrite str_app_assoc.
      split; [reflexivity |]. split; [right; eauto | apply Hhead].
Qed.

(** X17.  The transcription route takes the stored path of an upload
    as it is when the upload root is absolute.  When the root is
    relative, as the default [./uploads] is, the route puts [uploads/]
    before the stored path -- root included -- and so checks and
    transcribes another path than the one the file was stored at; the
    last component is still the unique name. *)
Theorem transcription_path_of_stored_file (w : World) (f : UploadFile)
    (st : state) (Hval : validate_file f = Ok tt) :
  let path := stored_path w f st in
  transcription_file_path path
  = (if starts_with_sep (UPLOAD_DIR w) then path else "uploads/" ++ path)
  /\ (transcription_file_path path = path
      <-> starts_with_sep (UPLOAD_DIR w) = true)
  /\ basename (transcription_file_path path) = unique_filename w f st.
Proof.
  intros path.
  pose proof (unique_filename_no_sep w f st Hval) as Hname.
  destruct (path_join_prefix (UPLOAD_DIR w) _ Hname) as (prefix & Hp & Hprefix & Hhead).
  fold (stored_path w f st) in Hp. fold path in Hp. rewrite <- Hp in Hhead.
  assert (Heq : transcription_file_path path
                = if starts_with_sep (UPLOAD_DIR w) then path else "uploads/" ++ path).
  { unfold transcription_file_path. rewrite Hhead.
    destruct (starts_with_sep (UPLOAD_DIR w)) eqn:Hroot; [reflexivity |].
    cbn [negb]. unfold path_join. rewrite Hhead. reflexivity. }
  split; [exact Heq |]. rewrite Heq.
  destruct (starts_with_sep (UPLOAD_DIR w)) eqn:Hroot.
  - split; [split; reflexivity |].
    unfold path, stored_path. apply basename_path_join. exact Hname.
  - split.
    + split; [| discriminate]. intros H.
      apply (f_equal String.length) in H. rewrite str_length_app in H.
      change (String.length "uploads/") with 8%nat in H. lia.
    + rewrite Hp. destruct Hprefix as [-> | [a ->]].
      * apply (basename_after_sep "uploads"). exact Hname.
      * rewrite <- !str_app_assoc.
        apply basename_after_sep. exact Hname.
Qed.

Lemma transcription_path_of_stored_file_witness :
  let path := stored_path (sample_world "30/1" "12.5") (sample_upload "clip.mp4")
                (fresh_state 100) in
  transcription_file_path path = "uploads/" ++ path
  /\ path = "./uploads/80000000-0000-4000-8000-000000003039.mp4".
Proof.
  split; [| vm_compute; reflexivity].
  apply (transcription_path_of_stored_file (sample_world "30/1" "12.5")
           (sample_upload "clip.mp4") (fresh_state 100)).
  reflexivity.
Defined.

(** ** The copy loop *)

(** X18.  The copy of the body in chunks of 64 KiB has the effect of
    one write of the whole body onto the opened file: the same bytes
    end up in the file and the same free space is left, and when the
    space runs out the same part of the body stays behind the same
    [OSError]. *)
Theorem copy_is_one_write (src : list ascii) (path : string) (st : state)
    (old : list ascii) (Hopen : fs st !! path = Some (RawBytes old)) :
  copyfileobj src path st = file_write path src st.
Proof.
  rewrite (copyfileobj_spec src path st old Hopen).
  unfold file_write. rewrite Hopen. reflexivity.
Qed.

Lemma copy_is_one_write_witness :
  copyfileobj (list_ascii_of_string "fghij") "clip.mp4" stored_state
  = file_write "clip.mp4" (list_ascii_of_string "fghij") stored_state.
Proof.
  apply (copy_is_one_write (list_ascii_of_string "fghij") "clip.mp4" stored_state
           (list_ascii_of_string "abcde")).
  reflexivity.
Defined.
